(** * A shallow embedding of the trading-bot AI models

    The development follows three Python sources:

    - [price_prediction_model.py]  (feature matrix, ensemble state, predict)
    - [ai_prediction_service.py]   (recommendation engine)
    - [backtesting_system.py]      (trade simulation and risk analytics)

    Python floats are modelled by exact rationals [Q]; rounding is outside
    the model.  Where the source can produce a non-finite float (a division
    by zero in a pandas column, [float('inf')]) the value lives in [fnum].
    The Sharpe ratio needs a square root and is read over the reals; its
    guard compares floats for equality, where rounding decides, so the
    function is also given on IEEE doubles ([BacktestingFloat64]).
    Dictionaries with string keys are [gmap string _]; a pandas frame, whose
    column order matters, is an ordered association list.  Exceptions are
    explicit: a fallible function returns [option] or [PyResult]. *)

From Stdlib Require Import List String Ascii Bool ZArith QArith Qminmax Qabs.
From Stdlib Require Import Lia Reals Psatz.
From Stdlib Require Floats.
From stdpp Require Import gmap strings.
Import ListNotations.

(** ** Numbers *)

(** Python's [a < b] on floats. *)
Definition Qlt_bool (a b : Q) : bool := negb (Qle_bool b a).

(** A float that may be non-finite. *)
Inductive fnum : Type :=
| Fin (q : Q)
| PInf
| NInf
| NaN.

(** IEEE subtraction and division, as numpy and pandas perform them on a
    float column: a zero divisor gives NaN or a signed infinity instead of
    raising.  A difference of equal finite values is the positive zero. *)
Definition fsub (x y : fnum) : fnum :=
  match x, y with
  | NaN, _ | _, NaN => NaN
  | Fin a, Fin b => Fin (a - b)
  | PInf, PInf | NInf, NInf => NaN
  | PInf, _ | _, NInf => PInf
  | NInf, _ | _, PInf => NInf
  end.

Definition fdiv (x y : fnum) : fnum :=
  match x, y with
  | NaN, _ | _, NaN => NaN
  | Fin a, Fin b =>
      if Qeq_bool b 0 then
        (if Qeq_bool a 0 then NaN
         else if Qlt_bool 0 a then PInf else NInf)
      else Fin (a / b)
  | Fin _, _ => Fin 0
  | _, PInf | _, NInf => NaN
  | PInf, Fin b => if Qlt_bool b 0 then NInf else PInf
  | NInf, Fin b => if Qlt_bool b 0 then PInf else NInf
  end.

(** ** Strings *)

(** [str.lower] on ASCII text. *)
Definition lower_ascii (c : ascii) : ascii :=
  let n := nat_of_ascii c in
  if ((65 <=? n) && (n <=? 90))%nat then ascii_of_nat (n + 32) else c.

Fixpoint lower (s : string) : string :=
  match s with
  | EmptyString => EmptyString
  | String c t => String (lower_ascii c) (lower t)
  end.

(** [pat in s]. *)
Fixpoint contains (pat s : string) : bool :=
  String.prefix pat s ||
  match s with
  | EmptyString => false
  | String _ t => contains pat t
  end.

(** ** Exceptions *)

Inductive PyError : Type :=
| KeyError (key : string)
| ValueError
| AttributeError (attr : string)
| IndexError
| TypeError
| NotFittedError.

Inductive PyResult (A : Type) : Type :=
| Ok (a : A)
| Raise (e : PyError).

Arguments Ok {A} a.
Arguments Raise {A} e.

(** Sequencing of computations that may raise. *)
Definition result_bind {A B : Type} (r : PyResult A) (k : A -> PyResult B)
  : PyResult B :=
  match r with
  | Ok a => k a
  | Raise e => Raise e
  end.

Notation "'let+' x ':=' r 'in' k" := (result_bind r (fun x => k))
  (at level 10, x name, r at level 100, k at level 200, only parsing).

(** ** price_prediction_model.py *)

Module PricePredictionModel.

Local Open Scope Q_scope.

(** *** Frames *)

(** A cell of a frame: a float, a string, a boolean, or another object
    (a nested dict, a timestamp). *)
Inductive cell : Type :=
| Num (x : fnum)
| Str (s : string)
| Flag (b : bool)
| Obj.

(** A frame is its columns in order, each with one value per row. *)
Definition DataFrame : Type := list (string * list cell).

(** A Python dict with insertion order, as handed to [predict]. *)
Definition Dict : Type := list (string * cell).

Definition columns (df : DataFrame) : list string := map fst df.

(** [col in df.columns]. *)
Definition has_column (df : DataFrame) (col : string) : bool :=
  existsb (String.eqb col) (columns df).

Fixpoint get_column (df : DataFrame) (col : string) : option (list cell) :=
  match df with
  | [] => None
  | (k, v) :: t => if String.eqb k col then Some v else get_column t col
  end.

(** [df[col] = values]: an existing column is replaced in place, a new one
    is appended. *)
Fixpoint set_column (df : DataFrame) (col : string) (values : list cell)
  : DataFrame :=
  match df with
  | [] => [(col, values)]
  | (k, v) :: t =>
      if String.eqb k col then (k, values) :: t
      else (k, v) :: set_column t col values
  end.

(** [df[cols]], for column names that are in the frame. *)
Fixpoint select (df : DataFrame) (cols : list string) : DataFrame :=
  match cols with
  | [] => []
  | c :: t =>
      match get_column df c with
      | Some v => (c, v) :: select df t
      | None => select df t
      end
  end.

(** [.fillna(0)]: NaN cells become 0; an infinity is not a missing value. *)
Definition fillna_cell (c : cell) : cell :=
  match c with
  | Num NaN => Num (Fin 0)
  | _ => c
  end.

Definition fillna (df : DataFrame) : DataFrame :=
  map (fun '(k, v) => (k, map fillna_cell v)) df.

(** [pd.DataFrame([d])]. *)
Definition DataFrame_of_dict (d : Dict) : DataFrame :=
  map (fun '(k, v) => (k, [v])) d.

(** [(df[col] == label).astype(int)], cell by cell. *)
Definition eq_flag (label : string) (c : cell) : cell :=
  match c with
  | Str s => Num (Fin (if String.eqb s label then 1 else 0))
  | _ => Num (Fin 0)
  end.

(** *** The Bollinger block of [engineer_features] *)

Definition cell_float (c : cell) : option fnum :=
  match c with
  | Num x => Some x
  | Flag b => Some (Fin (if b then 1 else 0))
  | _ => None
  end.

(** [(price - lower) / (upper - lower)] on one record. *)
Definition bb_position (price lower upper : fnum) : fnum :=
  fdiv (fsub price lower) (fsub upper lower).

Fixpoint bb_position_column (price lower upper : list cell)
  : PyResult (list cell) :=
  match price, lower, upper with
  | p :: ps, l :: ls, u :: us =>
      match cell_float p, cell_float l, cell_float u with
      | Some p', Some l', Some u' =>
          match bb_position_column ps ls us with
          | Ok rest => Ok (Num (bb_position p' l' u') :: rest)
          | Raise e => Raise e
          end
      | _, _, _ => Raise TypeError
      end
  | _, _, _ => Ok []
  end.

(** [int(x)]: truncation toward zero. *)
Definition py_int (x : Q) : Z := Z.quot (Qnum x) (Zpos (Qden x)).

(** [.astype(int)], cell by cell: a missing or infinite value cannot be
    converted, nor can text. *)
Definition astype_int (c : cell) : PyResult cell :=
  match c with
  | Flag b => Ok (Num (Fin (if b then 1 else 0)))
  | Num (Fin q) => Ok (Num (Fin (inject_Z (py_int q))))
  | Num _ => Raise ValueError
  | Str _ => Raise ValueError
  | Obj => Raise TypeError
  end.

Fixpoint astype_int_column (l : list cell) : PyResult (list cell) :=
  match l with
  | [] => Ok []
  | c :: t =>
      let+ c' := astype_int c in
      let+ t' := astype_int_column t in
      Ok (c' :: t')
  end.

Definition column_or_raise (df : DataFrame) (col : string)
  : PyResult (list cell) :=
  match get_column df col with
  | Some v => Ok v
  | None => Raise (KeyError col)
  end.

(** Lines 89-92 of [engineer_features]. *)
Definition bollinger_band_features (snapshots_df : DataFrame)
  : PyResult DataFrame :=
  if has_column snapshots_df "bollingerBands.upper" then
    match column_or_raise snapshots_df "price",
          column_or_raise snapshots_df "bollingerBands.lower",
          column_or_raise snapshots_df "bollingerBands.upper" with
    | Ok price, Ok lower, Ok upper =>
        match bb_position_column price lower upper with
        | Ok pos =>
            let df := set_column snapshots_df "bb_position" pos in
            let+ squeeze := column_or_raise df "bollingerBands.squeeze" in
            let+ flags := astype_int_column squeeze in
            Ok (set_column df "bb_squeeze" flags)
        | Raise e => Raise e
        end
    | Raise e, _, _ | _, Raise e, _ | _, _, Raise e => Raise e
    end
  else Ok snapshots_df.

(** *** [prepare_features] *)

Definition base_feature_cols : list string :=
  ["price"; "hour"; "minute"; "day_of_week";
   "is_opening_hour"; "is_closing_hour"]%string.

Definition technical_indicators : list string :=
  ["ema"; "rsi"; "momentum"; "volatility"; "bb_";
   "price_change"; "price_ma"]%string.

Definition is_technical (col : string) : bool :=
  existsb (fun indicator => contains indicator (lower col))
          technical_indicators.

(** The result is the feature matrix [X], the list stored in
    [self.feature_columns], and the input frame as the call leaves it. *)
Definition prepare_features (df : DataFrame)
  : DataFrame * list string * DataFrame :=
  let feature_cols := base_feature_cols in
  let technical_cols := List.filter is_technical (columns df) in
  let feature_cols := feature_cols ++ technical_cols in
  let '(df, feature_cols) :=
    match get_column df "trend" with
    | Some trend =>
        let df := set_column df "trend_bullish"
                    (map (eq_flag "BULLISH") trend) in
        let df := set_column df "trend_bearish"
                    (map (eq_flag "BEARISH") trend) in
        (df, feature_cols ++ ["trend_bullish"; "trend_bearish"]%string)
    | None => (df, feature_cols)
    end in
  let '(df, feature_cols) :=
    match get_column df "volatilityRegime" with
    | Some regime =>
        let df := set_column df "vol_high" (map (eq_flag "HIGH") regime) in
        let df := set_column df "vol_medium"
                    (map (eq_flag "MEDIUM") regime) in
        (df, feature_cols ++ ["vol_high"; "vol_medium"]%string)
    | None => (df, feature_cols)
    end in
  let available_cols := List.filter (has_column df) feature_cols in
  let X := fillna (select df available_cols) in
  (X, available_cols, df).

(** *** The ensemble *)

(** The estimator classes the module instantiates.  In scikit-learn only
    a classifier has a [predict_proba] method. *)
Inductive EstimatorClass : Type :=
| RandomForestRegressor
| GradientBoostingRegressor
| RandomForestClassifier.

Definition has_predict_proba (c : EstimatorClass) : bool :=
  match c with
  | RandomForestClassifier => true
  | _ => false
  end.

(** A fitted estimator, applied to the one scaled row that [predict]
    builds: [est_predict] is [.predict(X_scaled)[0]] and [est_proba] is
    [.predict_proba(X_scaled)[0]]. *)
Record Estimator : Type := {
  est_class : EstimatorClass;
  est_predict : list Q -> Q;
  est_proba : list Q -> list Q
}.

Definition predict_proba (m : Estimator) (x : list Q) : PyResult (list Q) :=
  if has_predict_proba (est_class m) then Ok (est_proba m x)
  else Raise (AttributeError "predict_proba").

(** The parameters of a fitted [StandardScaler].  In [self.scalers] a
    scaler that was constructed and not yet fitted is [None]. *)
Record StandardScaler : Type := {
  n_features_in_ : nat;
  mean_ : list Q;
  scale_ : list Q
}.

(** A fitted [LabelEncoder]. *)
Record LabelEncoder : Type := {
  classes_ : list string
}.

(** A cell as a finite number, or the [ValueError] of scikit-learn's
    input validation. *)
Definition cell_number (c : cell) : PyResult Q :=
  match c with
  | Num (Fin q) => Ok q
  | Flag b => Ok (if b then 1 else 0)
  | _ => Raise ValueError
  end.

Fixpoint scale_row (i : nat) (sc : StandardScaler) (row : list cell)
  : PyResult (list Q) :=
  match row with
  | [] => Ok []
  | c :: t =>
      match cell_number c with
      | Ok q =>
          match scale_row (S i) sc t with
          | Ok rest =>
              Ok ((q - nth i (mean_ sc) 0) / nth i (scale_ sc) 1 :: rest)
          | Raise e => Raise e
          end
      | Raise e => Raise e
      end
  end.

(** The first row of a frame. *)
Definition first_row (X : DataFrame) : list cell :=
  map (fun '(_, v) => hd (Num NaN) v) X.

(** [scaler.transform(X)] for a one-row [X]: the width is checked against
    the width seen by [fit]. *)
Definition transform (scaler : option StandardScaler) (X : DataFrame)
  : PyResult (list Q) :=
  match scaler with
  | None => Raise NotFittedError
  | Some sc =>
      if Nat.eqb (length X) (n_features_in_ sc)
      then scale_row 0 sc (first_row X)
      else Raise ValueError
  end.

(** [encoder.inverse_transform([k])[0]]. *)
Definition inverse_transform (enc : LabelEncoder) (k : Z) : PyResult string :=
  if (k <? 0)%Z then Raise ValueError
  else match nth_error (classes_ enc) (Z.to_nat k) with
       | Some label => Ok label
       | None => Raise ValueError
       end.

(** Python's [max] of a list. *)
Definition py_max (l : list Q) : PyResult Q :=
  match l with
  | [] => Raise ValueError
  | x :: t => Ok (fold_left Qmax t x)
  end.

(** The dict [predict] returns: an absent key is [None]. *)
Record Prediction : Type := {
  p_direction : option string;
  p_direction_confidence : option Q;
  p_success_probability : option Q;
  p_expected_profit_percent : option Q
}.

Definition no_prediction : Prediction :=
  {| p_direction := None; p_direction_confidence := None;
     p_success_probability := None; p_expected_profit_percent := None |}.

(** The attributes of a [TradingAIPredictionModel]. *)
Record Ensemble : Type := {
  models : gmap string (option Estimator);
  scalers : gmap string (option StandardScaler);
  feature_columns : list string;
  label_encoders : gmap string LabelEncoder
}.

(** [__init__]. *)
Definition init : Ensemble :=
  {| models := {[ "price_direction"%string := None;
                  "price_target"%string := None;
                  "volatility"%string := None;
                  "success_probability"%string := None ]};
     scalers := ∅;
     feature_columns := [];
     label_encoders := ∅ |}.

(** Methods thread the object and may raise. *)
Definition Py (A : Type) : Type := Ensemble -> PyResult A * Ensemble.

Definition py_ret {A : Type} (a : A) : Py A := fun st => (Ok a, st).

Definition py_bind {A B : Type} (m : Py A) (k : A -> Py B) : Py B :=
  fun st =>
    match m st with
    | (Ok a, st') => k a st'
    | (Raise e, st') => (Raise e, st')
    end.

Definition py_lift {A : Type} (r : PyResult A) : Py A := fun st => (r, st).

Definition py_get : Py Ensemble := fun st => (Ok st, st).

Definition py_modify (f : Ensemble -> Ensemble) : Py unit :=
  fun st => (Ok tt, f st).

Notation "'let*' x ':=' m 'in' k" := (py_bind m (fun x => k))
  (at level 10, x name, m at level 100, k at level 200, only parsing).

(** [d[key]]. *)
Definition subscript {V : Type} (d : gmap string V) (key : string)
  : PyResult V :=
  match d !! key with
  | Some v => Ok v
  | None => Raise (KeyError key)
  end.

Definition set_feature_columns (cols : list string) (st : Ensemble)
  : Ensemble :=
  {| models := models st; scalers := scalers st;
     feature_columns := cols; label_encoders := label_encoders st |}.

Definition set_scaler (key : string) (sc : option StandardScaler)
  (st : Ensemble) : Ensemble :=
  {| models := models st; scalers := <[key := sc]> (scalers st);
     feature_columns := feature_columns st;
     label_encoders := label_encoders st |}.

Definition set_label_encoder (key : string) (enc : LabelEncoder)
  (st : Ensemble) : Ensemble :=
  {| models := models st; scalers := scalers st;
     feature_columns := feature_columns st;
     label_encoders := <[key := enc]> (label_encoders st) |}.

Definition set_model (key : string) (m : option Estimator) (st : Ensemble)
  : Ensemble :=
  {| models := <[key := m]> (models st); scalers := scalers st;
     feature_columns := feature_columns st;
     label_encoders := label_encoders st |}.

(** [self.prepare_features(df)] as a method: it stores the column list.
    The result is [X] together with [df] as the call leaves it. *)
Definition prepare_features_method (df : DataFrame)
  : Py (DataFrame * DataFrame) :=
  let '(X, available_cols, df) := prepare_features df in
  let* _ := py_modify (set_feature_columns available_cols) in
  py_ret (X, df).

(** *** Training *)

(** What scikit-learn computes while fitting is not modelled: the fitted
    parameters come from an oracle, and a fit is taken to succeed on any
    numeric input.  [sk_cv_score] is the mean score of a candidate over
    the time-series split; the split itself, which raises on fewer than
    four rows, is taken to succeed as well. *)
Record Sklearn : Type := {
  sk_mean : DataFrame -> list Q;
  sk_scale : DataFrame -> list Q;
  sk_classes : list cell -> list string;
  sk_cv_score : EstimatorClass -> Q;
  sk_predict : EstimatorClass -> string -> list Q -> Q;
  sk_proba : EstimatorClass -> string -> list Q -> list Q
}.

Definition fitted (sk : Sklearn) (c : EstimatorClass) (target : string)
  : Estimator :=
  {| est_class := c;
     est_predict := sk_predict sk c target;
     est_proba := sk_proba sk c target |}.

Definition is_number (c : cell) : bool :=
  match cell_number c with Ok _ => true | Raise _ => false end.

(** [StandardScaler().fit(X)]: the input must be numeric and finite. *)
Definition fit_scaler (sk : Sklearn) (X : DataFrame)
  : PyResult StandardScaler :=
  if forallb (fun '(_, v) => forallb is_number v) X then
    Ok {| n_features_in_ := length X;
          mean_ := sk_mean sk X;
          scale_ := sk_scale sk X |}
  else Raise ValueError.

Definition models_to_test : list EstimatorClass :=
  [RandomForestRegressor; GradientBoostingRegressor].

(** The selection loop of [train_direction_model]. *)
Fixpoint select_best (sk : Sklearn) (candidates : list EstimatorClass)
  (best_score : Q) (best_model : option Estimator) : option Estimator :=
  match candidates with
  | [] => best_model
  | c :: rest =>
      let avg_score := sk_cv_score sk c in
      if Qlt_bool best_score avg_score
      then select_best sk rest avg_score
             (Some (fitted sk c "price_direction"))
      else select_best sk rest best_score best_model
  end.

Definition train_direction_model (sk : Sklearn) (df : DataFrame) : Py unit :=
  match get_column df "price_direction" with
  | None => py_ret tt
  | Some labels =>
      let* _ := py_modify (set_label_encoder "direction"
                             {| classes_ := sk_classes sk labels |}) in
      let best_model := select_best sk models_to_test 0 None in
      py_modify (set_model "price_direction" best_model)
  end.

Definition train_success_probability_model (sk : Sklearn) (df : DataFrame)
  : Py unit :=
  if has_column df "trade_success" then
    py_modify (set_model "success_probability"
                 (Some (fitted sk RandomForestClassifier "trade_success")))
  else py_ret tt.

Definition train_profit_regression_model (sk : Sklearn) (df : DataFrame)
  : Py unit :=
  if has_column df "profit_loss_percent" then
    py_modify (set_model "price_target"
                 (Some (fitted sk GradientBoostingRegressor
                          "profit_loss_percent")))
  else py_ret tt.

(** [train_models]. *)
Definition train_models (sk : Sklearn) (df : DataFrame) : Py unit :=
  let* prepared := prepare_features_method df in
  let X := fst prepared in
  let df := snd prepared in
  let* _ := py_modify (set_scaler "main" None) in
  let* scaler := py_lift (fit_scaler sk X) in
  let* _ := py_modify (set_scaler "main" (Some scaler)) in
  let* _ := train_direction_model sk df in
  let* _ := train_success_probability_model sk df in
  train_profit_regression_model sk df.

(** The three blocks of [predict]; none of them touches the object.  A
    fitted estimator is a true value, [None] a false one. *)
Definition direction_block (self : Ensemble) (X_scaled : list Q)
  (predictions : Prediction) : PyResult Prediction :=
  let+ model := subscript (models self) "price_direction" in
  match model with
  | Some m =>
      let direction_pred := est_predict m X_scaled in
      let+ encoder := subscript (label_encoders self) "direction" in
      let+ label := inverse_transform encoder (py_int direction_pred) in
      let+ proba := predict_proba m X_scaled in
      let+ confidence := py_max proba in
      Ok {| p_direction := Some label;
            p_direction_confidence := Some confidence;
            p_success_probability := p_success_probability predictions;
            p_expected_profit_percent :=
              p_expected_profit_percent predictions |}
  | None => Ok predictions
  end.

Definition success_block (self : Ensemble) (X_scaled : list Q)
  (predictions : Prediction) : PyResult Prediction :=
  let+ model := subscript (models self) "success_probability" in
  match model with
  | Some m =>
      let+ proba := predict_proba m X_scaled in
      let+ success_proba :=
        match nth_error proba 1 with
        | Some p => Ok p
        | None => Raise IndexError
        end in
      Ok {| p_direction := p_direction predictions;
            p_direction_confidence := p_direction_confidence predictions;
            p_success_probability := Some success_proba;
            p_expected_profit_percent :=
              p_expected_profit_percent predictions |}
  | None => Ok predictions
  end.

Definition target_block (self : Ensemble) (X_scaled : list Q)
  (predictions : Prediction) : PyResult Prediction :=
  let+ model := subscript (models self) "price_target" in
  match model with
  | Some m =>
      let profit_pred := est_predict m X_scaled in
      Ok {| p_direction := p_direction predictions;
            p_direction_confidence := p_direction_confidence predictions;
            p_success_probability := p_success_probability predictions;
            p_expected_profit_percent := Some profit_pred |}
  | None => Ok predictions
  end.

(** [predict], called with a dict. *)
Definition predict (market_data : Dict) : Py Prediction :=
  let market_data := DataFrame_of_dict market_data in
  let* prepared := prepare_features_method market_data in
  let X := fst prepared in
  let* self := py_get in
  py_lift
    (let+ scaler := subscript (scalers self) "main" in
     let+ X_scaled := transform scaler X in
     let predictions := no_prediction in
     let+ predictions := direction_block self X_scaled predictions in
     let+ predictions := success_block self X_scaled predictions in
     target_block self X_scaled predictions).

End PricePredictionModel.

(** ** ai_prediction_service.py *)

Module AiPredictionService.

Import PricePredictionModel.

Local Open Scope Q_scope.

(** A JSON value of a request body. *)
#[warnings="-register-all"]
Inductive json : Type :=
| JNull
| JBool (b : bool)
| JNum (q : Q)
| JStr (s : string)
| JObj (o : gmap string json).

(** A JSON value where Python compares it with a float: [bool] is a
    subclass of [int], anything else raises [TypeError]. *)
Definition as_number (j : json) : PyResult Q :=
  match j with
  | JNum q => Ok q
  | JBool b => Ok (if b then 1 else 0)
  | _ => Raise TypeError
  end.

Definition json_cell (j : json) : cell :=
  match j with
  | JNull => Num NaN
  | JBool b => Flag b
  | JNum q => Num (Fin q)
  | JStr s => Str s
  | JObj _ => Obj
  end.

(** [datetime.now()], as far as the service reads it. *)
Record Clock : Type := {
  hour : Z;
  minute : Z;
  weekday : Z
}.

Inductive Action : Type := HOLD | BUY | SELL.

Inductive RiskLevel : Type := LOW | MEDIUM | HIGH.

(** The reasoning entries.  Each f-string prints its argument with two
    decimals; the entry keeps the argument. *)
Inductive Reason : Type :=
| PredictsUpward (direction_confidence : Q)
| PredictsDownward (direction_confidence : Q)
| PredictsLowConfidence (direction_lower : string)
| HighSuccessProbability (success_prob : Q)
| LowSuccessProbability (success_prob : Q)
| PositiveSentiment (sentiment_value : Q)
| NegativeSentiment (sentiment_value : Q)
| MarketCloseProximity.

(** The keys of the sentiment dict that the service reads.  A [None]
    argument stands for a falsy [sentiment_score]. *)
Record Sentiment : Type := {
  compound_score : option Q;
  sentiment_confidence : option Q
}.

Record Recommendation : Type := {
  action : Action;
  confidence : Q;
  reasoning : list Reason;
  risk_level : RiskLevel;
  position_size : Q
}.

Definition set_action (a : Action) (r : Recommendation) : Recommendation :=
  {| action := a; confidence := confidence r; reasoning := reasoning r;
     risk_level := risk_level r; position_size := position_size r |}.

Definition set_confidence (c : Q) (r : Recommendation) : Recommendation :=
  {| action := action r; confidence := c; reasoning := reasoning r;
     risk_level := risk_level r; position_size := position_size r |}.

Definition append_reasoning (x : Reason) (r : Recommendation)
  : Recommendation :=
  {| action := action r; confidence := confidence r;
     reasoning := reasoning r ++ [x];
     risk_level := risk_level r; position_size := position_size r |}.

Definition set_risk (size : Q) (level : RiskLevel) (r : Recommendation)
  : Recommendation :=
  {| action := action r; confidence := confidence r; reasoning := reasoning r;
     risk_level := level; position_size := size |}.

Definition is_buy (a : Action) : bool :=
  match a with BUY => true | _ => false end.

Definition is_sell (a : Action) : bool :=
  match a with SELL => true | _ => false end.

(** The direction block. *)
Definition apply_direction (predictions : Prediction) (r : Recommendation)
  : Recommendation :=
  match p_direction predictions with
  | Some direction =>
      let direction_confidence :=
        default 0.5 (p_direction_confidence predictions) in
      if String.eqb direction "UP" && Qlt_bool 0.7 direction_confidence then
        append_reasoning (PredictsUpward direction_confidence)
          (set_action BUY r)
      else if String.eqb direction "DOWN"
              && Qlt_bool 0.7 direction_confidence then
        append_reasoning (PredictsDownward direction_confidence)
          (set_action SELL r)
      else append_reasoning (PredictsLowConfidence (lower direction)) r
  | None => r
  end.

(** The success-probability block. *)
Definition apply_success_probability (predictions : Prediction)
  (r : Recommendation) : Recommendation :=
  match p_success_probability predictions with
  | Some success_prob =>
      if Qlt_bool 0.8 success_prob then
        append_reasoning (HighSuccessProbability success_prob)
          (set_confidence (Qmin 1.0 (confidence r + 0.3)) r)
      else if Qlt_bool success_prob 0.4 then
        append_reasoning (LowSuccessProbability success_prob)
          (set_confidence (Qmax 0.1 (confidence r - 0.3)) (set_action HOLD r))
      else r
  | None => r
  end.

(** The sentiment block. *)
Definition apply_sentiment (sentiment_score : option Sentiment)
  (r : Recommendation) : Recommendation :=
  match sentiment_score with
  | Some s =>
      let sentiment_value := default 0 (compound_score s) in
      if Qlt_bool 0.3 sentiment_value then
        let r := if is_buy (action r)
                 then set_confidence (Qmin 1.0 (confidence r + 0.1)) r
                 else r in
        append_reasoning (PositiveSentiment sentiment_value) r
      else if Qlt_bool sentiment_value (-0.3) then
        let r := if is_sell (action r)
                 then set_confidence (Qmin 1.0 (confidence r + 0.1)) r
                 else r in
        append_reasoning (NegativeSentiment sentiment_value) r
      else r
  | None => r
  end.

(** The volatility block, on the value read from [market_data]. *)
Definition apply_volatility (volatility : Q) (r : Recommendation)
  : Recommendation :=
  if Qlt_bool 0.25 volatility then set_risk 0.7 HIGH r
  else if Qlt_bool volatility 0.10 then set_risk 1.3 LOW r
  else r.

(** The time block; [hour] is [datetime.now().hour]. *)
Definition apply_market_close (hour : Z) (r : Recommendation)
  : Recommendation :=
  if (15 <=? hour)%Z then
    append_reasoning MarketCloseProximity
      (set_risk (position_size r * 0.8) (risk_level r) r)
  else r.

Definition seed_recommendation : Recommendation :=
  {| action := HOLD; confidence := 0.5; reasoning := [];
     risk_level := MEDIUM; position_size := 1.0 |}.

(** [generate_trading_recommendation]; the clock it reads is the last
    argument. *)
Definition generate_trading_recommendation (predictions : Prediction)
  (sentiment_score : option Sentiment) (market_data : gmap string json)
  (hour : Z) : PyResult Recommendation :=
  let recommendation := seed_recommendation in
  let recommendation := apply_direction predictions recommendation in
  let recommendation := apply_success_probability predictions recommendation in
  let recommendation := apply_sentiment sentiment_score recommendation in
  let volatility := default (JNum 0.15) (market_data !! "volatility"%string) in
  match as_number volatility with
  | Raise e => Raise e
  | Ok volatility =>
      let recommendation := apply_volatility volatility recommendation in
      Ok (apply_market_close hour recommendation)
  end.

(** [np.mean] of a non-empty list. *)
Definition np_mean (l : list Q) : Q :=
  fold_left Qplus l 0 / inject_Z (Z.of_nat (length l)).

Definition calculate_overall_confidence (predictions : Prediction)
  (sentiment_score : option Sentiment) : Q :=
  let confidence_factors :=
    match p_direction_confidence predictions with
    | Some c => [c] | None => [] end
    ++ match p_success_probability predictions with
       | Some p => [p] | None => [] end
    ++ match sentiment_score with
       | Some s => match sentiment_confidence s with
                   | Some c => [c] | None => [] end
       | None => []
       end in
  match confidence_factors with
  | [] => 0.5
  | _ => np_mean confidence_factors
  end.

(** [d.get(key, {})] followed by [.get] calls: the value must be an
    object. *)
Definition get_object (d : gmap string json) (key : string)
  : PyResult (gmap string json) :=
  match d !! key with
  | None => Ok ∅
  | Some (JObj o) => Ok o
  | Some _ => Raise (AttributeError "get")
  end.

(** Python's truth value of a JSON value. *)
Definition truthy (j : json) : bool :=
  match j with
  | JNull => false
  | JBool b => b
  | JNum q => negb (Qeq_bool q 0)
  | JStr s => negb (String.eqb s "")
  | JObj o => negb (bool_decide (o = ∅))
  end.

(** [bb = d.get(key, {})] guarded by [if bb:]: a falsy value is skipped
    whatever its type. *)
Definition get_object_if_truthy (d : gmap string json) (key : string)
  : PyResult (gmap string json) :=
  match d !! key with
  | None => Ok ∅
  | Some (JObj o) => Ok o
  | Some j => if truthy j then Raise (AttributeError "get") else Ok ∅
  end.

Definition get_cell (d : gmap string json) (key : string) (dflt : cell)
  : cell :=
  match d !! key with
  | Some j => json_cell j
  | None => dflt
  end.

(** [prepare_market_data_for_prediction]: the flat dict handed to
    [predict], in insertion order. *)
Definition prepare_market_data_for_prediction (data : gmap string json)
  (now : Clock) : PyResult Dict :=
  let+ price := subscript data "currentPrice" in
  let+ index_name := subscript data "indexName" in
  let h := hour now in
  let market_data : Dict :=
    [("price", json_cell price);
     ("indexName", json_cell index_name);
     ("hour", Num (Fin (inject_Z h)));
     ("minute", Num (Fin (inject_Z (minute now))));
     ("day_of_week", Num (Fin (inject_Z (weekday now))));
     ("is_opening_hour", Flag ((9 <=? h)%Z && (h <? 11)%Z));
     ("is_closing_hour", Flag ((14 <=? h)%Z && (h <? 16)%Z))]%string in
  let+ indicators := get_object data "indicators" in
  let market_data := market_data ++
    [("ema", get_cell indicators "ema" (Num (Fin 0)));
     ("rsi", get_cell indicators "rsi" (Num (Fin 50)));
     ("momentum", get_cell indicators "momentum" (Num (Fin 0)));
     ("volatility", get_cell indicators "volatility" (Num (Fin 0.15)))
    ]%string in
  let+ bb := get_object_if_truthy indicators "bollingerBands" in
  let market_data :=
    if decide (bb = ∅) then market_data
    else market_data ++
      [("bollingerBands.upper", get_cell bb "upper" (Num (Fin 0)));
       ("bollingerBands.middle", get_cell bb "middle" (Num (Fin 0)));
       ("bollingerBands.lower", get_cell bb "lower" (Num (Fin 0)));
       ("bollingerBands.squeeze", get_cell bb "squeeze" (Flag false))
      ]%string in
  let+ conditions := get_object data "marketConditions" in
  Ok (market_data ++
    [("trend", get_cell conditions "trend" (Str "SIDEWAYS"));
     ("volatilityRegime",
      get_cell conditions "volatilityRegime" (Str "MEDIUM"));
     ("timeOfDay", get_cell conditions "timeOfDay" (Str "MID_DAY"))
    ]%string).

(** The body of a successful [/predict] response, or the error status. *)
Inductive Response : Type :=
| Success (aiPredictions : Prediction)
          (tradingRecommendation : Recommendation) (overall : Q)
| Failure (status : Z).

Definition required_fields : list string :=
  ["indexName"; "currentPrice"; "indicators"]%string.

(** [predict_price_movement]: [model_loaded] is the global flag,
    [sentiment_score] what the sentiment analyzer returned ([None] when it
    raised), [now] the clock.  Every exception becomes status 500. *)
Definition predict_price_movement (model_loaded : bool)
  (data : gmap string json) (sentiment_score : option Sentiment)
  (now : Clock) : Ensemble -> Response * Ensemble :=
  fun ai_model =>
    if negb model_loaded then (Failure 500, ai_model)
    else if negb (forallb (fun field => bool_decide (is_Some (data !! field)))
                    required_fields)
    then (Failure 400, ai_model)
    else
      match prepare_market_data_for_prediction data now with
      | Raise _ => (Failure 500, ai_model)
      | Ok market_data =>
          match predict market_data ai_model with
          | (Raise _, ai_model) => (Failure 500, ai_model)
          | (Ok predictions, ai_model) =>
              match generate_trading_recommendation predictions
                      sentiment_score data (hour now) with
              | Raise _ => (Failure 500, ai_model)
              | Ok trading_signal =>
                  (Success predictions trading_signal
                     (calculate_overall_confidence predictions
                        sentiment_score),
                   ai_model)
              end
          end
      end.

End AiPredictionService.

(** ** backtesting_system.py *)

Module BacktestingSystem.

Local Open Scope Q_scope.

Inductive Outcome : Type := TARGET_HIT | STOP_LOSS_HIT | MANUAL_EXIT.

(** The draws of numpy's global generator that one trade consumes. *)
Record RandomSource : Type := {
  random : Q;                 (* np.random.random()          *)
  uniform : Q -> Q -> Q;      (* np.random.uniform(low, high) *)
  randint : Z -> Z -> Z       (* np.random.randint(low, high) *)
}.

(** The ranges numpy documents for those draws. *)
Definition well_ranged (g : RandomSource) : Prop :=
  (0 <= random g /\ random g < 1) /\
  (forall lo hi, lo < hi -> lo <= uniform g lo hi /\ uniform g lo hi < hi) /\
  (forall lo hi, (lo < hi)%Z -> (lo <= randint g lo hi < hi)%Z).

(** A row of the historical frame, as [simulate_trade] reads it. *)
Record Row : Type := {
  row_timestamp : Z;
  row_price : Q;
  row_indicators : gmap string Q
}.

(** [signal_data]: the keys [simulate_trade] reads.  A [None] argument
    stands for a falsy [signal_data] ([None] or an empty dict). *)
Record SignalData : Type := {
  sig_direction : option string;
  sig_confidence : option Q
}.

Record TradeOutcome : Type := {
  o_exit_price : Q;
  o_result : Outcome;
  o_profit_loss : Q;
  o_profit_loss_percent : Q;
  o_duration_minutes : Z
}.

Record Trade : Type := {
  timestamp : Z;
  strategy : string;
  direction : string;
  entry_price : Q;
  target_price : Q;
  stop_loss_price : Q;
  exit_price : Q;
  outcome : Outcome;
  profit_loss : Q;
  profit_loss_percent : Q;
  confidence : Q;
  duration_minutes : Z
}.

(** [simulate_trade_outcome].  The quotient by [entry_price] is not a
    finite number when the entry price is zero; the model returns [None]
    there. *)
Definition simulate_trade_outcome
  (entry_price target_price stop_loss_price confidence : Q)
  (g : RandomSource) : option TradeOutcome :=
  let target_probability := confidence * 0.7 in
  let rand := random g in
  let '(exit_price, result, duration) :=
    if Qlt_bool rand target_probability then
      let slippage_factor := uniform g 0.95 1.0 in
      (target_price * slippage_factor, TARGET_HIT, randint g 5 120)
    else if Qlt_bool rand (target_probability + 0.6) then
      let slippage_factor := uniform g 1.0 1.05 in
      (stop_loss_price * slippage_factor, STOP_LOSS_HIT, randint g 2 60)
    else
      let exit_factor := uniform g 0.98 1.02 in
      (entry_price * exit_factor, MANUAL_EXIT, randint g 10 90) in
  let profit_loss := exit_price - entry_price in
  if Qeq_bool entry_price 0 then None
  else
    Some {| o_exit_price := exit_price;
            o_result := result;
            o_profit_loss := profit_loss;
            o_profit_loss_percent := (profit_loss / entry_price) * 100;
            o_duration_minutes := duration |}.

(** [simulate_trade]; [None] is the [except] branch. *)
Definition simulate_trade (row : Row) (strategy_type : string)
  (signal_data : option SignalData) (g : RandomSource) : option Trade :=
  let entry_price := row_price row in
  let '(direction, confidence) :=
    match signal_data with
    | Some sd =>
        (default "UP"%string (sig_direction sd),
         default 0.6 (sig_confidence sd))
    | None =>
        let momentum := default 0 (row_indicators row !! "momentum"%string) in
        ((if Qlt_bool 0 momentum then "UP" else "DOWN")%string, 0.6)
    end in
  let '(target_price, stop_loss_price) :=
    if String.eqb direction "UP" then
      (entry_price * 1.30, entry_price * 0.80)
    else
      (entry_price * 0.70, entry_price * 1.20) in
  match simulate_trade_outcome entry_price target_price stop_loss_price
          confidence g with
  | None => None
  | Some o =>
      Some {| timestamp := row_timestamp row;
              strategy := strategy_type;
              direction := direction;
              entry_price := entry_price;
              target_price := target_price;
              stop_loss_price := stop_loss_price;
              exit_price := o_exit_price o;
              outcome := o_result o;
              profit_loss := o_profit_loss o;
              profit_loss_percent := o_profit_loss_percent o;
              confidence := confidence;
              duration_minutes := o_duration_minutes o |}
  end.

(** *** Risk analytics *)

(** [np.cumsum]. *)
Fixpoint cumsum_from (acc : Q) (l : list Q) : list Q :=
  match l with
  | [] => []
  | x :: t => (acc + x) :: cumsum_from (acc + x) t
  end.

Definition cumsum (l : list Q) : list Q :=
  match l with
  | [] => []
  | x :: t => x :: cumsum_from x t
  end.

(** [np.maximum.accumulate]. *)
Fixpoint maximum_accumulate_from (m : Q) (l : list Q) : list Q :=
  match l with
  | [] => []
  | x :: t => Qmax m x :: maximum_accumulate_from (Qmax m x) t
  end.

Definition maximum_accumulate (l : list Q) : list Q :=
  match l with
  | [] => []
  | x :: t => x :: maximum_accumulate_from x t
  end.

(** Element-wise difference of two arrays of one length. *)
Fixpoint subtract (a b : list Q) : list Q :=
  match a, b with
  | x :: a', y :: b' => (x - y) :: subtract a' b'
  | _, _ => []
  end.

(** [np.min] and [np.max]: a zero-size array raises. *)
Definition np_min (l : list Q) : option Q :=
  match l with
  | [] => None
  | x :: t => Some (fold_left Qmin t x)
  end.

Definition np_max (l : list Q) : option Q :=
  match l with
  | [] => None
  | x :: t => Some (fold_left Qmax t x)
  end.

Definition calculate_max_drawdown (returns : list Q) : option Q :=
  let cumulative_returns := cumsum returns in
  let running_max := maximum_accumulate cumulative_returns in
  let drawdown := subtract cumulative_returns running_max in
  np_min drawdown.

Definition Qsum (l : list Q) : Q := fold_left Qplus l 0.

Definition Qmean (l : list Q) : Q := Qsum l / inject_Z (Z.of_nat (length l)).

(** The Sharpe ratio, read over the reals: what the expressions of
    [calculate_sharpe_ratio] denote before rounding.  The function as it
    runs on doubles is [BacktestingFloat64.calculate_sharpe_ratio]. *)
Section Sharpe.
Local Open Scope R_scope.

Definition Rsum (l : list R) : R := fold_right Rplus 0 l.

(** [np.mean]. *)
Definition Rmean (l : list R) : R := Rsum l / INR (length l).

(** The population variance, and [np.std] (ddof = 0). *)
Definition Rvariance (l : list R) : R :=
  Rmean (map (fun x => (x - Rmean l) * (x - Rmean l)) l).

Definition Rstd (l : list R) : R := sqrt (Rvariance l).

Definition excess_returns (returns : list R) (risk_free_rate : R) : list R :=
  map (fun r => r - risk_free_rate / 252) returns.

Definition calculate_sharpe_ratio (returns : list R) (risk_free_rate : R) : R :=
  if Nat.eqb (length returns) 0 then 0
  else if Req_dec_T (Rstd returns) 0 then 0
  else
    let excess := excess_returns returns risk_free_rate in
    Rmean excess / Rstd excess * sqrt 252.

End Sharpe.

Record BacktestResult : Type := {
  strategy_name : string;
  total_trades : nat;
  winning_trades : nat;
  losing_trades : nat;
  win_rate : Q;
  total_profit : Q;
  total_loss : Q;
  net_profit : Q;
  max_drawdown : Q;
  sharpe_ratio : R;
  avg_trade_duration : Q;
  best_trade : Q;
  worst_trade : Q;
  profit_factor : fnum
}.

(** The masks [profit_loss_percent > 0] and [profit_loss_percent <= 0]. *)
Definition is_winning (t : Trade) : bool := Qlt_bool 0 (profit_loss_percent t).
Definition is_losing (t : Trade) : bool := Qle_bool (profit_loss_percent t) 0.

Definition nat_to_Q (n : nat) : Q := inject_Z (Z.of_nat n).

(** [calculate_backtest_results]; [None] stands for an exception raised by
    one of the numpy reductions. *)
Definition calculate_backtest_results (trades : list Trade)
  (name : string) : option BacktestResult :=
  match trades with
  | [] =>
      Some {| strategy_name := name;
              total_trades := 0; winning_trades := 0; losing_trades := 0;
              win_rate := 0; total_profit := 0; total_loss := 0;
              net_profit := 0; max_drawdown := 0; sharpe_ratio := 0%R;
              avg_trade_duration := 0; best_trade := 0; worst_trade := 0;
              profit_factor := Fin 0 |}
  | _ :: _ =>
      let total_trades := length trades in
      let winning_trades := length (List.filter is_winning trades) in
      let losing_trades := length (List.filter is_losing trades) in
      let win_rate :=
        if (0 <? total_trades)%nat
        then (nat_to_Q winning_trades / nat_to_Q total_trades) * 100
        else 0 in
      let profits := map profit_loss_percent (List.filter is_winning trades) in
      let losses := map profit_loss_percent (List.filter is_losing trades) in
      let total_profit :=
        if (0 <? length profits)%nat then Qsum profits else 0 in
      let total_loss :=
        if (0 <? length losses)%nat then Qabs (Qsum losses) else 0 in
      let net_profit := total_profit - total_loss in
      let returns := map profit_loss_percent trades in
      max_drawdown ← calculate_max_drawdown returns;
      let sharpe_ratio := calculate_sharpe_ratio (map Q2R returns) 0.05%R in
      let avg_trade_duration :=
        Qmean (map (fun t => inject_Z (duration_minutes t)) trades) in
      best_trade ← np_max returns;
      worst_trade ← np_min returns;
      let profit_factor :=
        if Qlt_bool 0 total_loss then Fin (total_profit / total_loss)
        else PInf in
      Some {| strategy_name := name;
              total_trades := total_trades;
              winning_trades := winning_trades;
              losing_trades := losing_trades;
              win_rate := win_rate;
              total_profit := total_profit;
              total_loss := total_loss;
              net_profit := net_profit;
              max_drawdown := max_drawdown;
              sharpe_ratio := sharpe_ratio;
              avg_trade_duration := avg_trade_duration;
              best_trade := best_trade;
              worst_trade := worst_trade;
              profit_factor := profit_factor |}
  end.

End BacktestingSystem.


(** ** The drawdown of the specification

    Section 4.5 in its own words: the cumulative sum of the returns in
    trade order, the running maximum of the cumulative sums seen so far,
    their difference at each position, and the minimum over positions. *)

Module DrawdownSpec.

Local Open Scope Q_scope.

(** The cumulative sum of the returns up to position [i], inclusive. *)
Definition cumulative_at (returns : list Q) (i : nat) : Q :=
  fold_right Qplus 0 (firstn (S i) returns).

(** The largest of [f 0 .. f i], and the smallest. *)
Fixpoint max_upto (f : nat -> Q) (i : nat) : Q :=
  match i with
  | O => f O
  | S j => Qmax (max_upto f j) (f i)
  end.

Fixpoint min_upto (f : nat -> Q) (i : nat) : Q :=
  match i with
  | O => f O
  | S j => Qmin (min_upto f j) (f i)
  end.

Definition running_max_at (returns : list Q) (i : nat) : Q :=
  max_upto (cumulative_at returns) i.

Definition drawdown_at (returns : list Q) (i : nat) : Q :=
  cumulative_at returns i - running_max_at returns i.

(** The minimum over the positions of a non-empty sequence; an empty
    sequence has no position. *)
Definition max_drawdown_spec (returns : list Q) : option Q :=
  match length returns with
  | O => None
  | S n => Some (min_upto (drawdown_at returns) n)
  end.

(** Two optional rationals that agree up to [==]. *)
Definition option_Qeq (a b : option Q) : Prop :=
  match a, b with
  | Some x, Some y => x == y
  | None, None => True
  | _, _ => False
  end.

End DrawdownSpec.

(** ** Vocabulary of the statements *)

Module BacktestingTerms.

Import BacktestingSystem.

Local Open Scope Q_scope.

(** A short trade produced by [simulate_trade] that reached its target. *)
Definition short_target_hit (t : Trade) : Prop :=
  exists row strategy_type signal_data g,
    well_ranged g /\
    simulate_trade row strategy_type signal_data g = Some t /\
    direction t = "DOWN"%string /\
    outcome t = TARGET_HIT.

(** The result of summarizing no trade at all. *)
Definition all_zero_result (name : string) : BacktestResult :=
  {| strategy_name := name;
     total_trades := 0; winning_trades := 0; losing_trades := 0;
     win_rate := 0; total_profit := 0; total_loss := 0; net_profit := 0;
     max_drawdown := 0; sharpe_ratio := 0%R; avg_trade_duration := 0;
     best_trade := 0; worst_trade := 0; profit_factor := Fin 0 |}.

(** Sample data: a winning trade, a random source that always draws the
    low end of a range, and two rows of a historical frame. *)
Definition winning_trade : Trade :=
  {| timestamp := 0; strategy := "TECHNICAL_ONLY"; direction := "UP";
     entry_price := 100; target_price := 130; stop_loss_price := 80;
     exit_price := 130; outcome := TARGET_HIT; profit_loss := 30;
     profit_loss_percent := 30; confidence := 0.6; duration_minutes := 5 |}.

Definition low_draws (rand : Q) : RandomSource :=
  {| random := rand;
     uniform := fun lo _ => lo;
     randint := fun lo _ => lo |}.

Definition falling_row : Row :=
  {| row_timestamp := 0; row_price := 25000;
     row_indicators := {[ "momentum"%string := -0.01 ]} |}.

End BacktestingTerms.

Module ServiceTerms.

Import PricePredictionModel AiPredictionService.

Local Open Scope Q_scope.

(** The factor of the time block. *)
Definition late_session_factor (hour : Z) : Q :=
  if (15 <=? hour)%Z then 0.8 else 1.

(** Sample data: a snapshot with a top-level volatility, and the request
    body of [test_ai_system.py] with the volatility of its indicators
    raised to 0.30. *)
Definition snapshot_with_volatility (v : Q) : gmap string json :=
  {[ "volatility"%string := JNum v ]}.

Definition test_data : gmap string json :=
  {[ "indexName"%string := JStr "NIFTY";
     "currentPrice"%string := JNum 25000;
     "indicators"%string :=
       JObj {[ "ema"%string := JNum 24950;
               "rsi"%string := JNum 65;
               "bollingerBands"%string :=
                 JObj {[ "upper"%string := JNum 25100;
                         "middle"%string := JNum 25000;
                         "lower"%string := JNum 24900;
                         "squeeze"%string := JBool false ]};
               "momentum"%string := JNum 0.02;
               "volatility"%string := JNum 0.30;
               "support"%string := JNum 24800;
               "resistance"%string := JNum 25200 ]};
     "marketConditions"%string :=
       JObj {[ "trend"%string := JStr "BULLISH";
               "volatilityRegime"%string := JStr "MEDIUM";
               "timeOfDay"%string := JStr "OPENING" ]} ]}.

Definition upward_prediction : Prediction :=
  {| p_direction := Some "UP"%string;
     p_direction_confidence := Some 0.75;
     p_success_probability := None;
     p_expected_profit_percent := None |}.

End ServiceTerms.

Module ModelTerms.

Import PricePredictionModel.

Local Open Scope Q_scope.

(** The columns that [prepare_features] derives itself. *)
Definition derived_flags : list string :=
  ["trend_bullish"; "trend_bearish"; "vol_high"; "vol_medium"]%string.

(** Sample data.  A two-row training frame as [engineer_features] leaves
    it (without market conditions), the dict of the example at the end of
    [price_prediction_model.py], a dict with every fit-time column, and a
    fitting oracle whose random forest scores best. *)
Definition training_frame : DataFrame :=
  [("timestamp", [Obj; Obj]);
   ("indexName", [Str "NIFTY"; Str "NIFTY"]);
   ("price", [Num (Fin 25000); Num (Fin 25100)]);
   ("hour", [Num (Fin 10); Num (Fin 11)]);
   ("minute", [Num (Fin 30); Num (Fin 0)]);
   ("day_of_week", [Num (Fin 1); Num (Fin 1)]);
   ("is_opening_hour", [Flag true; Flag false]);
   ("is_closing_hour", [Flag false; Flag false]);
   ("ema", [Num (Fin 24950); Num (Fin 25010)]);
   ("rsi", [Num (Fin 65); Num (Fin 58)]);
   ("momentum", [Num (Fin 0.02); Num (Fin 0.01)]);
   ("volatility", [Num (Fin 0.18); Num (Fin 0.2)]);
   ("price_change_5", [Num NaN; Num (Fin 0.004)]);
   ("price_ma_5", [Num NaN; Num (Fin 25040)]);
   ("target_hit", [Num (Fin 1); Num (Fin 0)]);
   ("profit_loss_percent", [Num (Fin 12); Num (Fin (-4))]);
   ("price_direction", [Str "UP"; Str "DOWN"]);
   ("trade_success", [Num (Fin 1); Num (Fin 0)])]%string.

Definition sample_market_data : Dict :=
  [("price", Num (Fin 25000));
   ("hour", Num (Fin 10));
   ("minute", Num (Fin 30));
   ("day_of_week", Num (Fin 1));
   ("is_opening_hour", Flag true);
   ("is_closing_hour", Flag false);
   ("ema", Num (Fin 24950));
   ("rsi", Num (Fin 65));
   ("momentum", Num (Fin 0.02));
   ("volatility", Num (Fin 0.18))]%string.

Definition full_market_data : Dict :=
  sample_market_data ++
  [("price_change_5", Num (Fin 0.004));
   ("price_ma_5", Num (Fin 25040))]%string.

Definition sample_sklearn : Sklearn :=
  {| sk_mean := fun X => map (fun _ => 0) X;
     sk_scale := fun X => map (fun _ => 1) X;
     sk_classes := fun _ => ["DOWN"; "UP"]%string;
     sk_cv_score := fun c =>
       match c with
       | RandomForestRegressor => 0.5
       | _ => 0.4
       end;
     sk_predict := fun _ _ _ => 1;
     sk_proba := fun _ _ _ => [0.2; 0.8] |}.

(** The keys of [full_market_data] with two pairs of neighbours swapped. *)
Definition reordered_market_data : Dict :=
  [("price", Num (Fin 25000));
   ("hour", Num (Fin 10));
   ("minute", Num (Fin 30));
   ("day_of_week", Num (Fin 1));
   ("is_opening_hour", Flag true);
   ("is_closing_hour", Flag false);
   ("rsi", Num (Fin 65));
   ("ema", Num (Fin 24950));
   ("momentum", Num (Fin 0.02));
   ("volatility", Num (Fin 0.18));
   ("price_ma_5", Num (Fin 25040));
   ("price_change_5", Num (Fin 0.004))]%string.

Definition fit_time_columns : list string :=
  ["price"; "hour"; "minute"; "day_of_week"; "is_opening_hour";
   "is_closing_hour"; "ema"; "rsi"; "momentum"; "volatility";
   "price_change_5"; "price_ma_5"]%string.

(** A snapshot frame whose Bollinger bands have collapsed onto 25000
    while the price is 25010. *)
Definition flat_band_frame : DataFrame :=
  [("price", [Num (Fin 25010)]);
   ("bollingerBands.upper", [Num (Fin 25000)]);
   ("bollingerBands.middle", [Num (Fin 25000)]);
   ("bollingerBands.lower", [Num (Fin 25000)]);
   ("bollingerBands.squeeze", [Flag true])]%string.

End ModelTerms.

(** ** The Sharpe ratio on IEEE doubles *)

Module BacktestingFloat64.

Import PrimFloat.

Local Open Scope float_scope.

(** The count of an array as a double. *)
Definition of_nat (n : nat) : float :=
  of_uint63 (Uint63.of_Z (Z.of_nat n)).

(** numpy sums a float64 array pairwise.  The unrolled loop of a block:
    eight accumulators take eight elements per turn; they are added in a
    fixed order and the remaining elements follow one by one. *)
Fixpoint accumulate (r0 r1 r2 r3 r4 r5 r6 r7 : float) (a : list float)
  : float :=
  match a with
  | a0 :: a1 :: a2 :: a3 :: a4 :: a5 :: a6 :: a7 :: rest =>
      accumulate (r0 + a0) (r1 + a1) (r2 + a2) (r3 + a3)
                 (r4 + a4) (r5 + a5) (r6 + a6) (r7 + a7) rest
  | _ =>
      fold_left add a
        (((r0 + r1) + (r2 + r3)) + ((r4 + r5) + (r6 + r7)))
  end.

(** A block of at most 128 elements: fewer than eight are added from
    left to right, starting from 0. *)
Definition block_sum (a : list float) : float :=
  match a with
  | r0 :: r1 :: r2 :: r3 :: r4 :: r5 :: r6 :: r7 :: rest =>
      accumulate r0 r1 r2 r3 r4 r5 r6 r7 rest
  | _ => fold_left add a 0
  end.

Definition PW_BLOCKSIZE : nat := 128.

(** A longer array is cut in two, the first part a multiple of eight
    long.  [fuel] bounds the depth of the cuts; the length of the array
    is enough. *)
Fixpoint pairwise_sum (fuel : nat) (a : list float) : float :=
  let n := length a in
  if (n <=? PW_BLOCKSIZE)%nat then block_sum a
  else
    match fuel with
    | O => block_sum a
    | S fuel =>
        let n2 := (n / 2)%nat in
        let n2 := (n2 - n2 mod 8)%nat in
        pairwise_sum fuel (firstn n2 a) + pairwise_sum fuel (skipn n2 a)
    end.

(** [np.add.reduce]: the pairwise sum is added to the identity. *)
Definition np_sum (a : list float) : float :=
  0 + pairwise_sum (length a) a.

(** [np.mean]. *)
Definition np_mean (a : list float) : float :=
  np_sum a / of_nat (length a).

(** [np.var] with ddof = 0: the mean, the deviations, their squares, the
    sum of the squares over the count. *)
Definition np_var (a : list float) : float :=
  let arrmean := np_sum a / of_nat (length a) in
  let x := map (fun v => v - arrmean) a in
  let x := map (fun v => v * v) x in
  np_sum x / of_nat (length a).

(** [np.std]. *)
Definition np_std (a : list float) : float := sqrt (np_var a).

(** [calculate_sharpe_ratio].  A float64 division by zero gives an
    infinity or NaN and does not raise. *)
Definition calculate_sharpe_ratio (returns : list float)
  (risk_free_rate : float) : float :=
  if (length returns =? 0)%nat || eqb (np_std returns) 0 then 0
  else
    let excess_returns :=
      map (fun r => r - risk_free_rate / 252) returns in
    np_mean excess_returns / np_std excess_returns * sqrt 252.

End BacktestingFloat64.

Module Float64Terms.

Import PrimFloat BacktestingFloat64.

Local Open Scope float_scope.

(** The default risk-free rate and two series of three equal returns;
    each literal is the double nearest to it. *)
#[warnings="-inexact-float"]
Definition risk_free_rate : float := 0.05.

#[warnings="-inexact-float"]
Definition three_times_07 : list float := [0.7; 0.7; 0.7].

#[warnings="-inexact-float"]
Definition three_times_01 : list float := [0.1; 0.1; 0.1].

(** A series without variance. *)
Definition constant (returns : list float) : Prop :=
  exists r : float, Forall (fun x => x = r) returns.

End Float64Terms.

(** ** backtesting_system.py: the strategies *)

Module BacktestingStrategies.

Import PricePredictionModel BacktestingSystem.

Local Open Scope Q_scope.

(** A row of the frame that [prepare_backtest_data] returns: the snapshot
    and the two columns it adds, which [row.get] may still miss. *)
Record HistoricalRow : Type := {
  h_row : Row;
  h_hour : option Z;
  h_day_of_week : option Z
}.

(** The supply of random draws: the [k]-th call of [simulate_trade] in a
    run draws from [rng k]. *)
Definition RandomSupply : Type := nat -> RandomSource.

(** [should_generate_technical_signal]. *)
Definition should_generate_technical_signal (row : Row) : bool :=
  let indicators := row_indicators row in
  let rsi := default 50 (indicators !! "rsi"%string) in
  let ema := default 0 (indicators !! "ema"%string) in
  let momentum := default 0 (indicators !! "momentum"%string) in
  let bullish_conditions :=
    Qlt_bool rsi 70 && Qlt_bool 30 rsi
    && Qlt_bool 0.005 momentum
    && Qlt_bool ema (row_price row) in
  let bearish_conditions :=
    Qlt_bool 30 rsi && Qlt_bool rsi 70
    && Qlt_bool momentum (-0.005)
    && Qlt_bool (row_price row) ema in
  bullish_conditions || bearish_conditions.

(** The loop of [backtest_technical_only_strategy]; [k] counts the calls
    of [simulate_trade] made so far. *)
Fixpoint technical_only_trades (data : list HistoricalRow)
  (rng : RandomSupply) (k : nat) : list Trade :=
  match data with
  | [] => []
  | row :: rest =>
      if should_generate_technical_signal (h_row row) then
        match simulate_trade (h_row row) "TECHNICAL_ONLY" None (rng k) with
        | Some trade => trade :: technical_only_trades rest rng (S k)
        | None => technical_only_trades rest rng (S k)
        end
      else technical_only_trades rest rng k
  end.

Definition backtest_technical_only_strategy (data : list HistoricalRow)
  (rng : RandomSupply) : option BacktestResult :=
  calculate_backtest_results (technical_only_trades data rng 0)
    "Technical Only".

(** [d.get(key, dflt)] on the dict that [predict] returns, for a numeric
    default: the dict has the four keys of [Prediction] and no other. *)
Definition prediction_get (p : Prediction) (key : string) (dflt : Q) : Q :=
  if String.eqb key "direction_confidence"
  then default dflt (p_direction_confidence p)
  else if String.eqb key "success_probability"
  then default dflt (p_success_probability p)
  else if String.eqb key "expected_profit_percent"
  then default dflt (p_expected_profit_percent p)
  else dflt.

(** The truth value of that dict: it is false when empty. *)
Definition prediction_is_empty (p : Prediction) : bool :=
  match p_direction p, p_direction_confidence p,
        p_success_probability p, p_expected_profit_percent p with
  | None, None, None, None => true
  | _, _, _, _ => false
  end.

(** [get_ai_prediction_for_backtest]: the dict it hands to [predict], and
    the call, whose exceptions become [None]. *)
Definition backtest_market_data (row : HistoricalRow) : Dict :=
  let hour := default 10%Z (h_hour row) in
  let indicators := row_indicators (h_row row) in
  [("price", Num (Fin (row_price (h_row row))));
   ("hour", Num (Fin (inject_Z hour)));
   ("day_of_week", Num (Fin (inject_Z (default 1%Z (h_day_of_week row)))));
   ("is_opening_hour", Flag (hour <? 11)%Z);
   ("is_closing_hour", Flag (14 <? hour)%Z);
   ("ema", Num (Fin (default 0 (indicators !! "ema"%string))));
   ("rsi", Num (Fin (default 50 (indicators !! "rsi"%string))));
   ("momentum", Num (Fin (default 0 (indicators !! "momentum"%string))));
   ("volatility", Num (Fin (default 0.15 (indicators !! "volatility"%string))))
  ]%string.

Definition get_ai_prediction_for_backtest (row : HistoricalRow)
  (ai_model : Ensemble) : option Prediction * Ensemble :=
  match predict (backtest_market_data row) ai_model with
  | (Ok prediction, ai_model) => (Some prediction, ai_model)
  | (Raise _, ai_model) => (None, ai_model)
  end.

(** The dict that [combine_technical_ai_signals] returns. *)
Record EnhancedSignal : Type := {
  should_trade : bool;
  es_confidence : Q;
  es_direction : string;
  es_reasoning : list string
}.

Definition combine_technical_ai_signals (row : Row)
  (ai_prediction : option Prediction) : EnhancedSignal :=
  let result :=
    {| should_trade := false; es_confidence := 0.5;
       es_direction := "HOLD"; es_reasoning := [] |} in
  match ai_prediction with
  | None => result
  | Some prediction =>
      if prediction_is_empty prediction then result
      else
        let indicators := row_indicators row in
        let tech_bullish :=
          Qlt_bool 0.005 (default 0 (indicators !! "momentum"%string)) in
        let ai_direction := default "SIDEWAYS"%string (p_direction prediction) in
        let ai_confidence :=
          prediction_get prediction "direction_confidence" 0.5 in
        if Qlt_bool 0.7 ai_confidence then
          if (tech_bullish && String.eqb ai_direction "UP")
             || (negb tech_bullish && String.eqb ai_direction "DOWN")
          then
            {| should_trade := true;
               es_confidence := Qmin 0.95 (ai_confidence + 0.1);
               es_direction := ai_direction;
               es_reasoning := ["Technical and AI agreement"%string] |}
          else if Qlt_bool 0.8 ai_confidence then
            {| should_trade := true;
               es_confidence := ai_confidence;
               es_direction := ai_direction;
               es_reasoning := ["High AI confidence override"%string] |}
          else result
        else result
  end.

(** The enhanced signal as the [signal_data] of [simulate_trade]: a dict
    with four keys, hence true. *)
Definition signal_of_enhanced (s : EnhancedSignal) : option SignalData :=
  Some {| sig_direction := Some (es_direction s);
          sig_confidence := Some (es_confidence s) |}.

(** A prediction as [signal_data]: it has no [confidence] key. *)
Definition signal_of_prediction (p : Prediction) : option SignalData :=
  if prediction_is_empty p then None
  else Some {| sig_direction := p_direction p; sig_confidence := None |}.

(** The loop of [backtest_ai_enhanced_strategy]. *)
Fixpoint ai_enhanced_trades (data : list HistoricalRow) (rng : RandomSupply)
  (k : nat) (ai_model : Ensemble) : list Trade * Ensemble :=
  match data with
  | [] => ([], ai_model)
  | row :: rest =>
      if should_generate_technical_signal (h_row row) then
        let '(ai_prediction, ai_model) :=
          get_ai_prediction_for_backtest row ai_model in
        let enhanced_signal :=
          combine_technical_ai_signals (h_row row) ai_prediction in
        if should_trade enhanced_signal then
          match simulate_trade (h_row row) "AI_ENHANCED"
                  (signal_of_enhanced enhanced_signal) (rng k) with
          | Some trade =>
              let '(trades, ai_model) :=
                ai_enhanced_trades rest rng (S k) ai_model in
              (trade :: trades, ai_model)
          | None => ai_enhanced_trades rest rng (S k) ai_model
          end
        else ai_enhanced_trades rest rng k ai_model
      else ai_enhanced_trades rest rng k ai_model
  end.

Definition backtest_ai_enhanced_strategy (data : list HistoricalRow)
  (rng : RandomSupply) (ai_model : Ensemble)
  : option BacktestResult * Ensemble :=
  let '(trades, ai_model) := ai_enhanced_trades data rng 0 ai_model in
  (calculate_backtest_results trades "AI Enhanced", ai_model).

(** The loop of [backtest_ai_only_strategy]. *)
Fixpoint ai_only_trades (data : list HistoricalRow) (rng : RandomSupply)
  (k : nat) (ai_model : Ensemble) : list Trade * Ensemble :=
  match data with
  | [] => ([], ai_model)
  | row :: rest =>
      let '(ai_prediction, ai_model) :=
        get_ai_prediction_for_backtest row ai_model in
      match ai_prediction with
      | Some prediction =>
          if negb (prediction_is_empty prediction)
             && Qlt_bool 0.7 (prediction_get prediction "confidence" 0)
          then
            match simulate_trade (h_row row) "AI_ONLY"
                    (signal_of_prediction prediction) (rng k) with
            | Some trade =>
                let '(trades, ai_model) :=
                  ai_only_trades rest rng (S k) ai_model in
                (trade :: trades, ai_model)
            | None => ai_only_trades rest rng (S k) ai_model
            end
          else ai_only_trades rest rng k ai_model
      | None => ai_only_trades rest rng k ai_model
      end
  end.

Definition backtest_ai_only_strategy (data : list HistoricalRow)
  (rng : RandomSupply) (ai_model : Ensemble)
  : option BacktestResult * Ensemble :=
  let '(trades, ai_model) := ai_only_trades data rng 0 ai_model in
  (calculate_backtest_results trades "AI Only", ai_model).

End BacktestingStrategies.

Module StrategyTerms.

Import PricePredictionModel BacktestingSystem BacktestingStrategies.

Local Open Scope Q_scope.

(** The direction model, if any, is not a classifier.  This holds after
    [__init__] and is kept by [train_models] and [predict]. *)
Definition direction_model_is_no_classifier (st : Ensemble) : Prop :=
  forall m, models st !! "price_direction"%string = Some (Some m) ->
            has_predict_proba (est_class m) = false.

(** Sample data: a rising and a sliding row on which the technical rule
    fires, a row without indicators, and a supply that repeats one
    source. *)
Definition rising_row : Row :=
  {| row_timestamp := 60000; row_price := 25000;
     row_indicators := {[ "rsi"%string := 55;
                          "ema"%string := 24950;
                          "momentum"%string := 0.02 ]} |}.

Definition sliding_row : Row :=
  {| row_timestamp := 180000; row_price := 25000;
     row_indicators := {[ "rsi"%string := 45;
                          "ema"%string := 25050;
                          "momentum"%string := -0.02 ]} |}.

Definition bare_row : Row :=
  {| row_timestamp := 120000; row_price := 25000; row_indicators := ∅ |}.

Definition historical (row : Row) : HistoricalRow :=
  {| h_row := row; h_hour := Some 10%Z; h_day_of_week := Some 1%Z |}.

Definition constant_supply (g : RandomSource) : RandomSupply := fun _ => g.

Definition confident_sideways : Prediction :=
  {| p_direction := Some "SIDEWAYS"%string;
     p_direction_confidence := Some 0.9;
     p_success_probability := None;
     p_expected_profit_percent := None |}.

End StrategyTerms.

Module SummaryTerms.

Import BacktestingSystem.

Local Open Scope Q_scope.

(** The percent returns of a trade list, in trade order. *)
Definition returns_of (trades : list Trade) : list Q :=
  map profit_loss_percent trades.

(** The part of a return that is a loss. *)
Definition loss_part (r : Q) : Q := Qmax (- r) 0.

(** Sample data: a trade that lost twelve percent and one that broke
    even. *)
Definition losing_trade : Trade :=
  {| timestamp := 60000; strategy := "TECHNICAL_ONLY"; direction := "UP";
     entry_price := 100; target_price := 130; stop_loss_price := 80;
     exit_price := 88; outcome := STOP_LOSS_HIT; profit_loss := -12;
     profit_loss_percent := -12; confidence := 0.6; duration_minutes := 7 |}.

Definition flat_trade : Trade :=
  {| timestamp := 120000; strategy := "TECHNICAL_ONLY"; direction := "UP";
     entry_price := 100; target_price := 130; stop_loss_price := 80;
     exit_price := 100; outcome := MANUAL_EXIT; profit_loss := 0;
     profit_loss_percent := 0; confidence := 0.6; duration_minutes := 30 |}.

End SummaryTerms.

Module MatrixTerms.

(** The labels the volatility regime takes in the requests and in the
    flags of [prepare_features]; none of them reads as a number. *)
Definition regime_labels : list string := ["LOW"; "MEDIUM"; "HIGH"]%string.

End MatrixTerms.

Module EndpointTerms.

Import PricePredictionModel AiPredictionService MatrixTerms.

(** The keys of the flat dict of a request, in insertion order. *)
Definition request_keys : list string :=
  ["price"; "indexName"; "hour"; "minute"; "day_of_week";
   "is_opening_hour"; "is_closing_hour";
   "ema"; "rsi"; "momentum"; "volatility"]%string.

Definition band_keys : list string :=
  ["bollingerBands.upper"; "bollingerBands.middle";
   "bollingerBands.lower"; "bollingerBands.squeeze"]%string.

Definition condition_keys : list string :=
  ["trend"; "volatilityRegime"; "timeOfDay"]%string.

(** A request that leaves the volatility regime out, or gives one of the
    regime labels. *)
Definition regime_is_label (data : gmap string json) : Prop :=
  forall o : gmap string json,
    data !! "marketConditions"%string = Some (JObj o) ->
    o !! "volatilityRegime"%string = None
    \/ exists s : string,
         In s regime_labels
         /\ o !! "volatilityRegime"%string = Some (JStr s).

Definition is_failure (r : Response) : Prop :=
  match r with
  | Failure _ => True
  | Success _ _ _ => False
  end.

End EndpointTerms.

Module TrainingTerms.

Import PricePredictionModel.

Local Open Scope Q_scope.

(** A label column as [create_target_variables] writes it: text in
    every row. *)
Definition textual (labels : list cell) : Prop :=
  Forall (fun c => exists s : string, c = Str s) labels.

(** A training frame of four rows, the least the time-series split of
    [train_direction_model] accepts. *)
Definition four_row_frame : DataFrame :=
  [("timestamp", [Obj; Obj; Obj; Obj]);
   ("indexName", [Str "NIFTY"; Str "NIFTY"; Str "NIFTY"; Str "NIFTY"]);
   ("price", [Num (Fin 25000); Num (Fin 25100); Num (Fin 25050);
              Num (Fin 24900)]);
   ("hour", [Num (Fin 10); Num (Fin 11); Num (Fin 13); Num (Fin 14)]);
   ("minute", [Num (Fin 30); Num (Fin 0); Num (Fin 15); Num (Fin 45)]);
   ("day_of_week", [Num (Fin 1); Num (Fin 1); Num (Fin 1); Num (Fin 1)]);
   ("is_opening_hour", [Flag true; Flag false; Flag false; Flag false]);
   ("is_closing_hour", [Flag false; Flag false; Flag false; Flag true]);
   ("ema", [Num (Fin 24950); Num (Fin 25010); Num (Fin 25040);
            Num (Fin 24980)]);
   ("rsi", [Num (Fin 65); Num (Fin 58); Num (Fin 52); Num (Fin 41)]);
   ("momentum", [Num (Fin 0.02); Num (Fin 0.01); Num (Fin 0);
                 Num (Fin (-0.01))]);
   ("volatility", [Num (Fin 0.18); Num (Fin 0.2); Num (Fin 0.19);
                   Num (Fin 0.22)]);
   ("target_hit", [Num (Fin 1); Num (Fin 0); Num (Fin 0); Num (Fin 0)]);
   ("profit_loss_percent", [Num (Fin 12); Num (Fin (-4)); Num (Fin 1);
                            Num (Fin (-16))]);
   ("price_direction", [Str "UP"; Str "DOWN"; Str "SIDEWAYS"; Str "DOWN"]);
   ("trade_success", [Num (Fin 1); Num (Fin 0); Num (Fin 1); Num (Fin 0)])
  ]%string.

End TrainingTerms.

(** ** Saving, loading and the life of the service *)

Module ServiceLifecycle.

Import PricePredictionModel AiPredictionService BacktestingSystem.
Import BacktestingStrategies.

(** The names bound at the top level of price_prediction_model.py: its
    imports and its class.  The [import os] of [save_models] is local to
    that method. *)
Definition module_names : list string :=
  ["pd"; "np"; "json"; "pickle"; "datetime"; "timedelta";
   "train_test_split"; "TimeSeriesSplit";
   "RandomForestRegressor"; "GradientBoostingRegressor";
   "LinearRegression"; "StandardScaler"; "LabelEncoder";
   "mean_squared_error"; "mean_absolute_error"; "r2_score";
   "joblib"; "plt"; "sns"; "TradingAIPredictionModel"]%string.

Inductive LoadError : Type :=
| NameError (name : string)
| FileNotFoundError (file : string).

(** Reading a global name inside a method of the module. *)
Definition global_name (name : string) : option LoadError :=
  if existsb (String.eqb name) module_names then None
  else Some (NameError name).

(** The directory [./models]: one file per trained model, and the three
    files of the scalers, the encoders and the column list. *)
Record Disk : Type := {
  model_files : gmap string Estimator;
  scalers_file : option (gmap string (option StandardScaler));
  label_encoders_file : option (gmap string LabelEncoder);
  feature_columns_file : option (list string)
}.

(** [save_models]: a model that is [None] writes no file, and the file
    an earlier call wrote for it stays. *)
Definition save_models (self : Ensemble) (disk : Disk) : Disk :=
  {| model_files :=
       omap (fun model => model) (models self) ∪ model_files disk;
     scalers_file := Some (scalers self);
     label_encoders_file := Some (label_encoders self);
     feature_columns_file := Some (feature_columns self) |}.

(** The loop of [load_models] over the keys of [self.models]: each turn
    reads the global name [os] first. *)
Fixpoint load_each (disk : Disk) (names : list string) (self : Ensemble)
  : option LoadError * Ensemble :=
  match names with
  | [] => (None, self)
  | name :: rest =>
      match global_name "os" with
      | Some e => (Some e, self)
      | None =>
          let self :=
            match model_files disk !! name with
            | Some m => set_model name (Some m) self
            | None => self
            end in
          load_each disk rest self
      end
  end.

Definition set_scalers (s : gmap string (option StandardScaler))
  (st : Ensemble) : Ensemble :=
  {| models := models st; scalers := s;
     feature_columns := feature_columns st;
     label_encoders := label_encoders st |}.

Definition set_label_encoders (e : gmap string LabelEncoder)
  (st : Ensemble) : Ensemble :=
  {| models := models st; scalers := scalers st;
     feature_columns := feature_columns st;
     label_encoders := e |}.

(** [load_models]: every exception is caught and turned into [False];
    what was assigned before it stays assigned. *)
Definition load_models (disk : Disk) (self : Ensemble) : bool * Ensemble :=
  match load_each disk (map fst (map_to_list (models self))) self with
  | (Some _, self) => (false, self)
  | (None, self) =>
      match scalers_file disk with
      | None => (false, self)
      | Some s =>
          let self := set_scalers s self in
          match label_encoders_file disk with
          | None => (false, self)
          | Some e =>
              let self := set_label_encoders e self in
              match feature_columns_file disk with
              | None => (false, self)
              | Some c => (true, set_feature_columns c self)
              end
          end
      end
  end.

(** The globals of ai_prediction_service.py. *)
Record Service : Type := {
  model_loaded : bool;
  model_last_trained : option string;
  ai_model : Ensemble
}.

(** The module as imported. *)
Definition startup : Service :=
  {| model_loaded := false; model_last_trained := None; ai_model := init |}.

(** [initialize_models].  The sentiment analyzer is initialised inside a
    [try] of its own and touches none of the three globals. *)
Definition initialize_models (disk : Disk) (svc : Service) : Service :=
  match load_models disk (ai_model svc) with
  | (true, m) =>
      {| model_loaded := true;
         model_last_trained := Some "Loaded from disk"%string;
         ai_model := m |}
  | (false, m) =>
      {| model_loaded := false;
         model_last_trained := model_last_trained svc;
         ai_model := m |}
  end.

(** [retrain_models].  [training] is [None] when the training file does
    not exist, and otherwise what [load_training_data] followed by
    [engineer_features] gives; [stamp] is the time of the call.  Writing
    the files is taken to succeed.  The function declares
    [model_last_trained] global, and nothing else. *)
Definition retrain_models (sk : Sklearn)
  (training : option (PyResult DataFrame)) (stamp : string)
  (svc : Service) (disk : Disk) : Z * Service * Disk :=
  match training with
  | None => (404%Z, svc, disk)
  | Some (Raise _) => (500%Z, svc, disk)
  | Some (Ok training_df) =>
      match train_models sk training_df (ai_model svc) with
      | (Raise _, m) =>
          (500%Z,
           {| model_loaded := model_loaded svc;
              model_last_trained := model_last_trained svc;
              ai_model := m |},
           disk)
      | (Ok _, m) =>
          (200%Z,
           {| model_loaded := model_loaded svc;
              model_last_trained := Some stamp;
              ai_model := m |},
           save_models m disk)
      end
  end.

(** The requests of the service and their replies. *)
Inductive Request : Type :=
| GetHealth
| PostPredict (data : gmap string json)
              (sentiment_score : option Sentiment) (now : Clock)
| PostRetrain (sk : Sklearn) (training : option (PyResult DataFrame))
              (stamp : string)
| GetModelStats.

Inductive Reply : Type :=
| HealthReply (loaded : bool) (last_trained : option string)
| PredictReply (response : Response)
| RetrainReply (status : Z)
| StatsReply (loaded : bool) (last_trained : option string)
             (feature_count : nat) (features : list string).

Definition handle (req : Request) (s : Service * Disk)
  : Reply * (Service * Disk) :=
  let '(svc, disk) := s in
  match req with
  | GetHealth =>
      (HealthReply (model_loaded svc) (model_last_trained svc), s)
  | PostPredict data sentiment_score now =>
      let '(response, m) :=
        predict_price_movement (model_loaded svc) data sentiment_score now
          (ai_model svc) in
      (PredictReply response,
       ({| model_loaded := model_loaded svc;
           model_last_trained := model_last_trained svc;
           ai_model := m |}, disk))
  | PostRetrain sk training stamp =>
      let '(status, svc, disk) :=
        retrain_models sk training stamp svc disk in
      (RetrainReply status, (svc, disk))
  | GetModelStats =>
      (StatsReply (model_loaded svc) (model_last_trained svc)
         (length (feature_columns (ai_model svc)))
         (feature_columns (ai_model svc)), s)
  end.

Fixpoint serve (reqs : list Request) (s : Service * Disk)
  : list Reply * (Service * Disk) :=
  match reqs with
  | [] => ([], s)
  | req :: rest =>
      let '(reply, s) := handle req s in
      let '(replies, s) := serve rest s in
      (reply :: replies, s)
  end.

(** The service run as a script: the models are initialised, then the
    requests are served. *)
Definition run_service (disk : Disk) (reqs : list Request)
  : list Reply * (Service * Disk) :=
  serve reqs (initialize_models disk startup, disk).

(** The script of backtesting_system.py: the three backtests run on
    non-empty data once a fresh model has loaded its files.  [rng1],
    [rng2] and [rng3] are the draws the three backtests see. *)
Definition backtest_script (disk : Disk) (historical_data : list HistoricalRow)
  (rng1 rng2 rng3 : RandomSupply) : option (list (option BacktestResult)) :=
  match historical_data with
  | [] => None
  | _ :: _ =>
      match load_models disk init with
      | (true, ai_model) =>
          let tech_results :=
            backtest_technical_only_strategy historical_data rng1 in
          let '(ai_enhanced_results, ai_model) :=
            backtest_ai_enhanced_strategy historical_data rng2 ai_model in
          let '(ai_only_results, ai_model) :=
            backtest_ai_only_strategy historical_data rng3 ai_model in
          Some [tech_results; ai_enhanced_results; ai_only_results]
      | (false, _) => None
      end
  end.

End ServiceLifecycle.

Module LifecycleTerms.

Import PricePredictionModel AiPredictionService ServiceLifecycle.

(** The objects a program can hold: a fresh one, and what training,
    predicting and loading leave of one. *)
Inductive constructed : Ensemble -> Prop :=
| constructed_init : constructed init
| constructed_train (sk : Sklearn) (df : DataFrame) (st : Ensemble) :
    constructed st -> constructed (snd (train_models sk df st))
| constructed_predict (market_data : Dict) (st : Ensemble) :
    constructed st -> constructed (snd (predict market_data st))
| constructed_load (disk : Disk) (st : Ensemble) :
    constructed st -> constructed (snd (load_models disk st)).

(** What a reply tells about the loaded models: a prediction is refused
    with status 500, and the two status endpoints report [False]. *)
Definition reports_no_models (reply : Reply) : Prop :=
  match reply with
  | HealthReply loaded _ => loaded = false
  | PredictReply response => response = Failure 500
  | RetrainReply _ => True
  | StatsReply loaded _ _ _ => loaded = false
  end.

(** A directory as a completed training run leaves it. *)
Definition trained_disk : Disk :=
  save_models
    (snd (train_models ModelTerms.sample_sklearn ModelTerms.training_frame
            init))
    {| model_files := ∅; scalers_file := None;
       label_encoders_file := None; feature_columns_file := None |}.

End LifecycleTerms.

(** ** The training examples of price_prediction_model.py *)

Module TrainingExamples.

Import PricePredictionModel.

Local Open Scope Q_scope.

(** A row of the snapshot frame: the two columns [create_target_variables]
    reads, and the row itself.  Timestamps are milliseconds. *)
Record Snapshot : Type := {
  snap_indexName : string;
  snap_timestamp : Z;
  snap_row : Dict
}.

(** A row of the outcome frame, as [pd.DataFrame] builds it from the
    records of the training file: [o_indexName] is [None] for a record
    without the key. *)
Record OutcomeRow : Type := {
  o_indexName : option string;
  o_entryTime : Z;
  o_outcome : string;
  o_profitLossPercent : Q;
  o_holdingDuration : Q
}.

(** A snapshot with the target variables added. *)
Record Example : Type := {
  ex_snapshot : Snapshot;
  target_hit : Z;
  stop_loss_hit : Z;
  profit_loss_percent : Q;
  holding_duration_minutes : Q;
  price_direction : string;
  trade_success : Z
}.

(** [time_diff.idxmin()]: the first row of the least distance. *)
Fixpoint idxmin (entryTime : Z) (best : Snapshot) (rest : list Snapshot)
  : Snapshot :=
  match rest with
  | [] => best
  | s :: rest =>
      if (Z.abs (snap_timestamp s - entryTime)
          <? Z.abs (snap_timestamp best - entryTime))%Z
      then idxmin entryTime s rest
      else idxmin entryTime best rest
  end.

(** The body of the loop, from the snapshot on. *)
Definition target_variables (snapshot : Snapshot) (outcome : OutcomeRow)
  : Example :=
  {| ex_snapshot := snapshot;
     target_hit :=
       if String.eqb (o_outcome outcome) "TARGET_HIT" then 1 else 0;
     stop_loss_hit :=
       if String.eqb (o_outcome outcome) "STOP_LOSS_HIT" then 1 else 0;
     profit_loss_percent := o_profitLossPercent outcome;
     holding_duration_minutes :=
       o_holdingDuration outcome / (1000 * 60);
     price_direction :=
       if Qlt_bool 2 (o_profitLossPercent outcome) then "UP"
       else if Qlt_bool (o_profitLossPercent outcome) (-2) then "DOWN"
       else "SIDEWAYS";
     trade_success :=
       if Qlt_bool 0 (o_profitLossPercent outcome) then 1 else 0 |}.

(** The outcome frame has a column [indexName] as soon as one record
    names an instrument; the rows of the other records hold NaN there. *)
Definition has_indexName (outcomes_df : list OutcomeRow) : bool :=
  existsb (fun outcome =>
             match o_indexName outcome with
             | Some _ => true
             | None => false
             end) outcomes_df.

(** [outcome.get('indexName', 'NIFTY')] on a row of the frame: the
    default is for a frame without the column.  [None] is NaN. *)
Definition outcome_indexName (column : bool) (outcome : OutcomeRow)
  : option string :=
  if column then o_indexName outcome else Some "NIFTY"%string.

(** [snapshots_df[snapshots_df['indexName'] == name]]: NaN equals no
    name. *)
Definition index_snapshots (snapshots_df : list Snapshot)
  (name : option string) : list Snapshot :=
  match name with
  | Some name =>
      List.filter (fun s => String.eqb (snap_indexName s) name) snapshots_df
  | None => []
  end.

(** The loop over the rows of the outcome frame.  [idxmin] of an empty
    selection raises; the label it returns otherwise is never missing. *)
Fixpoint merge_outcomes (column : bool) (snapshots_df : list Snapshot)
  (outcomes : list OutcomeRow) : PyResult (list Example) :=
  match outcomes with
  | [] => Ok []
  | outcome :: rest =>
      match index_snapshots snapshots_df
              (outcome_indexName column outcome) with
      | [] => Raise ValueError
      | s :: others =>
          let snapshot := idxmin (o_entryTime outcome) s others in
          let+ merged_df := merge_outcomes column snapshots_df rest in
          Ok (target_variables snapshot outcome :: merged_df)
      end
  end.

(** [create_target_variables], on frames whose row labels are the
    positions of the rows. *)
Definition create_target_variables (snapshots_df : list Snapshot)
  (outcomes_df : list OutcomeRow) : PyResult (list Example) :=
  merge_outcomes (has_indexName outcomes_df) snapshots_df outcomes_df.

End TrainingExamples.

Module TargetTerms.

Import TrainingExamples.

Local Open Scope Q_scope.

(** The instrument of an outcome of the frame: NIFTY for every outcome
    of a frame in which no record names one, and otherwise the name of
    the record, if it has one. *)
Definition instrument (outcomes_df : list OutcomeRow)
  (outcome : OutcomeRow) : option string :=
  outcome_indexName (has_indexName outcomes_df) outcome.

Definition distance (s : Snapshot) (outcome : OutcomeRow) : Z :=
  Z.abs (snap_timestamp s - o_entryTime outcome).

(** The example of an outcome is built on a snapshot of the outcome's
    instrument, as near to the entry time as any, and carries the
    outcome's targets. *)
Definition nearest (snapshots_df : list Snapshot)
  (outcomes_df : list OutcomeRow) (outcome : OutcomeRow) (ex : Example)
  : Prop :=
  exists name : string,
    instrument outcomes_df outcome = Some name
    /\ In (ex_snapshot ex) snapshots_df
    /\ snap_indexName (ex_snapshot ex) = name
    /\ (forall s : Snapshot,
          In s snapshots_df -> snap_indexName s = name ->
          (distance (ex_snapshot ex) outcome <= distance s outcome)%Z)
    /\ ex = target_variables (ex_snapshot ex) outcome.

(** No snapshot carries the instrument of the outcome; an outcome
    without a name in a frame with names has no instrument. *)
Definition no_snapshot (snapshots_df : list Snapshot)
  (outcomes_df : list OutcomeRow) (outcome : OutcomeRow) : Prop :=
  forall s : Snapshot,
    In s snapshots_df ->
    instrument outcomes_df outcome <> Some (snap_indexName s).

(** How the targets of one example hang together. *)
Definition targets_agree (outcome : OutcomeRow) (ex : Example) : Prop :=
  profit_loss_percent ex = o_profitLossPercent outcome
  /\ In (price_direction ex) ["UP"; "DOWN"; "SIDEWAYS"]%string
  /\ (price_direction ex = "UP"%string <-> 2 < profit_loss_percent ex)
  /\ (price_direction ex = "DOWN"%string <-> profit_loss_percent ex < -2)
  /\ (trade_success ex = 1%Z <-> 0 < profit_loss_percent ex)
  /\ (trade_success ex = 0%Z <-> profit_loss_percent ex <= 0)
  /\ (price_direction ex = "UP"%string -> trade_success ex = 1%Z)
  /\ (price_direction ex = "DOWN"%string -> trade_success ex = 0%Z)
  /\ In (target_hit ex, stop_loss_hit ex)
        [(0, 0); (1, 0); (0, 1)]%Z
  /\ holding_duration_minutes ex * 60000 == o_holdingDuration outcome.

(** Sample data: three snapshots of NIFTY and one of BANKNIFTY; two
    outcomes that name no instrument, the first nearer to the second
    NIFTY snapshot and the second midway between the second and the
    third; and the same two outcomes with the first naming NIFTY. *)
Definition sample_snapshots : list Snapshot :=
  [{| snap_indexName := "NIFTY"; snap_timestamp := 1000; snap_row := [] |};
   {| snap_indexName := "BANKNIFTY"; snap_timestamp := 2400;
      snap_row := [] |};
   {| snap_indexName := "NIFTY"; snap_timestamp := 2000; snap_row := [] |};
   {| snap_indexName := "NIFTY"; snap_timestamp := 3000; snap_row := [] |}
  ]%string.

Definition sample_outcomes : list OutcomeRow :=
  [{| o_indexName := None; o_entryTime := 2400;
      o_outcome := "TARGET_HIT"; o_profitLossPercent := 12;
      o_holdingDuration := 900000 |};
   {| o_indexName := None; o_entryTime := 2500;
      o_outcome := "STOP_LOSS_HIT"; o_profitLossPercent := -1.5;
      o_holdingDuration := 300000 |}].

Definition mixed_outcomes : list OutcomeRow :=
  [{| o_indexName := Some "NIFTY"%string; o_entryTime := 2400;
      o_outcome := "TARGET_HIT"; o_profitLossPercent := 12;
      o_holdingDuration := 900000 |};
   {| o_indexName := None; o_entryTime := 2500;
      o_outcome := "STOP_LOSS_HIT"; o_profitLossPercent := -1.5;
      o_holdingDuration := 300000 |}].

End TargetTerms.

(** ** simple_ai_service.py *)

Module SimpleAiService.

Import PricePredictionModel AiPredictionService.

Local Open Scope Q_scope.

(** Python's [a > b] on two JSON values: numbers and booleans compare as
    numbers, two strings compare as strings, and any other pair raises
    [TypeError]. *)
Definition py_gt (a b : json) : PyResult bool :=
  match a, b with
  | JStr s, JStr t => Ok (String.ltb t s)
  | _, _ =>
      let+ x := as_number a in
      let+ y := as_number b in
      Ok (Qlt_bool y x)
  end.

(** [a < b]. *)
Definition py_lt (a b : json) : PyResult bool := py_gt b a.

(** The dict [predict_direction] returns. *)
Record SimplePrediction : Type := {
  direction : string;
  direction_confidence : Q;
  success_probability : Q;
  expected_profit_percent : Q
}.

(** One [if]/[elif] pair of the score. *)
Definition vote (up down : PyResult bool) : PyResult Z :=
  let+ u := up in
  if u then Ok 1%Z
  else let+ d := down in Ok (if d then (-1)%Z else 0%Z).

(** The [try] block of [predict_direction]. *)
Definition predict_direction_body (market_data : gmap string json)
  : PyResult SimplePrediction :=
  let current_price := default (JNum 0) (market_data !! "currentPrice"%string)
  in
  let+ indicators := get_object market_data "indicators" in
  let ema := default current_price (indicators !! "ema"%string) in
  let rsi := default (JNum 50) (indicators !! "rsi"%string) in
  let momentum := default (JNum 0) (indicators !! "momentum"%string) in
  let volatility := default (JNum 0.15) (indicators !! "volatility"%string)
  in
  let+ ema_vote := vote (py_gt current_price ema) (py_lt current_price ema)
  in
  let+ rsi_vote := vote (py_lt rsi (JNum 30)) (py_gt rsi (JNum 70)) in
  let+ momentum_vote :=
    vote (py_gt momentum (JNum 0.01)) (py_lt momentum (JNum (-0.01))) in
  let score := (ema_vote + rsi_vote + momentum_vote)%Z in
  let '(direction, confidence) :=
    if (0 <? score)%Z
    then ("UP"%string, Qmin 0.85 (0.5 + inject_Z score * 0.15))
    else if (score <? 0)%Z
    then ("DOWN"%string, Qmin 0.85 (0.5 + inject_Z (Z.abs score) * 0.15))
    else ("SIDEWAYS"%string, 0.4) in
  let+ high_volatility := py_gt volatility (JNum 0.25) in
  let confidence :=
    if high_volatility then confidence * 0.8 else confidence in
  Ok {| direction := direction;
        direction_confidence := confidence;
        success_probability := confidence * 0.9;
        expected_profit_percent := confidence * 2.5 |}.

(** [predict_direction]: any exception gives the fixed dict. *)
Definition predict_direction (market_data : gmap string json)
  : SimplePrediction :=
  match predict_direction_body market_data with
  | Ok prediction => prediction
  | Raise _ =>
      {| direction := "SIDEWAYS";
         direction_confidence := 0.3;
         success_probability := 0.3;
         expected_profit_percent := 0.5 |}
  end.

(** The entries of the reasoning: the lower-cased direction, the
    confidence printed as a percentage, the risk level. *)
Inductive SimpleReason : Type :=
| Suggests (movement : string)
| ConfidenceLevel (confidence : Q)
| RiskAssessment (risk_level : RiskLevel).

Record SimpleRecommendation : Type := {
  action : Action;
  confidence : Q;
  reasoning : list SimpleReason;
  risk_level : RiskLevel;
  position_size : Q
}.

(** [generate_trading_recommendation] on a dict of [predict_direction];
    on such a dict nothing in its [try] block raises.  The market data
    are not read. *)
Definition generate_trading_recommendation (prediction : SimplePrediction)
  (market_data : gmap string json) : SimpleRecommendation :=
  let direction := direction prediction in
  let confidence := direction_confidence prediction in
  let '(action, risk_level) :=
    if String.eqb direction "UP" && Qlt_bool 0.6 confidence
    then (BUY, if Qlt_bool 0.8 confidence then LOW else MEDIUM)
    else if String.eqb direction "DOWN" && Qlt_bool 0.6 confidence
    then (SELL, if Qlt_bool 0.8 confidence then LOW else MEDIUM)
    else (HOLD, if Qlt_bool confidence 0.4 then HIGH else MEDIUM) in
  let position_size :=
    if Qlt_bool 0.8 confidence then 1.0
    else if Qlt_bool 0.6 confidence then 0.8
    else if Qlt_bool 0.4 confidence then 0.5
    else 0.3 in
  let reasoning :=
    (if negb (String.eqb direction "SIDEWAYS")
     then [Suggests (lower direction)] else [])
    ++ [ConfidenceLevel confidence; RiskAssessment risk_level] in
  {| action := action;
     confidence := confidence;
     reasoning := reasoning;
     risk_level := risk_level;
     position_size := position_size |}.

(** The [/predict] endpoint on a JSON object: an empty object is
    refused. *)
Inductive SimpleResponse : Type :=
| Answer (indexName currentPrice : json) (aiPredictions : SimplePrediction)
         (tradingRecommendation : SimpleRecommendation)
         (overall_confidence : Q)
| Refused (status : Z).

Definition predict (data : gmap string json) : SimpleResponse :=
  if decide (data = ∅) then Refused 400
  else
    let index_name := default (JStr "UNKNOWN") (data !! "indexName"%string) in
    let current_price := default (JNum 0) (data !! "currentPrice"%string) in
    let ai_prediction := predict_direction data in
    let trading_recommendation :=
      generate_trading_recommendation ai_prediction data in
    let overall_confidence := direction_confidence ai_prediction in
    Answer index_name current_price ai_prediction trading_recommendation
      overall_confidence.

End SimpleAiService.

Module SimpleTerms.

Import PricePredictionModel AiPredictionService SimpleAiService.

Local Open Scope Q_scope.

(** The directions and confidences [predict_direction] can return: the
    dict of the [except] branch first, then a score of zero, one, two
    and three votes, each without and with high volatility. *)
Definition listed_predictions : list (string * Q) :=
  [("SIDEWAYS", 0.3);
   ("SIDEWAYS", 0.4); ("SIDEWAYS", 0.32);
   ("UP", 0.65); ("UP", 0.52); ("UP", 0.8); ("UP", 0.64);
   ("UP", 0.85); ("UP", 0.68);
   ("DOWN", 0.65); ("DOWN", 0.52); ("DOWN", 0.8); ("DOWN", 0.64);
   ("DOWN", 0.85); ("DOWN", 0.68)]%string.

(** A request whose price lies above the average, with an oversold RSI
    and a rising momentum. *)
Definition three_votes_up : gmap string json :=
  {[ "indexName"%string := JStr "NIFTY";
     "currentPrice"%string := JNum 25000;
     "indicators"%string :=
       JObj {[ "ema"%string := JNum 24950;
               "rsi"%string := JNum 25;
               "momentum"%string := JNum 0.02 ]} ]}.

End SimpleTerms.

(** * Properties *)

(** ** Comparisons *)

Lemma Qlt_bool_iff (a b : Q) : Qlt_bool a b = true <-> (a < b)%Q.
Proof.
  unfold Qlt_bool. rewrite negb_true_iff.
  split; intro H.
  - apply Qnot_le_lt. intro Hle. apply Qle_bool_iff in Hle. congruence.
  - destruct (Qle_bool b a) eqn:E; [|reflexivity].
    apply Qle_bool_iff in E. exfalso. apply (Qlt_not_le _ _ H E).
Qed.

Lemma Qlt_bool_false_iff (a b : Q) : Qlt_bool a b = false <-> (b <= a)%Q.
Proof.
  unfold Qlt_bool. rewrite negb_false_iff. apply Qle_bool_iff.
Qed.

(** ** Risk analytics *)

Module BacktestingFacts.

Import BacktestingSystem DrawdownSpec.

Local Open Scope Q_scope.

Section Recurrences.

(** The three numpy passes are scans; each is characterised by the
    recurrence its elements satisfy. *)

Lemma cumsum_from_rec (t : list Q) :
  forall (acc : Q) (r : nat -> Q) (k : nat),
    acc == r k ->
    (forall i, (i < length t)%nat ->
       r (S (k + i)) == r (k + i)%nat + nth i t 0) ->
    forall i, (i < length t)%nat ->
      nth i (cumsum_from acc t) 0 == r (S (k + i)).
Proof.
  induction t as [|y t IH]; intros acc r k Hacc Hrec i Hi; simpl in Hi.
  - lia.
  - assert (H0 : acc + y == r (S k)).
    { pose proof (Hrec 0%nat ltac:(simpl; lia)) as H0.
      rewrite Nat.add_0_r in H0. simpl in H0.
      rewrite H0, Hacc. reflexivity. }
    destruct i as [|i]; simpl.
    + rewrite Nat.add_0_r. exact H0.
    + replace (S (k + S i)) with (S (S k + i)) by lia.
      apply IH.
      * exact H0.
      * intros j Hj. specialize (Hrec (S j)). simpl in Hrec.
        replace (S k + j)%nat with (k + S j)%nat by lia.
        apply Hrec. lia.
      * lia.
Qed.

Lemma maximum_accumulate_from_rec (t : list Q) :
  forall (m : Q) (r : nat -> Q) (k : nat),
    m == r k ->
    (forall i, (i < length t)%nat ->
       r (S (k + i)) == Qmax (r (k + i)%nat) (nth i t 0)) ->
    forall i, (i < length t)%nat ->
      nth i (maximum_accumulate_from m t) 0 == r (S (k + i)).
Proof.
  induction t as [|y t IH]; intros m r k Hm Hrec i Hi; simpl in Hi.
  - lia.
  - assert (H0 : Qmax m y == r (S k)).
    { pose proof (Hrec 0%nat ltac:(simpl; lia)) as H0.
      rewrite Nat.add_0_r in H0. simpl in H0.
      rewrite H0, Hm. reflexivity. }
    destruct i as [|i]; simpl.
    + rewrite Nat.add_0_r. exact H0.
    + replace (S (k + S i)) with (S (S k + i)) by lia.
      apply IH.
      * exact H0.
      * intros j Hj. specialize (Hrec (S j)). simpl in Hrec.
        replace (S k + j)%nat with (k + S j)%nat by lia.
        apply Hrec. lia.
      * lia.
Qed.

Lemma fold_min_rec (t : list Q) :
  forall (m : Q) (r : nat -> Q) (k : nat),
    m == r k ->
    (forall i, (i < length t)%nat ->
       r (S (k + i)) == Qmin (r (k + i)%nat) (nth i t 0)) ->
    fold_left Qmin t m == r (k + length t)%nat.
Proof.
  induction t as [|y t IH]; intros m r k Hm Hrec; simpl.
  - rewrite Nat.add_0_r. exact Hm.
  - replace (k + S (length t))%nat with (S k + length t)%nat by lia.
    apply IH.
    + pose proof (Hrec 0%nat ltac:(simpl; lia)) as H0.
      rewrite Nat.add_0_r in H0. simpl in H0.
      rewrite H0, Hm. reflexivity.
    + intros j Hj. specialize (Hrec (S j)). simpl in Hrec.
      replace (S k + j)%nat with (k + S j)%nat by lia.
      apply Hrec. lia.
Qed.

End Recurrences.

Lemma length_cumsum_from (t : list Q) : forall acc,
  length (cumsum_from acc t) = length t.
Proof. induction t; intros; simpl; auto. Qed.

Lemma length_cumsum (l : list Q) : length (cumsum l) = length l.
Proof. destruct l; simpl; auto using length_cumsum_from. Qed.

Lemma length_maximum_accumulate_from (t : list Q) : forall m,
  length (maximum_accumulate_from m t) = length t.
Proof. induction t; intros; simpl; auto. Qed.

Lemma length_maximum_accumulate (l : list Q) :
  length (maximum_accumulate l) = length l.
Proof. destruct l; simpl; auto using length_maximum_accumulate_from. Qed.

Lemma length_subtract (a : list Q) : forall b,
  length a = length b -> length (subtract a b) = length a.
Proof.
  induction a as [|x a IH]; intros [|y b] H; simpl in *; try lia.
  rewrite IH; lia.
Qed.

Lemma nth_subtract (a : list Q) : forall b i,
  length a = length b -> (i < length a)%nat ->
  nth i (subtract a b) 0 = nth i a 0 - nth i b 0.
Proof.
  induction a as [|x a IH]; intros [|y b] i H Hi; simpl in *; try lia.
  destruct i; [reflexivity|]. apply IH; lia.
Qed.

(** The cumulative sum of the specification grows by the next return. *)
Lemma cumulative_at_succ (l : list Q) : forall i,
  cumulative_at l (S i) == cumulative_at l i + nth (S i) l 0.
Proof.
  unfold cumulative_at.
  induction l as [|x l IH]; intros i.
  - simpl. lra.
  - destruct i as [|i].
    + destruct l as [|y l]; simpl; lra.
    + specialize (IH i).
      change (firstn (S (S (S i))) (x :: l)) with (x :: firstn (S (S i)) l).
      change (firstn (S (S i)) (x :: l)) with (x :: firstn (S i) l).
      change (nth (S (S i)) (x :: l) 0) with (nth (S i) l 0).
      cbn [fold_right]. rewrite IH. lra.
Qed.

Lemma cumsum_nth (l : list Q) (i : nat) :
  (i < length l)%nat -> nth i (cumsum l) 0 == cumulative_at l i.
Proof.
  destruct l as [|x t]; simpl; [lia|]. intros Hi.
  destruct i as [|i].
  - unfold cumulative_at. simpl. lra.
  - simpl.
    apply (cumsum_from_rec t x (cumulative_at (x :: t)) 0).
    + unfold cumulative_at. simpl. lra.
    + intros j Hj. simpl. apply cumulative_at_succ.
    + lia.
Qed.

Lemma max_upto_ext (f g : nat -> Q) (n : nat) :
  (forall i, (i <= n)%nat -> f i == g i) -> max_upto f n == max_upto g n.
Proof.
  induction n as [|n IH]; intros H; simpl.
  - apply H. lia.
  - rewrite IH by (intros; apply H; lia). rewrite (H (S n)) by lia.
    reflexivity.
Qed.

Lemma maximum_accumulate_nth (c : list Q) (i : nat) :
  (i < length c)%nat ->
  nth i (maximum_accumulate c) 0 == max_upto (fun j => nth j c 0) i.
Proof.
  intros Hc. destruct c as [|x t]; simpl in Hc; [lia|].
  destruct i as [|i]; simpl; [reflexivity|].
  apply (maximum_accumulate_from_rec t x
           (max_upto (fun j => nth j (x :: t) 0)) 0).
  - simpl. reflexivity.
  - intros j Hj. simpl. reflexivity.
  - lia.
Qed.

Lemma running_max_nth (l : list Q) (i : nat) :
  (i < length l)%nat ->
  nth i (maximum_accumulate (cumsum l)) 0 == running_max_at l i.
Proof.
  intros Hi. unfold running_max_at.
  rewrite maximum_accumulate_nth by (rewrite length_cumsum; lia).
  apply max_upto_ext. intros j Hj. apply cumsum_nth. lia.
Qed.

Lemma min_upto_ext (f g : nat -> Q) (n : nat) :
  (forall i, (i <= n)%nat -> f i == g i) -> min_upto f n == min_upto g n.
Proof.
  induction n as [|n IH]; intros H; simpl.
  - apply H. lia.
  - rewrite IH by (intros; apply H; lia). rewrite (H (S n)) by lia.
    reflexivity.
Qed.

Lemma np_min_upto (d : list Q) :
  option_Qeq (np_min d)
    (match length d with
     | O => None
     | S n => Some (min_upto (fun i => nth i d 0) n)
     end).
Proof.
  destruct d as [|x t]; simpl; [exact I|].
  apply (fold_min_rec t x (min_upto (fun i => nth i (x :: t) 0)) 0).
  - simpl. reflexivity.
  - intros j Hj. simpl. reflexivity.
Qed.

Lemma drawdown_nth (l : list Q) (i : nat) :
  (i < length l)%nat ->
  nth i (subtract (cumsum l) (maximum_accumulate (cumsum l))) 0
  == drawdown_at l i.
Proof.
  intros Hi. rewrite nth_subtract.
  - unfold drawdown_at. rewrite cumsum_nth, running_max_nth by lia.
    reflexivity.
  - rewrite length_maximum_accumulate. reflexivity.
  - rewrite length_cumsum. lia.
Qed.

Lemma calculate_max_drawdown_refines (returns : list Q) :
  option_Qeq (calculate_max_drawdown returns) (max_drawdown_spec returns).
Proof.
  unfold calculate_max_drawdown, max_drawdown_spec.
  set (d := subtract (cumsum returns) (maximum_accumulate (cumsum returns))).
  assert (Hlen : length d = length returns).
  { unfold d. rewrite length_subtract, length_cumsum; auto.
    rewrite length_maximum_accumulate. reflexivity. }
  pose proof (np_min_upto d) as H. rewrite Hlen in H.
  destruct (np_min d) as [m|], (length returns) as [|n] eqn:E;
    simpl in *; try tauto.
  rewrite H. apply min_upto_ext. intros i Hi.
  apply drawdown_nth. lia.
Qed.

Lemma running_max_ge (l : list Q) (i : nat) :
  cumulative_at l i <= running_max_at l i.
Proof.
  unfold running_max_at. destruct i; simpl.
  - lra.
  - apply Q.le_max_r.
Qed.

Lemma min_upto_const (f : nat -> Q) (c : Q) (n : nat) :
  (forall i, (i <= n)%nat -> f i == c) -> min_upto f n == c.
Proof.
  induction n as [|n IH]; intros H; simpl.
  - apply H. lia.
  - rewrite IH by (intros; apply H; lia). rewrite (H (S n)) by lia.
    apply Q.min_id.
Qed.

(** C8. In trade order, the maximum drawdown is the minimum over the
    positions of the cumulative sum of the returns minus the running
    maximum of the cumulative sums seen so far (an empty sequence has no
    position and [np.min] raises on it); for the returns 5, -3, -4, 6 it
    is -7; and it is 0 when the cumulative series never falls below its
    running maximum. *)
Theorem max_drawdown_is_min_over_positions :
  (forall returns : list Q,
     option_Qeq (calculate_max_drawdown returns) (max_drawdown_spec returns))
  /\ calculate_max_drawdown [5; -3; -4; 6] = Some (-7)
  /\ (forall returns : list Q,
        returns <> [] ->
        (forall i, (i < length returns)%nat ->
           running_max_at returns i <= cumulative_at returns i) ->
        exists m, calculate_max_drawdown returns = Some m /\ m == 0).
Proof.
  split; [exact calculate_max_drawdown_refines|].
  split; [reflexivity|].
  intros returns Hne Hmono.
  pose proof (calculate_max_drawdown_refines returns) as H.
  unfold max_drawdown_spec in H.
  destruct (calculate_max_drawdown returns) as [m|] eqn:Em;
    destruct (length returns) as [|n] eqn:En; simpl in H; try tauto.
  - exists m. split; [reflexivity|]. rewrite H.
    apply min_upto_const. intros i Hi. unfold drawdown_at.
    pose proof (running_max_ge returns i).
    assert (running_max_at returns i <= cumulative_at returns i)
      by (apply Hmono; lia).
    lra.
  - destruct returns; [congruence|discriminate].
Qed.

Lemma max_drawdown_is_min_over_positions_witness :
  option_Qeq (calculate_max_drawdown [1; 2]) (max_drawdown_spec [1; 2])
  /\ exists m, calculate_max_drawdown [1; 2] = Some m /\ m == 0.
Proof.
  destruct max_drawdown_is_min_over_positions as (Hspec & _ & Hzero).
  split.
  - apply Hspec.
  - apply Hzero.
    + discriminate.
    + intros i Hi. simpl in Hi.
      destruct i as [|[|i]]; [vm_compute; discriminate
                             |vm_compute; discriminate|lia].
Defined.

(** *** Summaries *)

Import BacktestingTerms.

Lemma calculate_max_drawdown_nonempty (x : Q) (t : list Q) :
  exists m, calculate_max_drawdown (x :: t) = Some m.
Proof.
  unfold calculate_max_drawdown.
  cbn [cumsum maximum_accumulate subtract np_min].
  eexists. reflexivity.
Qed.

Lemma calculate_backtest_results_nonempty (t : Trade) (ts : list Trade)
  (name : string) :
  exists r, calculate_backtest_results (t :: ts) name = Some r
    /\ total_trades r = length (t :: ts)
    /\ winning_trades r = length (List.filter is_winning (t :: ts))
    /\ losing_trades r = length (List.filter is_losing (t :: ts))
    /\ profit_factor r =
         (if Qlt_bool 0 (total_loss r)
          then Fin (total_profit r / total_loss r) else PInf)
    /\ total_loss r =
         (if (0 <? length (List.filter is_losing (t :: ts)))%nat
          then Qabs (Qsum (map profit_loss_percent
                             (List.filter is_losing (t :: ts))))
          else 0).
Proof.
  unfold calculate_backtest_results.
  destruct (calculate_max_drawdown_nonempty (profit_loss_percent t)
              (map profit_loss_percent ts)) as [m Hm].
  change (map profit_loss_percent (t :: ts))
    with (profit_loss_percent t :: map profit_loss_percent ts).
  rewrite Hm. cbn [np_max np_min mbind option_bind].
  eexists. split; [reflexivity|].
  cbn [total_trades winning_trades losing_trades profit_factor total_loss
       total_profit].
  rewrite !length_map. repeat split; reflexivity.
Qed.

Lemma filter_none {A : Type} (p : A -> bool) (l : list A) :
  (forall x, In x l -> p x = false) -> List.filter p l = [].
Proof.
  induction l as [|a l IH]; intros H; simpl; [reflexivity|].
  rewrite (H a) by (left; reflexivity).
  apply IH. intros x Hx. apply H. right. exact Hx.
Qed.

Lemma filter_all {A : Type} (p : A -> bool) (l : list A) :
  (forall x, In x l -> p x = true) -> List.filter p l = l.
Proof.
  induction l as [|a l IH]; intros H; simpl; [reflexivity|].
  rewrite (H a) by (left; reflexivity).
  f_equal. apply IH. intros x Hx. apply H. right. exact Hx.
Qed.

(** C7. Summarizing no trade gives the all-zero result, profit factor 0
    included, without raising; summarizing a non-empty list in which every
    trade has a positive [profit_loss_percent] returns a result whose
    profit factor is infinite. *)
Theorem empty_summary_zero_and_winners_only_infinite :
  (forall name : string,
     calculate_backtest_results [] name = Some (all_zero_result name))
  /\ (forall (trades : list Trade) (name : string),
        trades <> [] ->
        (forall t, In t trades -> 0 < profit_loss_percent t) ->
        exists r, calculate_backtest_results trades name = Some r
                  /\ profit_factor r = PInf).
Proof.
  split; [reflexivity|].
  intros trades name Hne Hwin.
  destruct trades as [|t ts]; [congruence|].
  destruct (calculate_backtest_results_nonempty t ts name)
    as (r & Hr & _ & _ & _ & Hpf & Hloss).
  exists r. split; [exact Hr|].
  rewrite Hpf, Hloss.
  rewrite (filter_none is_losing (t :: ts)).
  - reflexivity.
  - intros x Hx. unfold is_losing.
    destruct (Qle_bool (profit_loss_percent x) 0) eqn:E; [|reflexivity].
    apply Qle_bool_iff in E. specialize (Hwin x Hx). lra.
Qed.

Lemma empty_summary_zero_and_winners_only_infinite_witness :
  exists r, calculate_backtest_results [winning_trade] "Technical Only" = Some r
            /\ profit_factor r = PInf.
Proof.
  apply (proj2 empty_summary_zero_and_winners_only_infinite).
  - discriminate.
  - intros t [<-|[]]. reflexivity.
Defined.

(** *** The outcome model *)

Lemma low_draws_well_ranged (rand : Q) :
  0 <= rand -> rand < 1 -> well_ranged (low_draws rand).
Proof.
  intros H0 H1. unfold well_ranged, low_draws; simpl.
  repeat split; try assumption; try lra; lia.
Qed.

(** Which branch [simulate_trade_outcome] takes, as a function of the
    first draw. *)
Lemma simulate_trade_outcome_result
  (entry_price target_price stop_loss_price c : Q) (g : RandomSource)
  (o : TradeOutcome) :
  simulate_trade_outcome entry_price target_price stop_loss_price c g
  = Some o ->
  ~ entry_price == 0 /\
  o_profit_loss_percent o
    == (o_exit_price o - entry_price) / entry_price * 100 /\
  ((random g < c * 0.7 /\ o_result o = TARGET_HIT /\
    o_exit_price o = target_price * uniform g 0.95 1.0) \/
   (c * 0.7 <= random g /\ random g < c * 0.7 + 0.6 /\
    o_result o = STOP_LOSS_HIT /\
    o_exit_price o = stop_loss_price * uniform g 1.0 1.05) \/
   (c * 0.7 + 0.6 <= random g /\ o_result o = MANUAL_EXIT /\
    o_exit_price o = entry_price * uniform g 0.98 1.02)).
Proof.
  unfold simulate_trade_outcome.
  destruct (Qeq_bool entry_price 0) eqn:Ez.
  - destruct (Qlt_bool (random g) (c * 0.7));
      [|destruct (Qlt_bool (random g) (c * 0.7 + 0.6))]; discriminate.
  - assert (Hnz : ~ entry_price == 0).
    { intro H. apply Qeq_bool_iff in H. congruence. }
    destruct (Qlt_bool (random g) (c * 0.7)) eqn:E1;
      [|destruct (Qlt_bool (random g) (c * 0.7 + 0.6)) eqn:E2];
      intros [= <-]; cbn [o_profit_loss_percent o_exit_price o_result];
      (split; [exact Hnz|]); (split; [reflexivity|]).
    + left. apply Qlt_bool_iff in E1. auto.
    + right; left. apply Qlt_bool_false_iff in E1.
      apply Qlt_bool_iff in E2. auto.
    + right; right. apply Qlt_bool_false_iff in E2. auto.
Qed.

(** [simulate_trade_outcome] returns whenever the entry price is not
    zero. *)
Lemma simulate_trade_outcome_returns
  (entry_price target_price stop_loss_price c : Q) (g : RandomSource) :
  ~ entry_price == 0 ->
  exists o,
    simulate_trade_outcome entry_price target_price stop_loss_price c g
    = Some o.
Proof.
  intros Hnz. unfold simulate_trade_outcome.
  destruct (Qeq_bool entry_price 0) eqn:Ez.
  - apply Qeq_bool_iff in Ez. contradiction.
  - destruct (Qlt_bool (random g) (c * 0.7));
      [|destruct (Qlt_bool (random g) (c * 0.7 + 0.6))];
      eexists; reflexivity.
Qed.

(** C3, on the code.  At the entry confidence 0.6 that the technical
    strategy uses, the target is hit exactly when the draw is below 0.42,
    every other draw of [0, 1) ends in a stop loss, and no draw ends in a
    manual exit: a missed target is a stop loss with probability 1, not
    0.6, and a manual exit with probability 0, not 0.4. *)
Theorem stop_loss_absorbs_every_miss_at_confidence_06 :
  forall (entry_price target_price stop_loss_price : Q) (g : RandomSource)
         (o : TradeOutcome),
    well_ranged g ->
    simulate_trade_outcome entry_price target_price stop_loss_price 0.6 g
    = Some o ->
    (o_result o = TARGET_HIT <-> random g < 0.42) /\
    (o_result o = STOP_LOSS_HIT <-> 0.42 <= random g) /\
    o_result o <> MANUAL_EXIT.
Proof.
  intros entry_price target_price stop_loss_price g o [[H0 H1] _] Ho.
  apply simulate_trade_outcome_result in Ho.
  destruct Ho as (_ & _ & [(Hr & Hres & _)
                          |[(Hr1 & Hr2 & Hres & _)|(Hr & Hres & _)]]);
    rewrite Hres.
  - repeat split; intros; try discriminate; try lra.
  - repeat split; intros; try discriminate; try lra.
  - exfalso. lra.
Qed.

Lemma stop_loss_absorbs_every_miss_at_confidence_06_witness :
  exists o,
    simulate_trade_outcome 100 130 80 0.6 (low_draws 0.99) = Some o /\
    o_result o = STOP_LOSS_HIT /\ o_result o <> MANUAL_EXIT.
Proof.
  eexists. split; [reflexivity|].
  destruct (stop_loss_absorbs_every_miss_at_confidence_06
              100 130 80 (low_draws 0.99) _
              (low_draws_well_ranged 0.99 ltac:(lra) ltac:(lra))
              eq_refl) as (_ & Hstop & Hmanual).
  split; [reflexivity | exact Hmanual].
Defined.

(** The branch thresholds at any confidence: the stop-loss branch takes
    the draws of a window of fixed width 0.6 after the target window. *)
Lemma outcome_thresholds
  (entry_price target_price stop_loss_price c : Q) (g : RandomSource)
  (o : TradeOutcome) :
  simulate_trade_outcome entry_price target_price stop_loss_price c g
  = Some o ->
  (o_result o = TARGET_HIT <-> random g < c * 0.7) /\
  (o_result o = STOP_LOSS_HIT <->
     c * 0.7 <= random g /\ random g < c * 0.7 + 0.6) /\
  (o_result o = MANUAL_EXIT <-> c * 0.7 + 0.6 <= random g).
Proof.
  intros Ho. apply simulate_trade_outcome_result in Ho.
  destruct Ho as (_ & _ & [(Hr & Hres & _)
                          |[(Hr1 & Hr2 & Hres & _)|(Hr & Hres & _)]]);
    rewrite Hres; repeat split; intros; try discriminate; try lra;
    try (exfalso; lra).
  all: try (destruct H; lra).
Qed.

(** *** Short trades *)

Lemma simulate_trade_inv (row : Row) (strategy_type : string)
  (signal_data : option SignalData) (g : RandomSource) (t : Trade) :
  simulate_trade row strategy_type signal_data g = Some t ->
  entry_price t = row_price row /\
  target_price t =
    (if String.eqb (direction t) "UP"
     then row_price row * 1.30 else row_price row * 0.70) /\
  exists o,
    simulate_trade_outcome (row_price row) (target_price t)
      (stop_loss_price t) (confidence t) g = Some o /\
    exit_price t = o_exit_price o /\
    outcome t = o_result o /\
    profit_loss_percent t = o_profit_loss_percent o.
Proof.
  unfold simulate_trade.
  destruct (match signal_data with
            | Some sd => _
            | None => _
            end) as [d c].
  destruct (String.eqb d "UP") eqn:Ed.
  - destruct (simulate_trade_outcome _ _ _ _ _) as [o|] eqn:Eo; [|discriminate].
    intros [= <-]. cbn. rewrite Ed. eauto 10.
  - destruct (simulate_trade_outcome _ _ _ _ _) as [o|] eqn:Eo; [|discriminate].
    intros [= <-]. cbn. rewrite Ed. eauto 10.
Qed.

Lemma short_target_hit_percent (t : Trade) :
  short_target_hit t ->
  -33.5 <= profit_loss_percent t /\ profit_loss_percent t < -30.
Proof.
  intros (row & st & sd & g & Hg & Ht & Hdir & Hout).
  apply simulate_trade_inv in Ht.
  destruct Ht as (Hentry & Htarget & o & Ho & Hexit & Hres & Hpl).
  rewrite Hdir in Htarget. cbn in Htarget.
  apply simulate_trade_outcome_result in Ho.
  destruct Ho as (Hnz & Hpct & Hbranch).
  rewrite Hpl, Hpct.
  destruct Hbranch as [(_ & _ & Hx)|[(_ & _ & Hres' & _)|(_ & Hres' & _)]];
    try (rewrite Hout in Hres; congruence).
  rewrite Hx, Htarget.
  destruct Hg as (_ & Hu & _).
  destruct (Hu 0.95 1.0 ltac:(lra)) as [Hlo Hhi].
  set (s := uniform g 0.95 1.0) in *.
  set (e := row_price row) in *.
  assert (Heq : (e * 0.70 * s - e) / e * 100 == (0.7 * s - 1) * 100)
    by (field; exact Hnz).
  rewrite Heq. split; lra.
Qed.

(** C4. A short trade of [simulate_trade] that resolves to TARGET_HIT has
    a [profit_loss_percent] between -33.5 and -30, which is the exit price
    minus the entry price over the entry price whatever the direction; the
    summary therefore counts every such trade as losing and none as
    winning. *)
Theorem short_target_hit_is_booked_as_loss :
  (forall t : Trade,
     short_target_hit t ->
     (-33.5 <= profit_loss_percent t /\ profit_loss_percent t < -30)
     /\ profit_loss_percent t
        == (exit_price t - entry_price t) / entry_price t * 100
     /\ is_winning t = false /\ is_losing t = true)
  /\ (forall (trades : list Trade) (name : string),
        Forall short_target_hit trades ->
        exists r, calculate_backtest_results trades name = Some r
                  /\ winning_trades r = 0%nat
                  /\ losing_trades r = length trades).
Proof.
  assert (Hone : forall t, short_target_hit t ->
            is_winning t = false /\ is_losing t = true).
  { intros t Ht. destruct (short_target_hit_percent t Ht) as [Hlo Hhi].
    unfold is_winning, is_losing. split.
    - apply Qlt_bool_false_iff. lra.
    - apply Qle_bool_iff. lra. }
  split.
  - intros t Ht. split; [exact (short_target_hit_percent t Ht)|].
    split; [|exact (Hone t Ht)].
    destruct Ht as (row & st & sd & g & Hg & Ht & Hdir & Hout).
    apply simulate_trade_inv in Ht.
    destruct Ht as (Hentry & _ & o & Ho & Hexit & _ & Hpl).
    apply simulate_trade_outcome_result in Ho.
    destruct Ho as (_ & Hpct & _).
    rewrite Hpl, Hpct, Hexit, Hentry. reflexivity.
  - intros trades name Hall.
    destruct trades as [|t ts].
    + eexists. split; [reflexivity|]. split; reflexivity.
    + destruct (calculate_backtest_results_nonempty t ts name)
        as (r & Hr & _ & Hw & Hl & _).
      exists r. split; [exact Hr|].
      rewrite Hw, Hl. rewrite List.Forall_forall in Hall.
      rewrite (filter_none is_winning), (filter_all is_losing).
      * split; reflexivity.
      * intros x Hx. apply (Hone x (Hall x Hx)).
      * intros x Hx. apply (Hone x (Hall x Hx)).
Qed.

Lemma short_target_hit_is_booked_as_loss_witness :
  match simulate_trade falling_row "TECHNICAL_ONLY" None (low_draws 0.3) with
  | Some t =>
      short_target_hit t /\
      (-33.5 <= profit_loss_percent t /\ profit_loss_percent t < -30) /\
      is_winning t = false /\ is_losing t = true /\
      exists r, calculate_backtest_results [t] "Technical Only" = Some r
                /\ winning_trades r = 0%nat /\ losing_trades r = 1%nat
  | None => False
  end.
Proof.
  destruct (simulate_trade falling_row "TECHNICAL_ONLY" None (low_draws 0.3))
    as [t|] eqn:E; [|vm_compute in E; discriminate].
  assert (Ht : short_target_hit t).
  { exists falling_row, "TECHNICAL_ONLY"%string, None, (low_draws 0.3).
    split; [apply low_draws_well_ranged; lra|].
    split; [exact E|].
    vm_compute in E. injection E as <-. split; reflexivity. }
  destruct short_target_hit_is_booked_as_loss as [Hone Hall].
  destruct (Hone t Ht) as (Hrange & _ & Hw & Hl).
  split; [exact Ht|]. split; [exact Hrange|].
  split; [exact Hw|]. split; [exact Hl|].
  apply (Hall [t]). constructor; [exact Ht|constructor].
Defined.

(** *** The Sharpe ratio *)

Section SharpeFacts.

Local Open Scope R_scope.

Lemma Rsum_shift (k : R) (l : list R) :
  Rsum (map (fun r => r - k) l) = Rsum l - k * INR (length l).
Proof.
  induction l as [|x l IH].
  - simpl. lra.
  - cbn [map Rsum fold_right length]. fold (Rsum (map (fun r => r - k) l)).
    fold (Rsum l). rewrite IH, S_INR. lra.
Qed.

Lemma INR_length_nonzero {A : Type} (l : list A) :
  l <> [] -> INR (length l) <> 0.
Proof.
  intros H. destruct l; [congruence|].
  apply not_0_INR. simpl. lia.
Qed.

Lemma Rmean_shift (k : R) (l : list R) :
  l <> [] -> Rmean (map (fun r => r - k) l) = Rmean l - k.
Proof.
  intros H. unfold Rmean. rewrite Rsum_shift, length_map.
  field. apply INR_length_nonzero. exact H.
Qed.

(** The variance, hence [np.std], does not see a constant shift. *)
Lemma Rvariance_shift (k : R) (l : list R) :
  l <> [] -> Rvariance (map (fun r => r - k) l) = Rvariance l.
Proof.
  intros H. unfold Rvariance. rewrite Rmean_shift by exact H.
  rewrite map_map.
  rewrite (map_ext (fun x => (x - k - (Rmean l - k)) * (x - k - (Rmean l - k)))
                   (fun x => (x - Rmean l) * (x - Rmean l)))
    by (intros x; ring).
  reflexivity.
Qed.

Lemma Rsum_squares_nonneg (m : R) (l : list R) :
  0 <= Rsum (map (fun x => (x - m) * (x - m)) l).
Proof.
  unfold Rsum. induction l as [|x l IH]; simpl.
  - lra.
  - apply Rplus_le_le_0_compat; [|exact IH].
    apply Rle_0_sqr.
Qed.

Lemma Rvariance_nonneg (l : list R) : 0 <= Rvariance l.
Proof.
  unfold Rvariance, Rmean at 1. rewrite length_map.
  destruct l as [|x l].
  - simpl. lra.
  - apply Rmult_le_pos.
    + apply Rsum_squares_nonneg.
    + left. apply Rinv_0_lt_compat. apply lt_0_INR. simpl. lia.
Qed.

Lemma Rstd_zero_iff (l : list R) : Rstd l = 0 <-> Rvariance l = 0.
Proof.
  unfold Rstd. split; intros H.
  - apply sqrt_eq_0; [apply Rvariance_nonneg | exact H].
  - rewrite H. apply sqrt_0.
Qed.

Lemma Rvariance_singleton (x : R) : Rvariance [x] = 0.
Proof. unfold Rvariance, Rmean, Rsum. simpl. field. Qed.

Lemma Rvariance_short (l : list R) : (length l < 2)%nat -> Rvariance l = 0.
Proof.
  destruct l as [|x [|y l]]; simpl; intros H; try lia.
  - unfold Rvariance, Rmean, Rsum. simpl. lra.
  - apply Rvariance_singleton.
Qed.

Lemma sharpe_zero_variance (returns : list R) (rf : R) :
  Rvariance returns = 0 -> calculate_sharpe_ratio returns rf = 0.
Proof.
  intros H. unfold calculate_sharpe_ratio.
  destruct (Nat.eqb (length returns) 0); [reflexivity|].
  destruct (Req_dec_T (Rstd returns) 0) as [_|Hne]; [reflexivity|].
  exfalso. apply Hne. apply Rstd_zero_iff. exact H.
Qed.

(** Read over the reals, the Sharpe ratio is 0 when there are fewer than
    two trades and when the returns have zero variance; otherwise it is
    the mean of the returns in excess of the daily risk-free rate
    0.05/252, divided by the standard deviation of that excess series,
    times the square root of 252, and the divisor is not zero.  On
    doubles the guard and the divisor round differently: see
    [Float64Facts]. *)
Theorem exact_sharpe_ratio_is_guarded :
  forall returns : list R,
    ((length returns < 2)%nat -> calculate_sharpe_ratio returns 0.05 = 0)
    /\ (Rvariance returns = 0 -> calculate_sharpe_ratio returns 0.05 = 0)
    /\ ((2 <= length returns)%nat -> Rvariance returns <> 0 ->
        let excess := map (fun r => r - 0.05 / 252) returns in
        Rstd excess <> 0 /\
        calculate_sharpe_ratio returns 0.05
        = Rmean excess / Rstd excess * sqrt 252).
Proof.
  intros returns. split; [|split].
  - intros H. apply sharpe_zero_variance, Rvariance_short, H.
  - apply sharpe_zero_variance.
  - intros Hlen Hvar excess.
    assert (Hne : returns <> [])
      by (destruct returns; simpl in *; [lia|congruence]).
    split.
    + unfold excess. rewrite Rstd_zero_iff, Rvariance_shift by exact Hne.
      exact Hvar.
    + unfold calculate_sharpe_ratio.
      destruct (Nat.eqb (length returns) 0) eqn:E.
      * apply Nat.eqb_eq in E. lia.
      * destruct (Req_dec_T (Rstd returns) 0) as [Hz|_].
        -- apply Rstd_zero_iff in Hz. contradiction.
        -- reflexivity.
Qed.

Lemma exact_sharpe_ratio_is_guarded_witness :
  calculate_sharpe_ratio [1; 1] 0.05 = 0
  /\ Rstd (map (fun r => r - 0.05 / 252) [1; 3]) <> 0
  /\ calculate_sharpe_ratio [1; 3] 0.05
     = Rmean (map (fun r => r - 0.05 / 252) [1; 3])
       / Rstd (map (fun r => r - 0.05 / 252) [1; 3]) * sqrt 252.
Proof.
  split.
  - apply (proj1 (proj2 (exact_sharpe_ratio_is_guarded [1; 1]))).
    unfold Rvariance, Rmean, Rsum. simpl. field.
  - apply (proj2 (proj2 (exact_sharpe_ratio_is_guarded [1; 3]))).
    + simpl. lia.
    + unfold Rvariance, Rmean, Rsum. simpl. lra.
Defined.

End SharpeFacts.

End BacktestingFacts.

(** ** The recommendation engine *)

Module ServiceFacts.

Import PricePredictionModel AiPredictionService ServiceTerms.

Local Open Scope Q_scope.

(** The blocks before the volatility block leave risk level and position
    size at their seeds. *)
Lemma apply_direction_risk (p : Prediction) (r : Recommendation) :
  risk_level (apply_direction p r) = risk_level r /\
  position_size (apply_direction p r) = position_size r.
Proof.
  unfold apply_direction.
  destruct (p_direction p) as [d|]; [|auto].
  destruct (_ && _); [auto|]. destruct (_ && _); auto.
Qed.

Lemma apply_success_probability_risk (p : Prediction) (r : Recommendation) :
  risk_level (apply_success_probability p r) = risk_level r /\
  position_size (apply_success_probability p r) = position_size r.
Proof.
  unfold apply_success_probability.
  destruct (p_success_probability p) as [s|]; [|auto].
  destruct (Qlt_bool 0.8 s); [auto|]. destruct (Qlt_bool s 0.4); auto.
Qed.

Lemma apply_sentiment_risk (s : option Sentiment) (r : Recommendation) :
  risk_level (apply_sentiment s r) = risk_level r /\
  position_size (apply_sentiment s r) = position_size r.
Proof.
  unfold apply_sentiment.
  destruct s as [s|]; [|auto].
  destruct (Qlt_bool 0.3 _).
  - destruct (is_buy _); auto.
  - destruct (Qlt_bool _ _); [|auto]. destruct (is_sell _); auto.
Qed.

Lemma before_volatility_risk (p : Prediction) (s : option Sentiment) :
  let r := apply_sentiment s
             (apply_success_probability p
                (apply_direction p seed_recommendation)) in
  risk_level r = MEDIUM /\ position_size r = 1.0.
Proof.
  cbv zeta.
  destruct (apply_sentiment_risk s
              (apply_success_probability p
                 (apply_direction p seed_recommendation))) as [-> ->].
  destruct (apply_success_probability_risk p
              (apply_direction p seed_recommendation)) as [-> ->].
  destruct (apply_direction_risk p seed_recommendation) as [-> ->].
  split; reflexivity.
Qed.

Lemma apply_market_close_risk (hour : Z) (r : Recommendation) :
  risk_level (apply_market_close hour r) = risk_level r /\
  position_size (apply_market_close hour r)
  == position_size r * late_session_factor hour.
Proof.
  unfold apply_market_close, late_session_factor.
  destruct (15 <=? hour)%Z; cbn; split; try reflexivity. ring.
Qed.

(** C2, as the code has it.  When the [market_data] argument carries a
    numeric top-level volatility (0.15 when the key is absent), a value
    above 0.25 gives risk HIGH and size 0.7, a value below 0.10 gives risk
    LOW and size 1.3, any other value leaves MEDIUM and 1.0; in all three
    cases the size is further multiplied by 0.8 when the evaluation hour is
    15 or later. *)
Theorem volatility_sets_risk_and_size :
  forall (predictions : Prediction) (sentiment_score : option Sentiment)
         (market_data : gmap string json) (hour : Z) (v : Q),
    as_number (default (JNum 0.15) (market_data !! "volatility"%string))
    = Ok v ->
    exists r,
      generate_trading_recommendation predictions sentiment_score
        market_data hour = Ok r
      /\ (0.25 < v ->
          risk_level r = HIGH
          /\ position_size r == 0.7 * late_session_factor hour)
      /\ (v < 0.10 ->
          risk_level r = LOW
          /\ position_size r == 1.3 * late_session_factor hour)
      /\ (0.10 <= v -> v <= 0.25 ->
          risk_level r = MEDIUM
          /\ position_size r == 1.0 * late_session_factor hour).
Proof.
  intros p s m h v Hv.
  unfold generate_trading_recommendation. rewrite Hv.
  eexists. split; [reflexivity|].
  destruct (before_volatility_risk p s) as [Hrisk Hsize]. cbv zeta in *.
  set (r := apply_sentiment s _) in *.
  destruct (apply_market_close_risk h (apply_volatility v r)) as [-> ->].
  unfold apply_volatility.
  destruct (Qlt_bool 0.25 v) eqn:E1; [|destruct (Qlt_bool v 0.10) eqn:E2].
  - apply Qlt_bool_iff in E1. cbn.
    repeat split; intros; try reflexivity; exfalso; lra.
  - apply Qlt_bool_false_iff in E1. apply Qlt_bool_iff in E2. cbn.
    repeat split; intros; try reflexivity; exfalso; lra.
  - apply Qlt_bool_false_iff in E1. apply Qlt_bool_false_iff in E2.
    rewrite Hrisk, Hsize.
    repeat split; intros; try reflexivity; exfalso; lra.
Qed.

Lemma volatility_sets_risk_and_size_witness :
  exists r,
    generate_trading_recommendation upward_prediction None
      (snapshot_with_volatility 0.30) 15 = Ok r
    /\ risk_level r = HIGH
    /\ position_size r == 0.7 * 0.8.
Proof.
  destruct (volatility_sets_risk_and_size upward_prediction None
              (snapshot_with_volatility 0.30) 15 0.30 eq_refl)
    as (r & Hr & Hhigh & _).
  exists r. split; [exact Hr|].
  apply Hhigh. reflexivity.
Defined.

(** C2 as written fails: with volatility 0.05 at hour 15 the size is 1.04,
    not 1.3, and with volatility 0.15 at hour 15 it is 0.8, not the seed
    1.0. *)
Lemma low_volatility_late_session_size :
  generate_trading_recommendation no_prediction None
    (snapshot_with_volatility 0.05) 15
  = Ok {| action := HOLD; confidence := 0.5;
          reasoning := [MarketCloseProximity];
          risk_level := LOW; position_size := 1.3 * 0.8 |}
  /\ ~ (1.3 * 0.8 == 1.3)
  /\ generate_trading_recommendation no_prediction None
       (snapshot_with_volatility 0.15) 15
     = Ok {| action := HOLD; confidence := 0.5;
             reasoning := [MarketCloseProximity];
             risk_level := MEDIUM; position_size := 1.0 * 0.8 |}
  /\ ~ (1.0 * 0.8 == 1.0).
Proof.
  split; [reflexivity|]. split; [intro H; lra|].
  split; [reflexivity|]. intro H; lra.
Qed.

(** The engine reads the key at the top level of the dict it is given;
    the request body keeps the volatility under [indicators], and on the
    body itself the default 0.15 is used. *)
Lemma recommendation_on_request_body :
  generate_trading_recommendation no_prediction None test_data 10
  = Ok seed_recommendation.
Proof. reflexivity. Qed.

(** C6, as the code has it.  With identical prediction, sentiment and
    snapshot, two invocations agree on whether they raise, on the action,
    the confidence and the risk level; they return identical
    recommendations when their evaluation hours lie on the same side of
    15. *)
Theorem recommendation_is_determined_up_to_the_hour :
  forall (predictions : Prediction) (sentiment_score : option Sentiment)
         (market_data : gmap string json) (hour1 hour2 : Z),
    match generate_trading_recommendation predictions sentiment_score
            market_data hour1,
          generate_trading_recommendation predictions sentiment_score
            market_data hour2 with
    | Ok r1, Ok r2 =>
        action r1 = action r2 /\ confidence r1 = confidence r2 /\
        risk_level r1 = risk_level r2
    | Raise e1, Raise e2 => e1 = e2
    | _, _ => False
    end
    /\ ((15 <=? hour1)%Z = (15 <=? hour2)%Z ->
        generate_trading_recommendation predictions sentiment_score
          market_data hour1
        = generate_trading_recommendation predictions sentiment_score
            market_data hour2).
Proof.
  intros p s m h1 h2. unfold generate_trading_recommendation.
  destruct (as_number _) as [v|e]; [|split; reflexivity].
  split.
  - unfold apply_market_close.
    destruct (15 <=? h1)%Z, (15 <=? h2)%Z; cbn; repeat split; reflexivity.
  - intros H. unfold apply_market_close. rewrite H. reflexivity.
Qed.

Lemma recommendation_is_determined_up_to_the_hour_witness :
  generate_trading_recommendation upward_prediction None
    (snapshot_with_volatility 0.30) 15
  = generate_trading_recommendation upward_prediction None
      (snapshot_with_volatility 0.30) 16.
Proof.
  apply (proj2 (recommendation_is_determined_up_to_the_hour
                  upward_prediction None (snapshot_with_volatility 0.30)
                  15 16)).
  reflexivity.
Defined.

(** C6 as written fails: the same inputs evaluated at hour 14 and at hour
    15 give different position sizes and different reasoning lists. *)
Lemma same_inputs_different_hours :
  generate_trading_recommendation upward_prediction None
    (snapshot_with_volatility 0.30) 14
  = Ok {| action := BUY; confidence := 0.5;
          reasoning := [PredictsUpward 0.75];
          risk_level := HIGH; position_size := 0.7 |}
  /\ generate_trading_recommendation upward_prediction None
       (snapshot_with_volatility 0.30) 15
     = Ok {| action := BUY; confidence := 0.5;
             reasoning := [PredictsUpward 0.75; MarketCloseProximity];
             risk_level := HIGH; position_size := 0.7 * 0.8 |}
  /\ ~ (0.7 == 0.7 * 0.8)
  /\ [PredictsUpward 0.75] <> [PredictsUpward 0.75; MarketCloseProximity].
Proof.
  split; [reflexivity|]. split; [reflexivity|].
  split; [intro H; lra | discriminate].
Qed.

(** The request body of the test script, served by an ensemble fitted on
    the sample training frame: the flat dict has no [price_change_5] and no
    [price_ma_5] column but a textual [volatilityRegime] column, the
    feature matrix has fifteen columns, and the request fails with status
    500. *)
Lemma predict_endpoint_on_test_body :
  let now := {| hour := 10; minute := 30; weekday := 1 |} in
  let ai_model := snd (train_models ModelTerms.sample_sklearn
                         ModelTerms.training_frame init) in
  (exists market_data,
     prepare_market_data_for_prediction test_data now = Ok market_data
     /\ snd (fst (prepare_features (DataFrame_of_dict market_data)))
        = ["price"; "hour"; "minute"; "day_of_week"; "is_opening_hour";
           "is_closing_hour"; "ema"; "rsi"; "momentum"; "volatility";
           "volatilityRegime"; "trend_bullish"; "trend_bearish";
           "vol_high"; "vol_medium"]%string)
  /\ fst (predict_price_movement true test_data None now ai_model)
     = Failure 500.
Proof.
  cbv zeta. split.
  - eexists. split; vm_compute; reflexivity.
  - vm_compute. reflexivity.
Qed.

End ServiceFacts.

(** ** The feature matrix and the ensemble *)

Module ModelFacts.

Import PricePredictionModel ModelTerms.

Local Open Scope Q_scope.

(** *** Frames *)

Lemma get_column_In (df : DataFrame) (c : string) (v : list cell) :
  get_column df c = Some v -> In c (columns df).
Proof.
  induction df as [|[k w] df IH]; simpl; [discriminate|].
  destruct (String.eqb k c) eqn:E.
  - apply String.eqb_eq in E. auto.
  - intros H. right. apply IH. exact H.
Qed.

Lemma has_column_In (df : DataFrame) (c : string) :
  has_column df c = true <-> In c (columns df).
Proof.
  unfold has_column. rewrite existsb_exists. split.
  - intros (x & Hx & E). apply String.eqb_eq in E. subst. exact Hx.
  - intros H. exists c. split; [exact H|apply String.eqb_refl].
Qed.

Lemma columns_select (df : DataFrame) (cols : list string) (c : string) :
  In c (columns (select df cols)) -> In c cols /\ In c (columns df).
Proof.
  induction cols as [|k cols IH]; simpl; [tauto|].
  destruct (get_column df k) as [v|] eqn:E.
  - simpl. intros [<-|H].
    + split; [auto|]. eapply get_column_In, E.
    + destruct (IH H). auto.
  - intros H. destruct (IH H). auto.
Qed.

Lemma columns_fillna (df : DataFrame) : columns (fillna df) = columns df.
Proof.
  unfold columns, fillna. rewrite map_map. apply map_ext.
  intros [k v]. reflexivity.
Qed.

Lemma columns_set_column (df : DataFrame) (c k : string) (v : list cell) :
  In k (columns (set_column df c v)) -> k = c \/ In k (columns df).
Proof.
  induction df as [|[a w] df IH]; simpl.
  - intros [<-|[]]. auto.
  - destruct (String.eqb a c) eqn:E; simpl.
    + tauto.
    + intros [<-|H]; [auto|]. destruct (IH H); auto.
Qed.

Lemma get_column_set_column_ne (df : DataFrame) (c k : string)
  (v : list cell) :
  k <> c -> get_column (set_column df c v) k = get_column df k.
Proof.
  intros Hne. induction df as [|[a w] df IH]; simpl.
  - destruct (String.eqb c k) eqn:E; [|reflexivity].
    apply String.eqb_eq in E. congruence.
  - destruct (String.eqb a c) eqn:E; simpl.
    + apply String.eqb_eq in E. subst a.
      destruct (String.eqb c k) eqn:E'; [|reflexivity].
      apply String.eqb_eq in E'. congruence.
    + destruct (String.eqb a k); [reflexivity|exact IH].
Qed.

(** What [prepare_features] leaves in the frame it was given: the four
    derived flags may be new, every other column is as before. *)
Lemma prepare_features_frame (df : DataFrame) (k : string) :
  ~ In k derived_flags ->
  get_column (snd (prepare_features df)) k = get_column df k.
Proof.
  intros Hk. unfold prepare_features.
  assert (H1 : k <> "trend_bullish"%string)
    by (intro; subst; apply Hk; simpl; auto).
  assert (H2 : k <> "trend_bearish"%string)
    by (intro; subst; apply Hk; simpl; auto).
  assert (H3 : k <> "vol_high"%string)
    by (intro; subst; apply Hk; simpl; auto).
  assert (H4 : k <> "vol_medium"%string)
    by (intro; subst; apply Hk; simpl; auto 6).
  destruct (get_column df "trend") as [trend|];
    destruct (get_column _ "volatilityRegime") as [regime|]; cbn [snd];
    rewrite ?get_column_set_column_ne by assumption; reflexivity.
Qed.

(** The columns of the feature matrix come from the frame at hand: a
    column that the input lacks, and that is not a derived flag, is not in
    the matrix. *)
Lemma prepare_features_columns (df : DataFrame) (c : string) :
  In c (columns (fst (fst (prepare_features df)))) ->
  In c (columns df) \/ In c derived_flags.
Proof.
  unfold prepare_features.
  destruct (get_column df "trend") as [trend|];
    destruct (get_column _ "volatilityRegime") as [regime|]; cbn [fst];
    rewrite columns_fillna; intros H; apply columns_select in H;
    destruct H as [_ H];
    repeat (apply columns_set_column in H; destruct H as [->|H];
            [right; simpl; auto 6|]);
    auto.
Qed.

(** The matrix and the stored column list agree. *)
Lemma prepare_features_stored (df : DataFrame) :
  columns (fst (fst (prepare_features df))) = snd (fst (prepare_features df)).
Proof.
  unfold prepare_features.
  assert (Hsel : forall (d : DataFrame) (cols : list string),
            columns (select d (List.filter (has_column d) cols))
            = List.filter (has_column d) cols).
  { intros d cols. induction cols as [|k cols IH]; simpl; [reflexivity|].
    destruct (has_column d k) eqn:E; [|exact IH].
    simpl. destruct (get_column d k) as [v|] eqn:Eg.
    - simpl. f_equal. exact IH.
    - exfalso. apply has_column_In in E.
      clear -E Eg. induction d as [|[a w] d IHd]; simpl in *; [tauto|].
      destruct (String.eqb a k) eqn:Ea; [discriminate|].
      destruct E as [->|E]; [rewrite String.eqb_refl in Ea; discriminate|].
      auto. }
  destruct (get_column df "trend") as [trend|];
    destruct (get_column _ "volatilityRegime") as [regime|]; cbn [fst snd];
    rewrite columns_fillna; apply Hsel.
Qed.

(** *** predict *)

(** [predict] stores the columns of its own input, whatever was stored at
    fit time. *)
Lemma predict_feature_columns (market_data : Dict) (st : Ensemble) :
  feature_columns (snd (predict market_data st))
  = snd (fst (prepare_features (DataFrame_of_dict market_data))).
Proof.
  unfold predict, prepare_features_method.
  destruct (prepare_features (DataFrame_of_dict market_data))
    as [[X cols] df'].
  reflexivity.
Qed.

Lemma columns_DataFrame_of_dict (d : Dict) :
  columns (DataFrame_of_dict d) = map fst d.
Proof.
  unfold columns, DataFrame_of_dict. rewrite map_map. apply map_ext.
  intros [k v]. reflexivity.
Qed.

(** C1, on the code.  [predict] builds its matrix from the keys of the
    dict it is given and stores that column list in place of the one
    recorded at fit time: a recorded column that the dict lacks (and that
    is not one of the four derived flags) is not in the matrix at all.
    After a fit on the sample training frame the recorded columns are the
    twelve fit-time columns; a call on the ten-key dict of the module's own
    example builds ten columns, [price_change_5] and [price_ma_5] being
    dropped, not filled with 0, overwrites the recorded list, and the
    scaler rejects the matrix; a dict with the twelve keys in another
    order yields the columns in that other order. *)
Theorem predict_rebuilds_columns_from_its_input :
  (forall (st : Ensemble) (market_data : Dict) (c : string),
     In c (feature_columns st) ->
     ~ In c (map fst market_data) ->
     ~ In c derived_flags ->
     let X := fst (fst (prepare_features (DataFrame_of_dict market_data))) in
     ~ In c (columns X)
     /\ feature_columns (snd (predict market_data st)) = columns X)
  /\ (forall sk : Sklearn,
        let trained := train_models sk training_frame init in
        let after := predict sample_market_data (snd trained) in
        fst trained = Ok tt
        /\ feature_columns (snd trained) = fit_time_columns
        /\ feature_columns (snd after) = firstn 10 fit_time_columns
        /\ fst after = Raise ValueError
        /\ feature_columns
             (snd (predict reordered_market_data (snd trained)))
           = ["price"; "hour"; "minute"; "day_of_week"; "is_opening_hour";
              "is_closing_hour"; "rsi"; "ema"; "momentum"; "volatility";
              "price_ma_5"; "price_change_5"]%string).
Proof.
  split.
  - intros st market_data c _ Hkey Hflag X. split.
    + intros Hin. apply prepare_features_columns in Hin.
      rewrite columns_DataFrame_of_dict in Hin. tauto.
    + rewrite predict_feature_columns. symmetry.
      apply prepare_features_stored.
  - intros sk. cbv zeta.
    repeat split; vm_compute; reflexivity.
Qed.

Lemma predict_rebuilds_columns_from_its_input_witness :
  let trained := snd (train_models sample_sklearn training_frame init) in
  let X := fst (fst (prepare_features
                       (DataFrame_of_dict sample_market_data))) in
  In "price_change_5"%string (feature_columns trained)
  /\ ~ In "price_change_5"%string (columns X)
  /\ feature_columns (snd (predict sample_market_data trained)) = columns X.
Proof.
  cbv zeta.
  assert (Hin : In "price_change_5"%string
                  (feature_columns
                     (snd (train_models sample_sklearn training_frame init)))).
  { vm_compute. do 10 right. left. reflexivity. }
  split; [exact Hin|].
  apply (proj1 predict_rebuilds_columns_from_its_input
           (snd (train_models sample_sklearn training_frame init))
           sample_market_data "price_change_5"%string Hin).
  - vm_compute. intuition discriminate.
  - vm_compute. intuition discriminate.
Defined.

(** *** Failure modes of predict *)

Lemma predict_unfold (market_data : Dict) (st : Ensemble) :
  let '(X, cols, _) := prepare_features (DataFrame_of_dict market_data) in
  let self := set_feature_columns cols st in
  predict market_data st =
  (let+ scaler := subscript (scalers st) "main" in
   let+ X_scaled := transform scaler X in
   let+ predictions := direction_block self X_scaled no_prediction in
   let+ predictions := success_block self X_scaled predictions in
   target_block self X_scaled predictions,
   self).
Proof.
  unfold predict, prepare_features_method.
  destruct (prepare_features (DataFrame_of_dict market_data))
    as [[X cols] df'].
  reflexivity.
Qed.

(** Without a scaler under the key [main], [predict] raises. *)
Lemma predict_before_fit (market_data : Dict) (st : Ensemble) :
  scalers st !! "main"%string = None ->
  fst (predict market_data st) = Raise (KeyError "main").
Proof.
  intros H. pose proof (predict_unfold market_data st) as Hp.
  destruct (prepare_features _) as [[X cols] df'].
  rewrite Hp. unfold subscript. rewrite H. reflexivity.
Qed.

(** A result of [predict] lacks the fields of every untrained model. *)
Lemma predict_absent_fields (market_data : Dict) (st : Ensemble)
  (p : Prediction) :
  fst (predict market_data st) = Ok p ->
  (models st !! "price_direction"%string = Some None ->
   p_direction p = None /\ p_direction_confidence p = None)
  /\ (models st !! "success_probability"%string = Some None ->
      p_success_probability p = None)
  /\ (models st !! "price_target"%string = Some None ->
      p_expected_profit_percent p = None).
Proof.
  pose proof (predict_unfold market_data st) as Hp.
  destruct (prepare_features _) as [[X cols] df'].
  rewrite Hp. clear Hp. cbn [fst].
  destruct (subscript (scalers st) "main") as [sc|]; [|discriminate].
  cbn [result_bind].
  destruct (transform sc X) as [x|]; [|discriminate].
  cbn [result_bind].
  unfold direction_block, success_block, target_block, subscript.
  cbn [models set_feature_columns label_encoders].
  destruct (models st !! "price_direction"%string) as [[m1|]|];
    cbn [result_bind]; try discriminate.
  - destruct (label_encoders st !! "direction"%string) as [enc|];
      cbn [result_bind]; [|discriminate].
    destruct (inverse_transform _ _); cbn [result_bind]; [|discriminate].
    destruct (predict_proba m1 x); cbn [result_bind]; [|discriminate].
    destruct (py_max _); cbn [result_bind]; [|discriminate].
    destruct (models st !! "success_probability"%string) as [[m2|]|];
      cbn [result_bind]; try discriminate.
    + destruct (predict_proba m2 x); cbn [result_bind]; [|discriminate].
      destruct (nth_error _ 1); cbn [result_bind]; [|discriminate].
      destruct (models st !! "price_target"%string) as [[m3|]|];
        cbn [result_bind]; try discriminate;
        intros [= <-]; cbn; repeat split; intros; congruence.
    + destruct (models st !! "price_target"%string) as [[m3|]|];
        cbn [result_bind]; try discriminate;
        intros [= <-]; cbn; repeat split; intros; congruence.
  - destruct (models st !! "success_probability"%string) as [[m2|]|];
      cbn [result_bind]; try discriminate.
    + destruct (predict_proba m2 x); cbn [result_bind]; [|discriminate].
      destruct (nth_error _ 1); cbn [result_bind]; [|discriminate].
      destruct (models st !! "price_target"%string) as [[m3|]|];
        cbn [result_bind]; try discriminate;
        intros [= <-]; cbn; repeat split; intros; congruence.
    + destruct (models st !! "price_target"%string) as [[m3|]|];
        cbn [result_bind]; try discriminate;
        intros [= <-]; cbn; repeat split; intros; congruence.
Qed.

(** With a fitted scaler that accepts the matrix and no trained model,
    [predict] returns the empty prediction. *)
Lemma predict_untrained (market_data : Dict) (st : Ensemble)
  (sc : option StandardScaler) (x : list Q) :
  scalers st !! "main"%string = Some sc ->
  transform sc (fst (fst (prepare_features (DataFrame_of_dict market_data))))
  = Ok x ->
  models st !! "price_direction"%string = Some None ->
  models st !! "success_probability"%string = Some None ->
  models st !! "price_target"%string = Some None ->
  fst (predict market_data st) = Ok no_prediction.
Proof.
  intros Hsc Hx H1 H2 H3.
  pose proof (predict_unfold market_data st) as Hp.
  destruct (prepare_features _) as [[X cols] df'].
  rewrite Hp. clear Hp. cbn [fst] in *.
  unfold subscript. rewrite Hsc. cbn [result_bind]. rewrite Hx.
  cbn [result_bind].
  unfold direction_block, success_block, target_block, subscript.
  cbn [models set_feature_columns].
  rewrite H1. cbn [result_bind]. rewrite H2. cbn [result_bind].
  rewrite H3. reflexivity.
Qed.

(** The direction model that training keeps is one of the two regressors,
    and a regressor has no [predict_proba]. *)
Lemma select_best_regressor (sk : Sklearn) (candidates : list EstimatorClass) :
  forall (best_score : Q) (best_model : option Estimator) (m : Estimator),
    (forall c, In c candidates -> has_predict_proba c = false) ->
    (forall m', best_model = Some m' ->
                has_predict_proba (est_class m') = false) ->
    select_best sk candidates best_score best_model = Some m ->
    has_predict_proba (est_class m) = false.
Proof.
  induction candidates as [|c rest IH]; intros bs bm m Hc Hbm; simpl.
  - intros H. apply Hbm. exact H.
  - destruct (Qlt_bool bs (sk_cv_score sk c)).
    + apply IH.
      * intros c' Hc'. apply Hc. right. exact Hc'.
      * intros m' [= <-]. cbn. apply Hc. left. reflexivity.
    + apply IH.
      * intros c' Hc'. apply Hc. right. exact Hc'.
      * exact Hbm.
Qed.

Lemma kept_direction_model_is_regressor (sk : Sklearn) (m : Estimator) :
  select_best sk models_to_test 0 None = Some m ->
  has_predict_proba (est_class m) = false.
Proof.
  apply select_best_regressor.
  - intros c [<-|[<-|[]]]; reflexivity.
  - discriminate.
Qed.

(** What a successful [train_models] leaves in the object. *)
Lemma train_models_effect (sk : Sklearn) (df : DataFrame)
  (st0 st : Ensemble) (labels : list cell) :
  train_models sk df st0 = (Ok tt, st) ->
  get_column df "price_direction" = Some labels ->
  (exists sc, scalers st !! "main"%string = Some (Some sc))
  /\ models st !! "price_direction"%string
     = Some (select_best sk models_to_test 0 None)
  /\ feature_columns st = snd (fst (prepare_features df)).
Proof.
  unfold train_models, prepare_features_method.
  pose proof (prepare_features_frame df "price_direction") as Hf.
  destruct (prepare_features df) as [[X cols] df'].
  cbn [snd fst] in *.
  unfold py_bind, py_modify, py_lift, py_ret. cbn [fst snd].
  intros Htrain Hlabels.
  destruct (fit_scaler sk X) as [sc|e]; [|discriminate].
  unfold train_direction_model, train_success_probability_model,
    train_profit_regression_model in Htrain.
  rewrite Hf in Htrain by (simpl; intuition discriminate). clear Hf.
  rewrite Hlabels in Htrain.
  unfold py_bind, py_modify, py_lift, py_ret in Htrain.
  destruct (has_column df' "trade_success"),
           (has_column df' "profit_loss_percent");
    injection Htrain as <-; cbn;
    (split; [eexists; apply lookup_insert_eq|]);
    (split; [|reflexivity]);
    rewrite ?lookup_insert_ne by discriminate;
    apply lookup_insert_eq.
Qed.

(** C10, on the code.  After a training run that succeeds on a frame with
    direction labels and keeps a direction model, the scaler is fitted and
    yet [predict] raises on every input: the kept model is a regressor and
    the direction block calls [predict_proba] on it. *)
Theorem predict_raises_once_a_direction_model_is_kept :
  forall (sk : Sklearn) (df : DataFrame) (st0 st : Ensemble)
         (labels : list cell) (m : Estimator) (market_data : Dict),
    train_models sk df st0 = (Ok tt, st) ->
    get_column df "price_direction" = Some labels ->
    select_best sk models_to_test 0 None = Some m ->
    (exists sc, scalers st !! "main"%string = Some (Some sc))
    /\ exists e, fst (predict market_data st) = Raise e.
Proof.
  intros sk df st0 st labels m market_data Htrain Hlabels Hbest.
  destruct (train_models_effect sk df st0 st labels Htrain Hlabels)
    as (Hsc & Hmodel & _).
  split; [exact Hsc|].
  pose proof (predict_unfold market_data st) as Hp.
  destruct (prepare_features _) as [[X cols] df'].
  rewrite Hp. clear Hp. cbn [fst].
  destruct (subscript (scalers st) "main") as [sc|e];
    cbn [result_bind]; [|eauto].
  destruct (transform sc X) as [x|e]; cbn [result_bind]; [|eauto].
  unfold direction_block, subscript.
  cbn [models set_feature_columns label_encoders].
  rewrite Hmodel, Hbest. cbn [result_bind].
  destruct (label_encoders st !! "direction"%string) as [enc|];
    cbn [result_bind]; [|eauto].
  destruct (inverse_transform _ _) as [label|e]; cbn [result_bind]; [|eauto].
  unfold predict_proba.
  rewrite (kept_direction_model_is_regressor sk m Hbest).
  cbn [result_bind]. eauto.
Qed.

Lemma predict_raises_once_a_direction_model_is_kept_witness :
  (exists sc,
     scalers (snd (train_models sample_sklearn training_frame init))
       !! "main"%string = Some (Some sc))
  /\ (exists e,
        fst (predict full_market_data
               (snd (train_models sample_sklearn training_frame init)))
        = Raise e)
  /\ fst (predict full_market_data
            (snd (train_models sample_sklearn training_frame init)))
     = Raise (AttributeError "predict_proba").
Proof.
  destruct (predict_raises_once_a_direction_model_is_kept
              sample_sklearn training_frame init
              (snd (train_models sample_sklearn training_frame init))
              [Str "UP"; Str "DOWN"]
              (fitted sample_sklearn RandomForestRegressor "price_direction")
              full_market_data)
    as [Hsc Hraise].
  - vm_compute. reflexivity.
  - reflexivity.
  - reflexivity.
  - split; [exact Hsc|]. split; [exact Hraise|].
    vm_compute. reflexivity.
Defined.

(** *** The Bollinger position *)

Lemma Qeq_bool_false (a b : Q) : ~ a == b -> Qeq_bool a b = false.
Proof.
  intros H. destruct (Qeq_bool a b) eqn:E; [|reflexivity].
  apply Qeq_bool_iff in E. contradiction.
Qed.

Lemma Qeq_bool_true (a b : Q) : a == b -> Qeq_bool a b = true.
Proof. apply Qeq_bool_iff. Qed.

(** C5, on the code.  When the bands differ the feature is the quotient
    (price - lower) / (upper - lower).  When they coincide nothing guards
    the division: the value is an infinity if the price is off the band
    and NaN if it is on it; the infinity stays in the frame and in the
    feature matrix, where [fillna(0)] only replaces NaN. *)
Theorem bb_position_has_no_zero_guard :
  (forall price lower upper : Q,
     ~ upper == lower ->
     bb_position (Fin price) (Fin lower) (Fin upper)
     = Fin ((price - lower) / (upper - lower)))
  /\ (forall price band : Q,
        band < price ->
        bb_position (Fin price) (Fin band) (Fin band) = PInf)
  /\ (forall price band : Q,
        price < band ->
        bb_position (Fin price) (Fin band) (Fin band) = NInf)
  /\ (forall band : Q, bb_position (Fin band) (Fin band) (Fin band) = NaN)
  /\ (exists df,
        bollinger_band_features flat_band_frame = Ok df
        /\ get_column df "bb_position" = Some [Num PInf]
        /\ get_column (fst (fst (prepare_features df))) "bb_position"
           = Some [Num PInf]).
Proof.
  unfold bb_position, fsub, fdiv.
  split; [|split; [|split; [|split]]].
  - intros price lower upper H.
    rewrite Qeq_bool_false; [reflexivity|]. intro E. apply H. lra.
  - intros price band H.
    rewrite (Qeq_bool_true (band - band) 0) by ring.
    rewrite Qeq_bool_false by (intro E; lra).
    assert (Hlt : Qlt_bool 0 (price - band) = true)
      by (apply Qlt_bool_iff; lra).
    rewrite Hlt. reflexivity.
  - intros price band H.
    rewrite (Qeq_bool_true (band - band) 0) by ring.
    rewrite Qeq_bool_false by (intro E; lra).
    assert (Hlt : Qlt_bool 0 (price - band) = false)
      by (apply Qlt_bool_false_iff; lra).
    rewrite Hlt. reflexivity.
  - intros band.
    rewrite (Qeq_bool_true (band - band) 0) by ring. reflexivity.
  - eexists. split; [vm_compute; reflexivity|].
    split; vm_compute; reflexivity.
Qed.

Lemma bb_position_has_no_zero_guard_witness :
  bb_position (Fin 25000) (Fin 24900) (Fin 25100)
  = Fin ((25000 - 24900) / (25100 - 24900))
  /\ bb_position (Fin 25010) (Fin 25000) (Fin 25000) = PInf
  /\ bb_position (Fin 24990) (Fin 25000) (Fin 25000) = NInf.
Proof.
  destruct bb_position_has_no_zero_guard as (Hq & Hp & Hn & _).
  split; [|split].
  - apply Hq. intro E. vm_compute in E. discriminate.
  - apply Hp. reflexivity.
  - apply Hn. reflexivity.
Defined.

End ModelFacts.

(** ** More on the backtester *)

Module StrategyFacts.

Import PricePredictionModel BacktestingSystem BacktestingStrategies.
Import BacktestingTerms StrategyTerms.

Local Open Scope Q_scope.

(** The shape of a simulated trade: prices by direction, and the branch
    of the outcome model with its draws. *)
Lemma simulate_trade_shape (row : Row) (strategy_type : string)
  (signal_data : option SignalData) (g : RandomSource) (t : Trade) :
  simulate_trade row strategy_type signal_data g = Some t ->
  let e := row_price row in
  ~ e == 0
  /\ entry_price t = e
  /\ (if String.eqb (direction t) "UP"
      then target_price t = e * 1.30 /\ stop_loss_price t = e * 0.80
      else target_price t = e * 0.70 /\ stop_loss_price t = e * 1.20)
  /\ profit_loss_percent t == (exit_price t - e) / e * 100
  /\ ((outcome t = TARGET_HIT
       /\ exit_price t = target_price t * uniform g 0.95 1.0
       /\ duration_minutes t = randint g 5 120)
      \/ (outcome t = STOP_LOSS_HIT
          /\ exit_price t = stop_loss_price t * uniform g 1.0 1.05
          /\ duration_minutes t = randint g 2 60)
      \/ (outcome t = MANUAL_EXIT
          /\ exit_price t = e * uniform g 0.98 1.02
          /\ duration_minutes t = randint g 10 90)).
Proof.
  unfold simulate_trade.
  destruct (match signal_data with
            | Some sd => _
            | None => _
            end) as [d c].
  destruct (String.eqb d "UP") eqn:Ed;
    unfold simulate_trade_outcome;
    (destruct (Qeq_bool (row_price row) 0) eqn:Ez;
     [destruct (Qlt_bool _ _); [|destruct (Qlt_bool _ _)]; discriminate|]);
    assert (Hnz : ~ row_price row == 0)
      by (intro H; apply Qeq_bool_iff in H; congruence);
    (destruct (Qlt_bool (random g) (c * 0.7));
     [|destruct (Qlt_bool (random g) (c * 0.7 + 0.6))]);
    intros [= <-]; cbn; rewrite Ed;
    repeat split; try exact Hnz; try reflexivity; auto 10.
Qed.

(** X1. A long trade that reaches its target gains between 23.5 and 30
    percent and counts as winning; a long trade stopped out loses between
    16 and 20 percent and counts as losing. *)
Theorem long_trade_profit_ranges :
  forall (row : Row) (strategy_type : string)
         (signal_data : option SignalData) (g : RandomSource) (t : Trade),
    well_ranged g ->
    simulate_trade row strategy_type signal_data g = Some t ->
    direction t = "UP"%string ->
    (outcome t = TARGET_HIT ->
     23.5 <= profit_loss_percent t /\ profit_loss_percent t < 30
     /\ is_winning t = true)
    /\ (outcome t = STOP_LOSS_HIT ->
        -20 <= profit_loss_percent t /\ profit_loss_percent t < -16
        /\ is_losing t = true).
Proof.
  intros row st sd g t (_ & Hu & _) Ht Hdir.
  apply simulate_trade_shape in Ht. cbv zeta in Ht.
  destruct Ht as (Hnz & _ & Hprices & Hpct & Hbranch).
  rewrite Hdir in Hprices. cbn in Hprices. destruct Hprices as [Htp Hsl].
  set (e := row_price row) in *.
  split; intros Hout.
  - destruct Hbranch as [(_ & Hx & _)|[(Ho & _)|(Ho & _)]];
      try congruence.
    destruct (Hu 0.95 1.0 ltac:(lra)) as [Hlo Hhi].
    set (s := uniform g 0.95 1.0) in *.
    assert (Heq : profit_loss_percent t == (1.3 * s - 1) * 100).
    { rewrite Hpct, Hx, Htp. field. exact Hnz. }
    unfold is_winning. rewrite Qlt_bool_iff. rewrite Heq.
    repeat split; lra.
  - destruct Hbranch as [(Ho & _)|[(_ & Hx & _)|(Ho & _)]];
      try congruence.
    destruct (Hu 1.0 1.05 ltac:(lra)) as [Hlo Hhi].
    set (s := uniform g 1.0 1.05) in *.
    assert (Heq : profit_loss_percent t == (0.8 * s - 1) * 100).
    { rewrite Hpct, Hx, Hsl. field. exact Hnz. }
    unfold is_losing. rewrite Qle_bool_iff. rewrite Heq.
    repeat split; lra.
Qed.

(** X2. A trade whose direction is not UP and that is stopped out has a
    [profit_loss_percent] between +20 and +26, because the percent is the
    exit price minus the entry price whatever the direction: the summary
    counts a short stop loss as a winning trade. *)
Theorem short_stop_loss_is_booked_as_win :
  forall (row : Row) (strategy_type : string)
         (signal_data : option SignalData) (g : RandomSource) (t : Trade),
    well_ranged g ->
    simulate_trade row strategy_type signal_data g = Some t ->
    direction t <> "UP"%string ->
    outcome t = STOP_LOSS_HIT ->
    20 <= profit_loss_percent t /\ profit_loss_percent t < 26
    /\ is_winning t = true /\ is_losing t = false.
Proof.
  intros row st sd g t (_ & Hu & _) Ht Hdir Hout.
  apply simulate_trade_shape in Ht. cbv zeta in Ht.
  destruct Ht as (Hnz & _ & Hprices & Hpct & Hbranch).
  destruct (String.eqb (direction t) "UP") eqn:Ed;
    [apply String.eqb_eq in Ed; contradiction|].
  destruct Hprices as [Htp Hsl].
  set (e := row_price row) in *.
  destruct Hbranch as [(Ho & _)|[(_ & Hx & _)|(Ho & _)]]; try congruence.
  destruct (Hu 1.0 1.05 ltac:(lra)) as [Hlo Hhi].
  set (s := uniform g 1.0 1.05) in *.
  assert (Heq : profit_loss_percent t == (1.2 * s - 1) * 100).
  { rewrite Hpct, Hx, Hsl. field. exact Hnz. }
  unfold is_winning, is_losing.
  rewrite Qlt_bool_iff.
  assert (Hpos : 0 < profit_loss_percent t) by (rewrite Heq; lra).
  repeat split; try (rewrite Heq; lra); try exact Hpos.
  destruct (Qle_bool (profit_loss_percent t) 0) eqn:E; [|reflexivity].
  apply Qle_bool_iff in E. lra.
Qed.

(** X3. Whatever the direction, a manual exit leaves the trade within two
    percent of break-even, and the holding time depends on the outcome
    alone: 5 to 119 minutes for a target, 2 to 59 for a stop loss, 10 to
    89 for a manual exit. *)
Theorem manual_exit_and_durations :
  forall (row : Row) (strategy_type : string)
         (signal_data : option SignalData) (g : RandomSource) (t : Trade),
    well_ranged g ->
    simulate_trade row strategy_type signal_data g = Some t ->
    (outcome t = MANUAL_EXIT ->
     -2 <= profit_loss_percent t /\ profit_loss_percent t < 2)
    /\ match outcome t with
       | TARGET_HIT => (5 <= duration_minutes t < 120)%Z
       | STOP_LOSS_HIT => (2 <= duration_minutes t < 60)%Z
       | MANUAL_EXIT => (10 <= duration_minutes t < 90)%Z
       end.
Proof.
  intros row st sd g t (_ & Hu & Hi) Ht.
  apply simulate_trade_shape in Ht. cbv zeta in Ht.
  destruct Ht as (Hnz & _ & _ & Hpct & Hbranch).
  set (e := row_price row) in *.
  split.
  - intros Hout.
    destruct Hbranch as [(Ho & _)|[(Ho & _)|(_ & Hx & _)]]; try congruence.
    destruct (Hu 0.98 1.02 ltac:(lra)) as [Hlo Hhi].
    set (s := uniform g 0.98 1.02) in *.
    assert (Heq : profit_loss_percent t == (s - 1) * 100).
    { rewrite Hpct, Hx. field. exact Hnz. }
    rewrite Heq. split; lra.
  - destruct Hbranch as [(Ho & _ & Hd)|[(Ho & _ & Hd)|(Ho & _ & Hd)]];
      rewrite Ho, Hd; apply Hi; lia.
Qed.

Lemma long_trade_profit_ranges_witness :
  match simulate_trade rising_row "TECHNICAL_ONLY" None (low_draws 0.3) with
  | Some t =>
      23.5 <= profit_loss_percent t /\ profit_loss_percent t < 30
      /\ is_winning t = true
  | None => False
  end.
Proof.
  destruct (simulate_trade rising_row "TECHNICAL_ONLY" None (low_draws 0.3))
    as [t|] eqn:E; [|vm_compute in E; discriminate].
  apply (proj1 (long_trade_profit_ranges rising_row "TECHNICAL_ONLY" None
                  (low_draws 0.3) t
                  (BacktestingFacts.low_draws_well_ranged 0.3
                     ltac:(lra) ltac:(lra))
                  E
                  ltac:(vm_compute in E; injection E as <-; reflexivity))).
  vm_compute in E. injection E as <-. reflexivity.
Defined.

Lemma short_stop_loss_is_booked_as_win_witness :
  match simulate_trade falling_row "TECHNICAL_ONLY" None (low_draws 0.5) with
  | Some t =>
      20 <= profit_loss_percent t /\ profit_loss_percent t < 26
      /\ is_winning t = true /\ is_losing t = false
  | None => False
  end.
Proof.
  destruct (simulate_trade falling_row "TECHNICAL_ONLY" None (low_draws 0.5))
    as [t|] eqn:E; [|vm_compute in E; discriminate].
  apply (short_stop_loss_is_booked_as_win falling_row "TECHNICAL_ONLY" None
           (low_draws 0.5) t
           (BacktestingFacts.low_draws_well_ranged 0.5 ltac:(lra) ltac:(lra))
           E).
  - vm_compute in E. injection E as <-. discriminate.
  - vm_compute in E. injection E as <-. reflexivity.
Defined.

Lemma manual_exit_and_durations_witness :
  match simulate_trade rising_row "AI_ENHANCED"
          (Some {| sig_direction := Some "UP"%string;
                   sig_confidence := Some 0.1 |})
          (low_draws 0.9) with
  | Some t =>
      outcome t = MANUAL_EXIT
      /\ -2 <= profit_loss_percent t /\ profit_loss_percent t < 2
      /\ (10 <= duration_minutes t < 90)%Z
  | None => False
  end.
Proof.
  destruct (simulate_trade rising_row "AI_ENHANCED" _ (low_draws 0.9))
    as [t|] eqn:E; [|vm_compute in E; discriminate].
  assert (Hout : outcome t = MANUAL_EXIT)
    by (vm_compute in E; injection E as <-; reflexivity).
  destruct (manual_exit_and_durations rising_row "AI_ENHANCED" _
              (low_draws 0.9) t
              (BacktestingFacts.low_draws_well_ranged 0.9
                 ltac:(lra) ltac:(lra)) E)
    as [Hpct Hdur].
  rewrite Hout in Hdur.
  split; [exact Hout|]. destruct (Hpct Hout). auto.
Defined.

(** *** The technical rule *)

Lemma technical_signal_inv (row : Row) :
  should_generate_technical_signal row = true ->
  let indicators := row_indicators row in
  let rsi := default 50 (indicators !! "rsi"%string) in
  let ema := default 0 (indicators !! "ema"%string) in
  let momentum := default 0 (indicators !! "momentum"%string) in
  30 < rsi /\ rsi < 70
  /\ ((0.005 < momentum /\ ema < row_price row)
      \/ (momentum < -0.005 /\ row_price row < ema)).
Proof.
  unfold should_generate_technical_signal. cbv zeta.
  rewrite orb_true_iff, !andb_true_iff, !Qlt_bool_iff.
  intros [(((H1 & H2) & H3) & H4)|(((H1 & H2) & H3) & H4)]; auto 10.
Qed.

(** X4. When the technical rule fires, the relative strength index lies
    strictly between 30 and 70 and the trade that [simulate_trade] opens
    without signal data is long exactly when the price is above the moving
    average and short exactly when it is below; its entry confidence is
    0.6.  The rule never fires on a row without a momentum indicator. *)
Theorem technical_signal_fixes_the_direction :
  forall (row : Row) (strategy_type : string) (g : RandomSource) (t : Trade),
    should_generate_technical_signal row = true ->
    simulate_trade row strategy_type None g = Some t ->
    let ema := default 0 (row_indicators row !! "ema"%string) in
    let rsi := default 50 (row_indicators row !! "rsi"%string) in
    30 < rsi /\ rsi < 70
    /\ (direction t = "UP"%string <-> ema < row_price row)
    /\ (direction t = "DOWN"%string <-> row_price row < ema)
    /\ confidence t = 0.6
    /\ row_indicators row !! "momentum"%string <> None.
Proof.
  intros row st g t Hsig Ht. cbv zeta.
  apply technical_signal_inv in Hsig. cbv zeta in Hsig.
  destruct Hsig as (Hr1 & Hr2 & Hside).
  split; [exact Hr1|]. split; [exact Hr2|].
  assert (Hmom : row_indicators row !! "momentum"%string <> None).
  { intro Hnone. rewrite Hnone in Hside. cbn in Hside.
    destruct Hside as [[H _]|[H _]]; lra. }
  unfold simulate_trade in Ht.
  set (momentum := default 0 (row_indicators row !! "momentum"%string)) in *.
  destruct (Qlt_bool 0 momentum) eqn:Em.
  - cbn in Ht.
    destruct (simulate_trade_outcome _ _ _ _ _); [|discriminate].
    injection Ht as <-. cbn.
    apply Qlt_bool_iff in Em.
    destruct Hside as [[Hm Hp]|[Hm Hp]]; [|lra].
    repeat split; auto; try discriminate; intros; lra.
  - cbn in Ht.
    destruct (simulate_trade_outcome _ _ _ _ _); [|discriminate].
    injection Ht as <-. cbn.
    apply Qlt_bool_false_iff in Em.
    destruct Hside as [[Hm Hp]|[Hm Hp]]; [lra|].
    repeat split; auto; try discriminate; intros; lra.
Qed.

Lemma technical_signal_fixes_the_direction_witness :
  match simulate_trade rising_row "TECHNICAL_ONLY" None (low_draws 0.3) with
  | Some t => direction t = "UP"%string /\ confidence t = 0.6
  | None => False
  end.
Proof.
  destruct (simulate_trade rising_row "TECHNICAL_ONLY" None (low_draws 0.3))
    as [t|] eqn:E; [|vm_compute in E; discriminate].
  destruct (technical_signal_fixes_the_direction rising_row "TECHNICAL_ONLY"
              (low_draws 0.3) t eq_refl E)
    as (_ & _ & Hup & _ & Hc & _).
  split; [|exact Hc].
  apply Hup. reflexivity.
Defined.

Lemma technical_trade_tags (row : Row)
  (g : RandomSource) (t : Trade) :
  should_generate_technical_signal row = true ->
  simulate_trade row "TECHNICAL_ONLY" None g = Some t ->
  strategy t = "TECHNICAL_ONLY"%string
  /\ confidence t = 0.6
  /\ (direction t = "UP"%string \/ direction t = "DOWN"%string).
Proof.
  intros _ Ht. unfold simulate_trade in Ht.
  destruct (Qlt_bool 0 _) in Ht; cbn in Ht;
    (destruct (simulate_trade_outcome _ _ _ _ _); [|discriminate]);
    injection Ht as <-; cbn; auto.
Qed.

(** *** The strategy loops *)

Lemma calculate_backtest_results_total (trades : list Trade) (name : string) :
  exists r, calculate_backtest_results trades name = Some r
            /\ total_trades r = length trades
            /\ strategy_name r = name.
Proof.
  destruct trades as [|t ts].
  - eexists. repeat split; reflexivity.
  - unfold calculate_backtest_results.
    destruct (BacktestingFacts.calculate_max_drawdown_nonempty
                (profit_loss_percent t) (map profit_loss_percent ts))
      as [m Hm].
    change (map profit_loss_percent (t :: ts))
      with (profit_loss_percent t :: map profit_loss_percent ts).
    rewrite Hm. cbn [np_max np_min mbind option_bind].
    eexists. repeat split; reflexivity.
Qed.

Lemma technical_only_trades_spec (data : list HistoricalRow)
  (rng : RandomSupply) :
  forall k,
    Forall (fun t => strategy t = "TECHNICAL_ONLY"%string
                     /\ confidence t = 0.6
                     /\ (direction t = "UP"%string
                         \/ direction t = "DOWN"%string))
           (technical_only_trades data rng k)
    /\ (length (technical_only_trades data rng k)
        <= length (List.filter
                     (fun row => should_generate_technical_signal (h_row row))
                     data))%nat
    /\ ((forall row, In row data -> ~ row_price (h_row row) == 0) ->
        length (technical_only_trades data rng k)
        = length (List.filter
                    (fun row => should_generate_technical_signal (h_row row))
                    data)).
Proof.
  induction data as [|row rest IH]; intros k; cbn [technical_only_trades].
  - split; [constructor|]. split; [simpl; lia|reflexivity].
  - cbn [List.filter].
    destruct (should_generate_technical_signal (h_row row)) eqn:Es.
    + destruct (IH (S k)) as (Hall & Hle & Heq).
      destruct (simulate_trade (h_row row) "TECHNICAL_ONLY" None (rng k))
        as [t|] eqn:Et.
      * split; [|split].
        -- constructor; [|exact Hall].
           destruct (technical_trade_tags
                       (h_row row) (rng k) t Es Et) as (Hs & Hc & Hd).
           auto.
        -- simpl. lia.
        -- intros Hp. simpl. f_equal. apply Heq.
           intros r Hr. apply Hp. right. exact Hr.
      * split; [exact Hall|]. split; [simpl; lia|].
        intros Hp. exfalso.
        destruct (BacktestingFacts.simulate_trade_outcome_returns
                    (row_price (h_row row)) (row_price (h_row row) * 1.30)
                    (row_price (h_row row) * 0.80) 0.6 (rng k)
                    (Hp row (or_introl eq_refl))) as [o Ho].
        destruct (BacktestingFacts.simulate_trade_outcome_returns
                    (row_price (h_row row)) (row_price (h_row row) * 0.70)
                    (row_price (h_row row) * 1.20) 0.6 (rng k)
                    (Hp row (or_introl eq_refl))) as [o' Ho'].
        unfold simulate_trade in Et.
        destruct (Qlt_bool 0 _) in Et; cbn in Et.
        ++ rewrite Ho in Et. discriminate.
        ++ rewrite Ho' in Et. discriminate.
    + destruct (IH k) as (Hall & Hle & Heq).
      split; [exact Hall|]. split; [exact Hle|].
      intros Hp. apply Heq. intros r Hr. apply Hp. right. exact Hr.
Qed.

(** X5. The technical-only backtest always returns a summary.  It opens
    at most one trade per row on which the technical rule fires, exactly
    one when no price is zero, and never a trade on another row; every
    trade carries the tag TECHNICAL_ONLY, the entry confidence 0.6 and the
    direction UP or DOWN. *)
Theorem technical_only_backtest_counts :
  forall (data : list HistoricalRow) (rng : RandomSupply),
    let signals :=
      List.filter (fun row => should_generate_technical_signal (h_row row))
                  data in
    exists r,
      backtest_technical_only_strategy data rng = Some r
      /\ strategy_name r = "Technical Only"%string
      /\ (total_trades r <= length signals)%nat
      /\ ((forall row, In row data -> ~ row_price (h_row row) == 0) ->
          total_trades r = length signals)
      /\ Forall (fun t => strategy t = "TECHNICAL_ONLY"%string
                          /\ confidence t = 0.6
                          /\ (direction t = "UP"%string
                              \/ direction t = "DOWN"%string))
                (technical_only_trades data rng 0).
Proof.
  intros data rng signals.
  destruct (technical_only_trades_spec data rng 0) as (Hall & Hle & Heq).
  destruct (calculate_backtest_results_total
              (technical_only_trades data rng 0) "Technical Only")
    as (r & Hr & Htot & Hname).
  exists r. unfold backtest_technical_only_strategy.
  split; [exact Hr|]. split; [exact Hname|].
  rewrite Htot. auto.
Qed.

Lemma technical_only_backtest_counts_witness :
  exists r,
    backtest_technical_only_strategy
      [historical rising_row; historical bare_row; historical sliding_row]
      (constant_supply (low_draws 0.3)) = Some r
    /\ total_trades r = 2%nat.
Proof.
  destruct (technical_only_backtest_counts
              [historical rising_row; historical bare_row;
               historical sliding_row]
              (constant_supply (low_draws 0.3)))
    as (r & Hr & _ & _ & Heq & _).
  exists r. split; [exact Hr|].
  rewrite Heq; [reflexivity|].
  intros row [<-|[<-|[<-|[]]]]; intro H; vm_compute in H; discriminate.
Defined.

(** *** Fusion with the ensemble *)

(** X6. The fused signal either does not trade, and then it is the seed
    (HOLD, confidence 0.5, no reasoning), or it trades, and then the
    direction confidence of the ensemble exceeds 0.7, the direction is the
    one the ensemble predicts (SIDEWAYS when absent), the fused confidence
    exceeds 0.8 and there is exactly one reasoning entry.  Without a
    prediction it never trades. *)
Theorem fused_signal_trades_only_above_point_eight :
  forall (row : Row) (prediction : Prediction),
    let s := combine_technical_ai_signals row (Some prediction) in
    combine_technical_ai_signals row None
    = {| should_trade := false; es_confidence := 0.5;
         es_direction := "HOLD"; es_reasoning := [] |}
    /\ (should_trade s = false ->
        s = combine_technical_ai_signals row None)
    /\ (should_trade s = true ->
        0.7 < prediction_get prediction "direction_confidence" 0.5
        /\ 0.8 < es_confidence s
        /\ es_direction s = default "SIDEWAYS"%string (p_direction prediction)
        /\ length (es_reasoning s) = 1%nat).
Proof.
  intros row p s. split; [reflexivity|].
  unfold s, combine_technical_ai_signals.
  destruct (prediction_is_empty p); [split; [reflexivity|discriminate]|].
  set (c := prediction_get p "direction_confidence" 0.5).
  destruct (Qlt_bool 0.7 c) eqn:E7; [|split; [reflexivity|discriminate]].
  apply Qlt_bool_iff in E7.
  destruct (_ || _).
  - split; [discriminate|]. intros _.
    cbn [should_trade es_confidence es_direction es_reasoning length].
    split; [exact E7|]. split; [apply Q.min_glb_lt; lra|].
    split; reflexivity.
  - destruct (Qlt_bool 0.8 c) eqn:E8; [|split; [reflexivity|discriminate]].
    apply Qlt_bool_iff in E8.
    split; [discriminate|]. intros _.
    cbn [should_trade es_confidence es_direction es_reasoning length].
    auto.
Qed.

Lemma fused_signal_trades_only_above_point_eight_witness :
  0.8 < es_confidence
          (combine_technical_ai_signals rising_row (Some confident_sideways))
  /\ es_direction
       (combine_technical_ai_signals rising_row (Some confident_sideways))
     = "SIDEWAYS"%string.
Proof.
  destruct (fused_signal_trades_only_above_point_eight
              rising_row confident_sideways) as (_ & _ & H).
  destruct (H eq_refl) as (_ & Hc & Hd & _).
  split; [exact Hc | exact Hd].
Defined.

(** X7. A prediction of direction SIDEWAYS with a confidence above 0.8
    makes the fused signal trade, and [simulate_trade] opens that trade as
    a short: the target is 0.70 and the stop 1.20 times the entry price. *)
Theorem confident_sideways_is_traded_short :
  forall (row : Row) (prediction : Prediction) (g : RandomSource) (c : Q),
    p_direction prediction = Some "SIDEWAYS"%string ->
    p_direction_confidence prediction = Some c ->
    0.8 < c ->
    ~ row_price row == 0 ->
    let s := combine_technical_ai_signals row (Some prediction) in
    should_trade s = true
    /\ exists t,
         simulate_trade row "AI_ENHANCED" (signal_of_enhanced s) g = Some t
         /\ direction t = "SIDEWAYS"%string
         /\ confidence t = c
         /\ target_price t = row_price row * 0.70
         /\ stop_loss_price t = row_price row * 1.20.
Proof.
  intros row p g c Hd Hc Hgt Hnz s.
  assert (Hs : s = {| should_trade := true; es_confidence := c;
                      es_direction := "SIDEWAYS";
                      es_reasoning := ["High AI confidence override"%string] |}).
  { unfold s, combine_technical_ai_signals, prediction_is_empty,
      prediction_get.
    rewrite Hd, Hc. cbn.
    assert (H7 : Qlt_bool 0.7 c = true) by (apply Qlt_bool_iff; lra).
    assert (H8 : Qlt_bool 0.8 c = true) by (apply Qlt_bool_iff; lra).
    rewrite H7, H8. rewrite !andb_false_r. reflexivity. }
  rewrite Hs. split; [reflexivity|].
  unfold simulate_trade, signal_of_enhanced. cbn.
  destruct (BacktestingFacts.simulate_trade_outcome_returns
              (row_price row) (row_price row * 0.70) (row_price row * 1.20)
              c g Hnz) as [o Ho].
  rewrite Ho. eexists. split; [reflexivity|]. cbn. auto.
Qed.

Lemma confident_sideways_is_traded_short_witness :
  exists t,
    simulate_trade rising_row "AI_ENHANCED"
      (signal_of_enhanced
         (combine_technical_ai_signals rising_row (Some confident_sideways)))
      (low_draws 0.3) = Some t
    /\ direction t = "SIDEWAYS"%string
    /\ target_price t = row_price rising_row * 0.70.
Proof.
  destruct (confident_sideways_is_traded_short rising_row confident_sideways
              (low_draws 0.3) 0.9 eq_refl eq_refl ltac:(lra)
              ltac:(intro H; vm_compute in H; discriminate))
    as (_ & t & Ht & Hd & _ & Htp & _).
  exists t. auto.
Defined.

(** *** The strategies that consult the ensemble *)

Lemma ai_only_trades_nil (rng : RandomSupply) (data : list HistoricalRow) :
  forall (k : nat) (ai_model : Ensemble),
    fst (ai_only_trades data rng k ai_model) = [].
Proof.
  induction data as [|row rest IH]; intros k st; cbn [ai_only_trades].
  - reflexivity.
  - destruct (get_ai_prediction_for_backtest row st) as [[p|] st'].
    + change (prediction_get p "confidence" 0) with 0.
      change (Qlt_bool 0.7 0) with false.
      rewrite andb_false_r. apply IH.
    + apply IH.
Qed.

(** X8. The AI-only backtest never opens a trade: it asks the prediction
    for a key [confidence], which [predict] never sets, so the threshold
    0.7 is compared with the default 0.  Its summary is the all-zero
    result for every history, random supply and ensemble. *)
Theorem ai_only_backtest_never_trades :
  forall (data : list HistoricalRow) (rng : RandomSupply)
         (ai_model : Ensemble),
    fst (ai_only_trades data rng 0 ai_model) = []
    /\ fst (backtest_ai_only_strategy data rng ai_model)
       = Some (all_zero_result "AI Only").
Proof.
  intros data rng st. split; [apply ai_only_trades_nil|].
  unfold backtest_ai_only_strategy.
  pose proof (ai_only_trades_nil rng data 0 st) as H.
  destruct (ai_only_trades data rng 0 st) as [trades st'].
  cbn in H. subst trades. reflexivity.
Qed.

Lemma predict_keeps_fitted_state (market_data : Dict) (st : Ensemble) :
  models (snd (predict market_data st)) = models st
  /\ scalers (snd (predict market_data st)) = scalers st
  /\ label_encoders (snd (predict market_data st)) = label_encoders st.
Proof.
  pose proof (ModelFacts.predict_unfold market_data st) as Hp.
  destruct (prepare_features _) as [[X cols] df'].
  rewrite Hp. cbn. auto.
Qed.

Lemma predict_without_classifier (market_data : Dict) (st : Ensemble)
  (p : Prediction) :
  direction_model_is_no_classifier st ->
  fst (predict market_data st) = Ok p ->
  p_direction p = None /\ p_direction_confidence p = None.
Proof.
  intros Hinv.
  destruct (models st !! "price_direction"%string) as [[m|]|] eqn:Em.
  - (* a trained direction model: the call raises *)
    pose proof (ModelFacts.predict_unfold market_data st) as Hp.
    destruct (prepare_features _) as [[X cols] df'].
    rewrite Hp. clear Hp. cbn [fst].
    destruct (subscript (scalers st) "main") as [sc|e];
      cbn [result_bind]; [|discriminate].
    destruct (transform sc X) as [x|e]; cbn [result_bind]; [|discriminate].
    unfold direction_block, subscript.
    cbn [models set_feature_columns label_encoders].
    rewrite Em. cbn [result_bind].
    destruct (label_encoders st !! "direction"%string) as [enc|];
      cbn [result_bind]; [|discriminate].
    destruct (inverse_transform _ _) as [label|e];
      cbn [result_bind]; [|discriminate].
    unfold predict_proba. rewrite (Hinv m Em). discriminate.
  - intros Hp.
    apply (proj1 (ModelFacts.predict_absent_fields market_data st p Hp)).
    exact Em.
  - (* no such key: the subscript raises *)
    pose proof (ModelFacts.predict_unfold market_data st) as Hp.
    destruct (prepare_features _) as [[X cols] df'].
    rewrite Hp. clear Hp. cbn [fst].
    destruct (subscript (scalers st) "main") as [sc|e];
      cbn [result_bind]; [|discriminate].
    destruct (transform sc X) as [x|e]; cbn [result_bind]; [|discriminate].
    unfold direction_block, subscript.
    cbn [models set_feature_columns]. rewrite Em. discriminate.
Qed.

Lemma predict_keeps_no_classifier (market_data : Dict) (st : Ensemble) :
  direction_model_is_no_classifier st ->
  direction_model_is_no_classifier (snd (predict market_data st)).
Proof.
  unfold direction_model_is_no_classifier.
  destruct (predict_keeps_fitted_state market_data st) as (-> & _).
  auto.
Qed.

Lemma train_models_keeps_no_classifier (sk : Sklearn) (df : DataFrame)
  (st : Ensemble) :
  direction_model_is_no_classifier st ->
  direction_model_is_no_classifier (snd (train_models sk df st)).
Proof.
  unfold direction_model_is_no_classifier. intros Hinv.
  unfold train_models, prepare_features_method.
  destruct (prepare_features df) as [[X cols] df'].
  unfold py_bind, py_modify, py_lift, py_ret. cbn [fst snd].
  destruct (fit_scaler sk X) as [sc|e]; [|exact Hinv].
  unfold train_direction_model, train_success_probability_model,
    train_profit_regression_model.
  unfold py_bind, py_modify, py_lift, py_ret.
  destruct (get_column df' "price_direction") as [labels|];
    destruct (has_column df' "trade_success"),
             (has_column df' "profit_loss_percent");
    cbn; intros m;
    rewrite ?lookup_insert_ne by discriminate;
    try (rewrite lookup_insert_eq; intros [= Hm];
         apply (ModelFacts.kept_direction_model_is_regressor sk m Hm));
    apply Hinv.
Qed.

Lemma ai_enhanced_trades_nil (rng : RandomSupply)
  (data : list HistoricalRow) :
  forall (k : nat) (ai_model : Ensemble),
    direction_model_is_no_classifier ai_model ->
    fst (ai_enhanced_trades data rng k ai_model) = [].
Proof.
  induction data as [|row rest IH]; intros k st Hinv;
    cbn [ai_enhanced_trades].
  - reflexivity.
  - destruct (should_generate_technical_signal (h_row row));
      [|apply IH; exact Hinv].
    unfold get_ai_prediction_for_backtest.
    pose proof (predict_keeps_no_classifier (backtest_market_data row) st Hinv)
      as Hinv'.
    pose proof (predict_without_classifier (backtest_market_data row) st)
      as Hnone.
    destruct (predict (backtest_market_data row) st) as [[p|e] st'];
      cbn [fst snd] in *.
    + destruct (Hnone p Hinv eq_refl) as [Hd Hc].
      assert (Hs : should_trade
                     (combine_technical_ai_signals (h_row row) (Some p))
                   = false).
      { unfold combine_technical_ai_signals, prediction_get.
        destruct (prediction_is_empty p); [reflexivity|].
        cbn [String.eqb Ascii.eqb Bool.eqb]. rewrite Hc. reflexivity. }
      rewrite Hs. apply IH. exact Hinv'.
    + cbn. apply IH. exact Hinv'.
Qed.

(** X9. No ensemble that [__init__] and [train_models] can produce has a
    classifier as direction model, and [predict] keeps it so.  With such
    an ensemble [predict] never returns a direction or a direction
    confidence, so the AI-enhanced backtest never opens a trade: its
    summary is the all-zero result for every history and random supply. *)
Theorem ai_enhanced_backtest_never_trades :
  direction_model_is_no_classifier init
  /\ (forall (sk : Sklearn) (df : DataFrame) (st : Ensemble),
        direction_model_is_no_classifier st ->
        direction_model_is_no_classifier (snd (train_models sk df st)))
  /\ (forall (market_data : Dict) (st : Ensemble) (p : Prediction),
        direction_model_is_no_classifier st ->
        direction_model_is_no_classifier (snd (predict market_data st))
        /\ (fst (predict market_data st) = Ok p ->
            p_direction p = None /\ p_direction_confidence p = None))
  /\ (forall (data : list HistoricalRow) (rng : RandomSupply)
             (ai_model : Ensemble),
        direction_model_is_no_classifier ai_model ->
        fst (backtest_ai_enhanced_strategy data rng ai_model)
        = Some (all_zero_result "AI Enhanced")).
Proof.
  split; [|split; [|split]].
  - intros m Hm. vm_compute in Hm. discriminate.
  - apply train_models_keeps_no_classifier.
  - intros d st p Hinv. split.
    + apply predict_keeps_no_classifier. exact Hinv.
    + apply predict_without_classifier. exact Hinv.
  - intros data rng st Hinv. unfold backtest_ai_enhanced_strategy.
    pose proof (ai_enhanced_trades_nil rng data 0 st Hinv) as H.
    destruct (ai_enhanced_trades data rng 0 st) as [trades st'].
    cbn in H. subst trades. reflexivity.
Qed.

Lemma ai_enhanced_backtest_never_trades_witness :
  fst (backtest_ai_enhanced_strategy
         [historical rising_row; historical sliding_row]
         (constant_supply (low_draws 0.3))
         (snd (train_models ModelTerms.sample_sklearn
                 ModelTerms.training_frame init)))
  = Some (all_zero_result "AI Enhanced").
Proof.
  destruct ai_enhanced_backtest_never_trades as (Hinit & Htrain & _ & Hrun).
  apply Hrun. apply Htrain. exact Hinit.
Defined.

End StrategyFacts.

(** ** More on the summary *)

Module SummaryFacts.

Import BacktestingSystem DrawdownSpec BacktestingTerms SummaryTerms.

Local Open Scope Q_scope.

Lemma fold_left_Qplus_acc (l : list Q) : forall a,
  fold_left Qplus l a == a + fold_left Qplus l 0.
Proof.
  induction l as [|x l IH]; intros a; simpl.
  - lra.
  - rewrite (IH (a + x)), (IH (0 + x)). lra.
Qed.

Lemma Qsum_cons (x : Q) (l : list Q) : Qsum (x :: l) == x + Qsum l.
Proof.
  unfold Qsum. simpl. rewrite fold_left_Qplus_acc. lra.
Qed.

(** The fields of a summary of at least one trade, one by one. *)
Lemma summary_fields (t : Trade) (ts : list Trade) (name : string) :
  let trades := t :: ts in
  let winners := List.filter is_winning trades in
  let losers := List.filter is_losing trades in
  exists r m best worst,
    calculate_backtest_results trades name = Some r
    /\ calculate_max_drawdown (returns_of trades) = Some m
    /\ np_max (returns_of trades) = Some best
    /\ np_min (returns_of trades) = Some worst
    /\ total_trades r = length trades
    /\ winning_trades r = length winners
    /\ losing_trades r = length losers
    /\ win_rate r
       = nat_to_Q (length winners) / nat_to_Q (length trades) * 100
    /\ total_profit r
       = (if (0 <? length (returns_of winners))%nat
          then Qsum (returns_of winners) else 0)
    /\ total_loss r
       = (if (0 <? length (returns_of losers))%nat
          then Qabs (Qsum (returns_of losers)) else 0)
    /\ net_profit r = total_profit r - total_loss r
    /\ max_drawdown r = m
    /\ best_trade r = best
    /\ worst_trade r = worst
    /\ profit_factor r
       = (if Qlt_bool 0 (total_loss r)
          then Fin (total_profit r / total_loss r) else PInf).
Proof.
  cbv zeta. unfold calculate_backtest_results, returns_of.
  destruct (BacktestingFacts.calculate_max_drawdown_nonempty
              (profit_loss_percent t) (map profit_loss_percent ts))
    as [m Hm].
  change (map profit_loss_percent (t :: ts))
    with (profit_loss_percent t :: map profit_loss_percent ts).
  rewrite Hm. cbn [np_max np_min mbind option_bind].
  do 4 eexists. repeat split; reflexivity.
Qed.

Lemma is_losing_negb (t : Trade) : is_losing t = negb (is_winning t).
Proof.
  unfold is_losing, is_winning, Qlt_bool. rewrite negb_involutive.
  reflexivity.
Qed.







(** *** Sums *)

Lemma Qsum_split (trades : list Trade) :
  Qsum (returns_of trades)
  == Qsum (returns_of (List.filter is_winning trades))
     + Qsum (returns_of (List.filter is_losing trades)).
Proof.
  unfold returns_of.
  induction trades as [|t ts IH]; simpl.
  - unfold Qsum. simpl. lra.
  - rewrite is_losing_negb. rewrite Qsum_cons, IH.
    destruct (is_winning t); simpl; rewrite Qsum_cons;
      rewrite <- ?is_losing_negb; lra.
Qed.

Lemma Qsum_losers_nonpos (trades : list Trade) :
  Qsum (returns_of (List.filter is_losing trades)) <= 0.
Proof.
  unfold returns_of.
  induction trades as [|t ts IH]; simpl.
  - unfold Qsum. simpl. lra.
  - destruct (is_losing t) eqn:E; [|exact IH].
    simpl. rewrite Qsum_cons.
    unfold is_losing in E. apply Qle_bool_iff in E. lra.
Qed.

Lemma Qabs_nonpos (x : Q) : x <= 0 -> Qabs x == - x.
Proof. intros H. apply Qabs_neg. exact H. Qed.

Lemma total_loss_value (trades : list Trade) :
  (if (0 <? length (returns_of (List.filter is_losing trades)))%nat
   then Qabs (Qsum (returns_of (List.filter is_losing trades)))
   else 0)
  == - Qsum (returns_of (List.filter is_losing trades)).
Proof.
  destruct (returns_of (List.filter is_losing trades)) as [|x l] eqn:E.
  - simpl. unfold Qsum. simpl. lra.
  - cbn [length Nat.ltb Nat.leb]. rewrite <- E.
    apply Qabs_nonpos, Qsum_losers_nonpos.
Qed.

Lemma total_profit_value (trades : list Trade) :
  (if (0 <? length (returns_of (List.filter is_winning trades)))%nat
   then Qsum (returns_of (List.filter is_winning trades))
   else 0)
  == Qsum (returns_of (List.filter is_winning trades)).
Proof.
  destruct (returns_of (List.filter is_winning trades)) as [|x l] eqn:E.
  - simpl. unfold Qsum. simpl. lra.
  - reflexivity.
Qed.

(** X11. The net profit of a summary is the plain sum of all percent
    returns: the total profit is the sum of the positive returns, the
    total loss the negated sum of the others, and both are non-negative. *)
Theorem net_profit_is_the_sum_of_returns :
  forall (trades : list Trade) (name : string),
    exists r,
      calculate_backtest_results trades name = Some r
      /\ net_profit r == Qsum (returns_of trades)
      /\ 0 <= total_profit r
      /\ 0 <= total_loss r.
Proof.
  intros trades name. destruct trades as [|t ts].
  - eexists. split; [reflexivity|]. cbn. unfold Qsum. simpl.
    repeat split; lra.
  - destruct (summary_fields t ts name)
      as (r & m & b & w & Hr & _ & _ & _ & _ & _ & _ & _
          & Hp & Hl & Hn & _).
    exists r. split; [exact Hr|].
    rewrite Hn, Hp, Hl, total_profit_value, total_loss_value.
    pose proof (Qsum_split (t :: ts)) as Hs.
    pose proof (Qsum_losers_nonpos (t :: ts)) as Hneg.
    assert (Hpos : 0 <= Qsum (returns_of (List.filter is_winning (t :: ts)))).
    { clear. unfold returns_of.
      induction (t :: ts) as [|x l IH]; simpl.
      - unfold Qsum. simpl. lra.
      - destruct (is_winning x) eqn:E; [|exact IH].
        simpl. rewrite Qsum_cons.
        unfold is_winning in E. apply Qlt_bool_iff in E. lra. }
    repeat split; lra.
Qed.

(** *** Extremes *)

Lemma fold_left_Qmax_bounds (l : list Q) : forall a,
  a <= fold_left Qmax l a
  /\ (forall x, In x l -> x <= fold_left Qmax l a)
  /\ (fold_left Qmax l a == a
      \/ exists x, In x l /\ fold_left Qmax l a == x).
Proof.
  induction l as [|y l IH]; intros a; simpl.
  - split; [lra|]. split; [tauto|]. left. reflexivity.
  - destruct (IH (Qmax a y)) as (Hge & Hall & Hatt).
    pose proof (Q.le_max_l a y). pose proof (Q.le_max_r a y).
    split; [lra|]. split.
    + intros x [<-|Hx]; [lra|auto].
    + destruct Hatt as [Heq|(x & Hx & Heq)].
      * destruct (Q.max_dec a y) as [Hm|Hm].
        -- left. rewrite Heq. exact Hm.
        -- right. exists y. split; [auto|]. rewrite Heq. exact Hm.
      * right. exists x. auto.
Qed.

Lemma fold_left_Qmin_bounds (l : list Q) : forall a,
  fold_left Qmin l a <= a
  /\ (forall x, In x l -> fold_left Qmin l a <= x)
  /\ (fold_left Qmin l a == a
      \/ exists x, In x l /\ fold_left Qmin l a == x).
Proof.
  induction l as [|y l IH]; intros a; simpl.
  - split; [lra|]. split; [tauto|]. left. reflexivity.
  - destruct (IH (Qmin a y)) as (Hge & Hall & Hatt).
    pose proof (Q.le_min_l a y). pose proof (Q.le_min_r a y).
    split; [lra|]. split.
    + intros x [<-|Hx]; [lra|auto].
    + destruct Hatt as [Heq|(x & Hx & Heq)].
      * destruct (Q.min_dec a y) as [Hm|Hm].
        -- left. rewrite Heq. exact Hm.
        -- right. exists y. split; [auto|]. rewrite Heq. exact Hm.
      * right. exists x. auto.
Qed.

(** X12. In a summary of at least one trade, the best and the worst trade
    are returns of trades of the list and every return lies between
    them. *)
Theorem best_and_worst_trade_bound_the_returns :
  forall (trades : list Trade) (name : string),
    trades <> [] ->
    exists r,
      calculate_backtest_results trades name = Some r
      /\ (forall t, In t trades ->
            worst_trade r <= profit_loss_percent t
            /\ profit_loss_percent t <= best_trade r)
      /\ (exists t, In t trades /\ best_trade r == profit_loss_percent t)
      /\ (exists t, In t trades /\ worst_trade r == profit_loss_percent t).
Proof.
  intros trades name Hne. destruct trades as [|t ts]; [congruence|].
  destruct (summary_fields t ts name)
    as (r & m & b & w & Hr & _ & Hb & Hw & _ & _ & _ & _ & _ & _ & _
        & _ & Hbest & Hworst & _).
  exists r. split; [exact Hr|]. rewrite Hbest, Hworst.
  unfold returns_of in Hb, Hw. cbn [map np_max np_min] in Hb, Hw.
  injection Hb as <-. injection Hw as <-.
  destruct (fold_left_Qmax_bounds (map profit_loss_percent ts)
              (profit_loss_percent t)) as (Hmax0 & Hmax & Hmaxatt).
  destruct (fold_left_Qmin_bounds (map profit_loss_percent ts)
              (profit_loss_percent t)) as (Hmin0 & Hmin & Hminatt).
  split; [|split].
  - intros x [<-|Hx]; [split; assumption|].
    split; [apply Hmin | apply Hmax]; apply in_map; exact Hx.
  - destruct Hmaxatt as [Heq|(x & Hx & Heq)].
    + exists t. split; [left; reflexivity | exact Heq].
    + apply in_map_iff in Hx. destruct Hx as (t' & <- & Ht').
      exists t'. split; [right; exact Ht' | exact Heq].
  - destruct Hminatt as [Heq|(x & Hx & Heq)].
    + exists t. split; [left; reflexivity | exact Heq].
    + apply in_map_iff in Hx. destruct Hx as (t' & <- & Ht').
      exists t'. split; [right; exact Ht' | exact Heq].
Qed.

Lemma best_and_worst_trade_bound_the_returns_witness :
  exists r,
    calculate_backtest_results [winning_trade; losing_trade] "Technical Only"
    = Some r
    /\ worst_trade r <= -12 /\ 30 <= best_trade r.
Proof.
  destruct (best_and_worst_trade_bound_the_returns
              [winning_trade; losing_trade] "Technical Only"
              ltac:(discriminate))
    as (r & Hr & Hall & _).
  exists r. split; [exact Hr|]. split.
  - apply (Hall losing_trade). right. left. reflexivity.
  - apply (Hall winning_trade). left. reflexivity.
Defined.

(** *** The range of the drawdown *)

Lemma cumulative_at_nonneg (l : list Q) (i : nat) :
  (forall x, In x l -> 0 <= x) -> 0 <= cumulative_at l i.
Proof.
  unfold cumulative_at. generalize (S i). intros n. revert n.
  induction l as [|x l IH]; intros n H.
  - destruct n; simpl; lra.
  - destruct n; simpl; [lra|].
    assert (0 <= x) by (apply H; left; reflexivity).
    assert (0 <= fold_right Qplus 0 (firstn n l))
      by (apply IH; intros y Hy; apply H; right; exact Hy).
    lra.
Qed.

Lemma loss_parts_nonneg (l : list Q) :
  forall x, In x (map loss_part l) -> 0 <= x.
Proof.
  intros x Hx. apply in_map_iff in Hx. destruct Hx as (r & <- & _).
  unfold loss_part. apply Q.le_max_r.
Qed.

Lemma nth_loss_part (l : list Q) (i : nat) :
  nth i (map loss_part l) 0 == loss_part (nth i l 0).
Proof.
  transitivity (nth i (map loss_part l) (loss_part 0)); [reflexivity|].
  rewrite map_nth. reflexivity.
Qed.

Lemma drawdown_above_losses (l : list Q) (i : nat) :
  running_max_at l i - cumulative_at l i
  <= cumulative_at (map loss_part l) i.
Proof.
  induction i as [|i IH].
  - unfold running_max_at. simpl.
    pose proof (cumulative_at_nonneg (map loss_part l) 0
                  (loss_parts_nonneg l)).
    lra.
  - unfold running_max_at in *. simpl.
    rewrite (BacktestingFacts.cumulative_at_succ (map loss_part l) i).
    rewrite nth_loss_part. unfold loss_part at 2.
    pose proof (BacktestingFacts.cumulative_at_succ l i) as Hc.
    pose proof (Q.le_max_l (- nth (S i) l 0) 0).
    pose proof (Q.le_max_r (- nth (S i) l 0) 0).
    pose proof (cumulative_at_nonneg (map loss_part l) i
                  (loss_parts_nonneg l)).
    destruct (Q.max_spec (max_upto (cumulative_at l) i)
                         (cumulative_at l (S i))) as [[_ ->]|[_ ->]]; lra.
Qed.

Lemma losses_grow (l : list Q) (i : nat) :
  cumulative_at (map loss_part l) i
  <= cumulative_at (map loss_part l) (S i).
Proof.
  rewrite (BacktestingFacts.cumulative_at_succ (map loss_part l) i).
  rewrite nth_loss_part. unfold loss_part at 3.
  pose proof (Q.le_max_r (- nth (S i) l 0) 0). lra.
Qed.

Lemma min_drawdown_above_losses (l : list Q) (n : nat) :
  - cumulative_at (map loss_part l) n <= min_upto (drawdown_at l) n
  /\ min_upto (drawdown_at l) n <= 0.
Proof.
  induction n as [|n [IHlo IHhi]].
  - simpl. unfold drawdown_at.
    pose proof (drawdown_above_losses l 0).
    unfold running_max_at in *. simpl in *. split; lra.
  - simpl.
    pose proof (losses_grow l n).
    pose proof (drawdown_above_losses l (S n)).
    pose proof (Q.le_min_l (min_upto (drawdown_at l) n)
                           (drawdown_at l (S n))).
    split; [|lra].
    apply Q.min_glb; [lra|]. unfold drawdown_at. lra.
Qed.

Lemma cumulative_at_all (l : list Q) (n : nat) :
  (length l <= S n)%nat -> cumulative_at l n = fold_right Qplus 0 l.
Proof.
  intros H. unfold cumulative_at. rewrite firstn_all2 by exact H.
  reflexivity.
Qed.

Lemma losses_total (trades : list Trade) :
  fold_right Qplus 0 (map loss_part (returns_of trades))
  == - Qsum (returns_of (List.filter is_losing trades)).
Proof.
  unfold returns_of.
  induction trades as [|t ts IH]; simpl.
  - unfold Qsum. simpl. lra.
  - rewrite IH. destruct (is_losing t) eqn:E; unfold is_losing in E.
    + apply Qle_bool_iff in E. simpl. rewrite Qsum_cons.
      unfold loss_part at 1.
      rewrite (Q.max_l (- profit_loss_percent t) 0) by lra. lra.
    + assert (0 < profit_loss_percent t).
      { apply Qlt_bool_iff. unfold Qlt_bool. rewrite E. reflexivity. }
      unfold loss_part at 1.
      rewrite (Q.max_r (- profit_loss_percent t) 0) by lra. lra.
Qed.

(** X13. The maximum drawdown of a summary is never positive and never
    below the negated total loss: the cumulative returns cannot fall from
    a peak by more than the losing trades lost together. *)
Theorem max_drawdown_lies_between_loss_and_zero :
  forall (trades : list Trade) (name : string),
    exists r,
      calculate_backtest_results trades name = Some r
      /\ - total_loss r <= max_drawdown r
      /\ max_drawdown r <= 0.
Proof.
  intros trades name. destruct trades as [|t ts].
  - eexists. split; [reflexivity|]. cbn. split; lra.
  - destruct (summary_fields t ts name)
      as (r & m & b & w & Hr & Hm & _ & _ & _ & _ & _ & _ & _ & Hl & _
          & Hdd & _).
    exists r. split; [exact Hr|]. rewrite Hdd, Hl, total_loss_value.
    pose proof (BacktestingFacts.calculate_max_drawdown_refines
                  (returns_of (t :: ts))) as Href.
    rewrite Hm in Href. unfold max_drawdown_spec in Href.
    destruct (length (returns_of (t :: ts))) as [|n] eqn:En;
      [discriminate|].
    cbn [option_Qeq] in Href. rewrite Href.
    destruct (min_drawdown_above_losses (returns_of (t :: ts)) n)
      as [Hlo Hhi].
    rewrite cumulative_at_all in Hlo by (rewrite length_map, En; lia).
    rewrite losses_total in Hlo.
    split; lra.
Qed.

(** *** The profit factor *)

Lemma Qsum_losers_zero (trades : list Trade) :
  Qsum (returns_of (List.filter is_losing trades)) == 0 <->
  (forall t, In t trades -> 0 <= profit_loss_percent t).
Proof.
  induction trades as [|t ts IH]; simpl.
  - unfold Qsum. simpl. split; [intros _ ? []|reflexivity].
  - pose proof (Qsum_losers_nonpos ts) as Hneg.
    destruct (is_losing t) eqn:E; unfold is_losing in E.
    + apply Qle_bool_iff in E. unfold returns_of in *. simpl.
      rewrite Qsum_cons. split.
      * intros H x [<-|Hx]; [lra|].
        apply IH; [lra|exact Hx].
      * intros H.
        assert (0 <= profit_loss_percent t) by (apply H; auto).
        assert (Qsum (map profit_loss_percent (List.filter is_losing ts))
                == 0) by (apply IH; intros x Hx; apply H; auto).
        lra.
    + assert (0 < profit_loss_percent t).
      { apply Qlt_bool_iff. unfold Qlt_bool. rewrite E. reflexivity. }
      rewrite IH. split.
      * intros H' x [<-|Hx]; [lra|auto].
      * intros H' x Hx. apply H'. auto.
Qed.

(** X14. For a summary of at least one trade the profit factor is
    infinite exactly when no trade has a negative return, even if trades
    at exactly 0 are counted as losing; otherwise it is the total profit
    over the total loss, which is then positive. *)
Theorem profit_factor_is_infinite_without_negative_returns :
  forall (trades : list Trade) (name : string),
    trades <> [] ->
    exists r,
      calculate_backtest_results trades name = Some r
      /\ (profit_factor r = PInf <->
          forall t, In t trades -> 0 <= profit_loss_percent t)
      /\ (profit_factor r <> PInf ->
          0 < total_loss r
          /\ profit_factor r = Fin (total_profit r / total_loss r)).
Proof.
  intros trades name Hne. destruct trades as [|t ts]; [congruence|].
  destruct (summary_fields t ts name)
    as (r & m & b & w & Hr & _ & _ & _ & _ & _ & _ & _ & _ & Hl & _
        & _ & _ & _ & Hpf).
  exists r. split; [exact Hr|].
  pose proof (total_loss_value (t :: ts)) as Hval. rewrite <- Hl in Hval.
  pose proof (Qsum_losers_nonpos (t :: ts)) as Hneg.
  pose proof (Qsum_losers_zero (t :: ts)) as Hzero.
  rewrite Hpf.
  destruct (Qlt_bool 0 (total_loss r)) eqn:E.
  - apply Qlt_bool_iff in E. split.
    + split; [discriminate|]. intros H. apply Hzero in H. lra.
    + intros _. split; [exact E|reflexivity].
  - apply Qlt_bool_false_iff in E. split.
    + split; [|reflexivity]. intros _. apply Hzero. lra.
    + intros H. congruence.
Qed.

Lemma profit_factor_is_infinite_without_negative_returns_witness :
  exists r,
    calculate_backtest_results [winning_trade; flat_trade] "Technical Only"
    = Some r
    /\ profit_factor r = PInf /\ losing_trades r = 1%nat.
Proof.
  destruct (profit_factor_is_infinite_without_negative_returns
              [winning_trade; flat_trade] "Technical Only"
              ltac:(discriminate))
    as (r & Hr & Hinf & _).
  exists r. split; [exact Hr|]. split.
  - apply Hinf. intros t [<-|[<-|[]]]; vm_compute; discriminate.
  - vm_compute in Hr. injection Hr as <-. reflexivity.
Defined.

(** *** The sign of the Sharpe ratio *)

Section SharpeSign.

Local Open Scope R_scope.

(** X15. When the returns have a variance, the Sharpe ratio is positive
    exactly when their mean exceeds the daily risk-free rate 0.05/252,
    negative exactly when it is below, and zero when they are equal. *)
Theorem sharpe_ratio_has_the_sign_of_the_mean_excess :
  forall returns : list R,
    Rvariance returns <> 0 ->
    (0 < calculate_sharpe_ratio returns 0.05 <-> 0.05 / 252 < Rmean returns)
    /\ (calculate_sharpe_ratio returns 0.05 < 0
        <-> Rmean returns < 0.05 / 252)
    /\ (calculate_sharpe_ratio returns 0.05 = 0
        <-> Rmean returns = 0.05 / 252).
Proof.
  intros returns Hvar.
  assert (Hne : returns <> []).
  { intros ->. apply Hvar. unfold Rvariance, Rmean, Rsum. simpl. lra. }
  unfold calculate_sharpe_ratio.
  destruct (Nat.eqb (length returns) 0) eqn:E.
  { apply Nat.eqb_eq in E. destruct returns; [congruence|discriminate]. }
  destruct (Req_dec_T (Rstd returns) 0) as [Hz|_].
  { apply BacktestingFacts.Rstd_zero_iff in Hz. contradiction. }
  cbv zeta. unfold excess_returns.
  rewrite (BacktestingFacts.Rmean_shift (0.05 / 252) returns Hne).
  set (ex := map (fun r => r - 0.05 / 252) returns).
  assert (Hstd : 0 < Rstd ex).
  { unfold Rstd, ex. apply sqrt_lt_R0.
    rewrite (BacktestingFacts.Rvariance_shift (0.05 / 252) returns Hne).
    pose proof (BacktestingFacts.Rvariance_nonneg returns). lra. }
  assert (Hsq : 0 < sqrt 252) by (apply sqrt_lt_R0; lra).
  assert (Hk : 0 < / Rstd ex * sqrt 252).
  { apply Rmult_lt_0_compat; [apply Rinv_0_lt_compat; exact Hstd|exact Hsq]. }
  set (k := / Rstd ex * sqrt 252) in *.
  replace ((Rmean returns - 0.05 / 252) / Rstd ex * sqrt 252)
    with ((Rmean returns - 0.05 / 252) * k)
    by (unfold k, Rdiv; ring).
  repeat split; intros H; nra.
Qed.

Lemma sharpe_ratio_has_the_sign_of_the_mean_excess_witness :
  0 < calculate_sharpe_ratio [1; 3] 0.05.
Proof.
  apply (proj1 (sharpe_ratio_has_the_sign_of_the_mean_excess [1; 3]
                  ltac:(unfold Rvariance, Rmean, Rsum; simpl; lra))).
  unfold Rmean, Rsum. simpl. lra.
Defined.

End SharpeSign.

End SummaryFacts.

(** ** More on the recommendation engine *)

Module RecommendationFacts.

Import PricePredictionModel AiPredictionService ServiceTerms.

Local Open Scope Q_scope.

(** What the first two blocks can leave behind. *)
Lemma after_success_probability (p : Prediction) :
  let r0 := apply_direction p seed_recommendation in
  let r1 := apply_success_probability p r0 in
  let vetoed :=
    exists sp, p_success_probability p = Some sp /\ sp < 0.4 in
  (~ vetoed /\ action r1 = action r0
   /\ (confidence r1 = 0.5 \/ confidence r1 = Qmin 1.0 (0.5 + 0.3)))
  \/ (vetoed /\ action r1 = HOLD
      /\ confidence r1 = Qmax 0.1 (0.5 - 0.3)).
Proof.
  cbv zeta.
  assert (H0 : confidence (apply_direction p seed_recommendation) = 0.5).
  { unfold apply_direction. destruct (p_direction p); [|reflexivity].
    destruct (_ && _); [reflexivity|]. destruct (_ && _); reflexivity. }
  unfold apply_success_probability.
  destruct (p_success_probability p) as [sp|].
  - destruct (Qlt_bool 0.8 sp) eqn:E8.
    + left. cbn. rewrite H0. apply Qlt_bool_iff in E8.
      split; [|auto]. intros (sp' & [= <-] & Hlt). lra.
    + destruct (Qlt_bool sp 0.4) eqn:E4.
      * right. cbn. rewrite H0. apply Qlt_bool_iff in E4.
        split; [eauto|auto].
      * left. apply Qlt_bool_false_iff in E4.
        split; [|auto]. intros (sp' & [= <-] & Hlt). lra.
  - left. split; [|auto]. intros (sp' & [= ] & _).
Qed.

Lemma apply_sentiment_action (s : option Sentiment) (r : Recommendation) :
  action (apply_sentiment s r) = action r
  /\ (confidence (apply_sentiment s r) = confidence r
      \/ (confidence (apply_sentiment s r) = Qmin 1.0 (confidence r + 0.1)
          /\ action r <> HOLD)).
Proof.
  unfold apply_sentiment. destruct s as [s|]; [|auto].
  destruct (Qlt_bool 0.3 _).
  - destruct (is_buy (action r)) eqn:Eb; cbn; [|auto].
    split; [reflexivity|]. right. split; [reflexivity|].
    intros Hh. rewrite Hh in Eb. discriminate.
  - destruct (Qlt_bool _ _); [|auto].
    destruct (is_sell (action r)) eqn:Eb; cbn; [|auto].
    split; [reflexivity|]. right. split; [reflexivity|].
    intros Hh. rewrite Hh in Eb. discriminate.
Qed.

Lemma after_sentiment_unchanged (v : Q) (hour : Z) (r : Recommendation) :
  action (apply_market_close hour (apply_volatility v r)) = action r
  /\ confidence (apply_market_close hour (apply_volatility v r))
     = confidence r.
Proof.
  unfold apply_market_close, apply_volatility.
  destruct (15 <=? hour)%Z, (Qlt_bool 0.25 v), (Qlt_bool v 0.10);
    split; reflexivity.
Qed.

Lemma apply_direction_action (p : Prediction) :
  let dc := default 0.5 (p_direction_confidence p) in
  let a := action (apply_direction p seed_recommendation) in
  (a = BUY <-> p_direction p = Some "UP"%string /\ 0.7 < dc)
  /\ (a = SELL <-> p_direction p = Some "DOWN"%string /\ 0.7 < dc).
Proof.
  cbv zeta. unfold apply_direction.
  destruct (p_direction p) as [d|];
    [|split; split; [discriminate|intros [H _]; discriminate
                    |discriminate|intros [H _]; discriminate]].
  set (dc := default 0.5 (p_direction_confidence p)).
  destruct (Qlt_bool 0.7 dc) eqn:E.
  - apply Qlt_bool_iff in E.
    destruct (String.eqb d "UP") eqn:Eu.
    + apply String.eqb_eq in Eu. subst d. cbn.
      split; split; auto; try discriminate.
      intros [[= ] _].
    + rewrite andb_false_l.
      destruct (String.eqb d "DOWN") eqn:Ed.
      * apply String.eqb_eq in Ed. subst d. cbn.
        split; split; auto; try discriminate.
        intros [[= ] _].
      * cbn. split; split; try discriminate.
        -- intros [[= ->] _]. discriminate.
        -- intros [[= ->] _]. discriminate.
  - apply Qlt_bool_false_iff in E. rewrite !andb_false_r. cbn.
    split; split; try discriminate; intros [_ H]; lra.
Qed.

(** X16. The action of a recommendation is decided by the prediction
    alone: it is BUY exactly when the direction is UP with a confidence
    above 0.7 and the success probability, if present, is not below 0.4;
    SELL likewise for DOWN; HOLD otherwise.  Sentiment, volatility and the
    hour never change it, and a success probability below 0.4 forces
    HOLD. *)
Theorem action_is_decided_by_the_prediction :
  forall (predictions : Prediction) (sentiment_score : option Sentiment)
         (market_data : gmap string json) (hour : Z) (r : Recommendation),
    generate_trading_recommendation predictions sentiment_score
      market_data hour = Ok r ->
    let dc := default 0.5 (p_direction_confidence predictions) in
    let vetoed :=
      exists sp, p_success_probability predictions = Some sp /\ sp < 0.4 in
    (action r = BUY <->
       p_direction predictions = Some "UP"%string /\ 0.7 < dc /\ ~ vetoed)
    /\ (action r = SELL <->
          p_direction predictions = Some "DOWN"%string /\ 0.7 < dc
          /\ ~ vetoed)
    /\ (vetoed -> action r = HOLD).
Proof.
  intros p s m h r Hr. cbv zeta.
  unfold generate_trading_recommendation in Hr. cbv zeta in Hr.
  destruct (as_number _) as [v|e]; [|discriminate].
  injection Hr as <-.
  destruct (after_sentiment_unchanged v h
              (apply_sentiment s
                 (apply_success_probability p
                    (apply_direction p seed_recommendation)))) as [-> _].
  destruct (apply_sentiment_action s
              (apply_success_probability p
                 (apply_direction p seed_recommendation))) as [-> _].
  destruct (apply_direction_action p) as [Hbuy Hsell]. cbv zeta in *.
  destruct (after_success_probability p)
    as [(Hnv & Ha & _)|(Hv & Ha & _)]; cbv zeta in *; rewrite Ha.
  - split; [|split].
    + rewrite Hbuy. tauto.
    + rewrite Hsell. tauto.
    + intros Hv. contradiction.
  - split; [|split].
    + split; [discriminate|]. intros (_ & _ & Hn). contradiction.
    + split; [discriminate|]. intros (_ & _ & Hn). contradiction.
    + reflexivity.
Qed.

Lemma action_is_decided_by_the_prediction_witness :
  exists r,
    generate_trading_recommendation upward_prediction None
      (snapshot_with_volatility 0.30) 15 = Ok r
    /\ action r = BUY.
Proof.
  eexists. split; [reflexivity|].
  apply (proj1 (action_is_decided_by_the_prediction upward_prediction None
                  (snapshot_with_volatility 0.30) 15 _ eq_refl)).
  split; [reflexivity|]. split; [reflexivity|].
  intros (sp & Hsp & _). discriminate.
Defined.

(** X17. The confidence of a recommendation is one of 0.2, 0.5, 0.6, 0.8
    and 0.9: the cap at 1.0 and the floor at 0.1 are never reached.  It is
    0.2 exactly when a success probability below 0.4 vetoed the trade. *)
Theorem confidence_takes_five_values :
  forall (predictions : Prediction) (sentiment_score : option Sentiment)
         (market_data : gmap string json) (hour : Z) (r : Recommendation),
    generate_trading_recommendation predictions sentiment_score
      market_data hour = Ok r ->
    (confidence r == 0.2 \/ confidence r == 0.5 \/ confidence r == 0.6
     \/ confidence r == 0.8 \/ confidence r == 0.9)
    /\ (confidence r == 0.2 <->
        exists sp, p_success_probability predictions = Some sp /\ sp < 0.4).
Proof.
  intros p s m h r Hr.
  unfold generate_trading_recommendation in Hr. cbv zeta in Hr.
  destruct (as_number _) as [v|e]; [|discriminate].
  injection Hr as <-.
  destruct (after_sentiment_unchanged v h
              (apply_sentiment s
                 (apply_success_probability p
                    (apply_direction p seed_recommendation)))) as [_ ->].
  destruct (apply_sentiment_action s
              (apply_success_probability p
                 (apply_direction p seed_recommendation)))
    as [_ Hsent].
  destruct (after_success_probability p)
    as [(Hnv & _ & Hc)|(Hv & Ha & Hc)]; cbv zeta in *.
  - assert (Hcases :
      confidence (apply_sentiment s
                    (apply_success_probability p
                       (apply_direction p seed_recommendation))) == 0.5
      \/ confidence (apply_sentiment s
                       (apply_success_probability p
                          (apply_direction p seed_recommendation))) == 0.6
      \/ confidence (apply_sentiment s
                       (apply_success_probability p
                          (apply_direction p seed_recommendation))) == 0.8
      \/ confidence (apply_sentiment s
                       (apply_success_probability p
                          (apply_direction p seed_recommendation))) == 0.9).
    { destruct Hsent as [->|[-> _]]; destruct Hc as [->| ->].
      - left. reflexivity.
      - right; right; left. vm_compute. reflexivity.
      - right; left. vm_compute. reflexivity.
      - right; right; right. vm_compute. reflexivity. }
    split; [tauto|].
    split; [|intros Hv; contradiction].
    intros H2. exfalso.
    destruct Hcases as [H|[H|[H|H]]]; rewrite H in H2; lra.
  - destruct Hsent as [Hs|[_ Hs]]; [|rewrite Ha in Hs; congruence].
    rewrite Hs, Hc.
    assert (H2 : Qmax 0.1 (0.5 - 0.3) == 0.2) by (vm_compute; reflexivity).
    split; [left; exact H2|]. split; [intros _; exact Hv|intros _; exact H2].
Qed.

Lemma confidence_takes_five_values_witness :
  exists r,
    generate_trading_recommendation
      {| p_direction := Some "UP"%string;
         p_direction_confidence := Some 0.9;
         p_success_probability := Some 0.35;
         p_expected_profit_percent := None |}
      None (snapshot_with_volatility 0.30) 10 = Ok r
    /\ confidence r == 0.2.
Proof.
  eexists. split; [reflexivity|].
  apply (proj2 (confidence_takes_five_values _ None
                  (snapshot_with_volatility 0.30) 10 _ eq_refl)).
  exists 0.35. split; [reflexivity|reflexivity].
Defined.

(** *** The overall confidence *)

Lemma np_mean_bounds (l : list Q) (lo hi : Q) :
  l <> [] ->
  (forall x, In x l -> lo <= x /\ x <= hi) ->
  lo <= np_mean l /\ np_mean l <= hi.
Proof.
  intros Hne Hall. unfold np_mean.
  set (n := inject_Z (Z.of_nat (length l))).
  assert (Hn : 0 < n).
  { unfold n. change 0 with (inject_Z 0). rewrite <- Zlt_Qlt.
    destruct l; [congruence|simpl; lia]. }
  assert (Hsum : lo * n <= fold_left Qplus l 0
                 /\ fold_left Qplus l 0 <= hi * n).
  { unfold n. clear Hne Hn n.
    induction l as [|x l IH].
    - simpl. change (inject_Z (Z.of_nat 0)) with 0. split; lra.
    - assert (Hx : lo <= x /\ x <= hi) by (apply Hall; left; reflexivity).
      assert (IH' := IH (fun y Hy => Hall y (or_intror Hy))).
      cbn [fold_left length].
      rewrite SummaryFacts.fold_left_Qplus_acc.
      rewrite Nat2Z.inj_succ. unfold Z.succ. rewrite inject_Z_plus.
      change (inject_Z 1) with 1.
      destruct Hx, IH'. split; lra. }
  destruct Hsum as [Hlo Hhi]. split.
  - apply Qle_shift_div_l; assumption.
  - apply Qle_shift_div_r; assumption.
Qed.

(** X18. The overall confidence lies between any two bounds that enclose
    the neutral value 0.5 and every factor that is present; in
    particular it lies in [0, 1] when the direction confidence, the
    success probability and the sentiment confidence do.  With no factor
    it is 0.5. *)
Theorem overall_confidence_is_bounded_by_its_factors :
  forall (predictions : Prediction) (sentiment_score : option Sentiment)
         (lo hi : Q),
    lo <= 0.5 -> 0.5 <= hi ->
    (forall c, p_direction_confidence predictions = Some c ->
               lo <= c /\ c <= hi) ->
    (forall c, p_success_probability predictions = Some c ->
               lo <= c /\ c <= hi) ->
    (forall s c, sentiment_score = Some s ->
                 sentiment_confidence s = Some c -> lo <= c /\ c <= hi) ->
    lo <= calculate_overall_confidence predictions sentiment_score
    /\ calculate_overall_confidence predictions sentiment_score <= hi.
Proof.
  intros p s lo hi Hlo Hhi Hd Hp Hs.
  unfold calculate_overall_confidence.
  set (factors := _ ++ _ ++ _).
  assert (Hall : forall x, In x factors -> lo <= x /\ x <= hi).
  { unfold factors. intros x Hx.
    rewrite !in_app_iff in Hx. destruct Hx as [Hx|[Hx|Hx]].
    - destruct (p_direction_confidence p) as [c|]; [|destruct Hx].
      destruct Hx as [<-|[]]. apply Hd. reflexivity.
    - destruct (p_success_probability p) as [c|]; [|destruct Hx].
      destruct Hx as [<-|[]]. apply Hp. reflexivity.
    - destruct s as [s|]; [|destruct Hx].
      destruct (sentiment_confidence s) as [c|] eqn:Ec; [|destruct Hx].
      destruct Hx as [<-|[]]. apply (Hs s); [reflexivity|exact Ec]. }
  destruct factors as [|x l] eqn:E.
  - split; assumption.
  - apply np_mean_bounds; [discriminate|exact Hall].
Qed.

Lemma overall_confidence_is_bounded_by_its_factors_witness :
  0 <= calculate_overall_confidence upward_prediction None
  /\ calculate_overall_confidence upward_prediction None <= 1.
Proof.
  apply (overall_confidence_is_bounded_by_its_factors upward_prediction None
           0 1 ltac:(lra) ltac:(lra)).
  - intros c [= <-]. split; lra.
  - intros c [= ].
  - intros s c [= ].
Defined.

End RecommendationFacts.

(** ** More on the feature matrix and on training *)

Module MatrixFacts.

Import PricePredictionModel ModelTerms MatrixTerms.

Local Open Scope Q_scope.

Lemma select_In (df : DataFrame) (cols : list string) (c : string)
  (v : list cell) :
  In c cols -> get_column df c = Some v -> In (c, v) (select df cols).
Proof.
  intros Hc Hv. induction cols as [|k cols IH]; simpl in *; [tauto|].
  destruct Hc as [->|Hc].
  - rewrite Hv. left. reflexivity.
  - destruct (get_column df k); [right|]; auto.
Qed.

Lemma fillna_In (df : DataFrame) (c : string) (v : list cell) :
  In (c, v) df -> In (c, map fillna_cell v) (fillna df).
Proof.
  intros H. unfold fillna.
  apply (in_map (fun '(k, w) => (k, map fillna_cell w)) df (c, v) H).
Qed.

(** A technical column of the frame is a column of the matrix, with its
    NaN cells replaced. *)
Lemma technical_column_in_matrix (df : DataFrame) (c : string)
  (v : list cell) :
  is_technical c = true ->
  ~ In c derived_flags ->
  get_column df c = Some v ->
  In (c, map fillna_cell v) (fst (fst (prepare_features df))).
Proof.
  intros Htech Hflag Hv.
  pose proof (ModelFacts.prepare_features_frame df c Hflag) as Hframe.
  rewrite Hv in Hframe.
  assert (Hin : In c (List.filter is_technical (columns df))).
  { apply filter_In. split; [|exact Htech].
    eapply ModelFacts.get_column_In, Hv. }
  revert Hframe. unfold prepare_features.
  destruct (get_column df "trend") as [trend|];
    destruct (get_column _ "volatilityRegime") as [regime|];
    cbn [fst snd]; intros Hframe;
    apply fillna_In, select_In; try exact Hframe;
    (apply filter_In; split;
     [rewrite ?in_app_iff; auto
     |apply ModelFacts.has_column_In;
      eapply ModelFacts.get_column_In, Hframe]).
Qed.

Lemma fillna_cell_not_nan (c : cell) : fillna_cell c <> Num NaN.
Proof. destruct c as [[| | |]| | |]; discriminate. Qed.

(** X19. The feature matrix never holds a NaN: every cell went through
    [fillna(0)], which changes no other cell, so text and infinities
    stay.  Every column of the frame whose lower-cased name contains one
    of the technical indicator names is a column of the matrix. *)
Theorem feature_matrix_has_no_nan :
  (forall (df : DataFrame) (c : string) (v : list cell) (x : cell),
     In (c, v) (fst (fst (prepare_features df))) ->
     In x v -> x <> Num NaN)
  /\ (forall x : cell, x <> Num NaN -> fillna_cell x = x)
  /\ (forall (df : DataFrame) (c : string) (v : list cell),
        is_technical c = true ->
        ~ In c derived_flags ->
        get_column df c = Some v ->
        In (c, map fillna_cell v) (fst (fst (prepare_features df)))).
Proof.
  split; [|split].
  - intros df c v x Hcol Hx.
    assert (Hfill : forall d : DataFrame,
              In (c, v) (fillna d) -> x <> Num NaN).
    { intros d Hd. unfold fillna in Hd. apply in_map_iff in Hd.
      destruct Hd as ([k w] & [= <- <-] & _).
      apply in_map_iff in Hx. destruct Hx as (y & <- & _).
      apply fillna_cell_not_nan. }
    revert Hcol. unfold prepare_features.
    destruct (get_column df "trend") as [trend|];
      destruct (get_column _ "volatilityRegime") as [regime|];
      cbn [fst]; apply Hfill.
  - intros [[| | |]| | |] H; try reflexivity. congruence.
  - apply technical_column_in_matrix.
Qed.

Lemma feature_matrix_has_no_nan_witness :
  In ("price_change_5"%string, [Num (Fin 0); Num (Fin 0.004)])
     (fst (fst (prepare_features training_frame)))
  /\ Num (Fin 0) <> Num NaN.
Proof.
  destruct feature_matrix_has_no_nan as (Hnan & _ & Htech).
  assert (Hin : In ("price_change_5"%string, [Num (Fin 0); Num (Fin 0.004)])
                   (fst (fst (prepare_features training_frame)))).
  { apply (Htech training_frame "price_change_5"
             [Num NaN; Num (Fin 0.004)]).
    - reflexivity.
    - simpl. intuition discriminate.
    - reflexivity. }
  split; [exact Hin|].
  apply (Hnan training_frame "price_change_5" _ (Num (Fin 0)) Hin).
  left. reflexivity.
Defined.




End MatrixFacts.

(** ** The prediction endpoint *)

Module EndpointFacts.

Import PricePredictionModel AiPredictionService.
Import ServiceTerms ModelTerms MatrixTerms EndpointTerms.

Local Open Scope Q_scope.

(** The flat dict of a request, with its two optional blocks spelled
    out. *)
Lemma prepare_market_data_for_prediction_inv (data : gmap string json)
  (now : Clock) (market_data : Dict) :
  prepare_market_data_for_prediction data now = Ok market_data ->
  exists (price index_name : json) (indicators bb conditions : gmap string json),
    data !! "currentPrice"%string = Some price
    /\ data !! "indexName"%string = Some index_name
    /\ get_object data "marketConditions" = Ok conditions
    /\ market_data =
       [("price", json_cell price);
         ("indexName", json_cell index_name);
         ("hour", Num (Fin (inject_Z (hour now))));
         ("minute", Num (Fin (inject_Z (minute now))));
         ("day_of_week", Num (Fin (inject_Z (weekday now))));
         ("is_opening_hour",
          Flag ((9 <=? hour now)%Z && (hour now <? 11)%Z));
         ("is_closing_hour",
          Flag ((14 <=? hour now)%Z && (hour now <? 16)%Z));
         ("ema", get_cell indicators "ema" (Num (Fin 0)));
         ("rsi", get_cell indicators "rsi" (Num (Fin 50)));
         ("momentum", get_cell indicators "momentum" (Num (Fin 0)));
         ("volatility", get_cell indicators "volatility" (Num (Fin 0.15)))
        ]%string
        ++ (if decide (bb = ∅) then []
            else [("bollingerBands.upper", get_cell bb "upper" (Num (Fin 0)));
                  ("bollingerBands.middle",
                   get_cell bb "middle" (Num (Fin 0)));
                  ("bollingerBands.lower", get_cell bb "lower" (Num (Fin 0)));
                  ("bollingerBands.squeeze",
                   get_cell bb "squeeze" (Flag false))]%string)
        ++ [("trend", get_cell conditions "trend" (Str "SIDEWAYS"));
            ("volatilityRegime",
             get_cell conditions "volatilityRegime" (Str "MEDIUM"));
            ("timeOfDay", get_cell conditions "timeOfDay" (Str "MID_DAY"))
           ]%string.
Proof.
  unfold prepare_market_data_for_prediction, subscript.
  destruct (data !! "currentPrice"%string) as [price|];
    cbn [result_bind]; [|discriminate].
  destruct (data !! "indexName"%string) as [index_name|];
    cbn [result_bind]; [|discriminate].
  destruct (get_object data "indicators") as [indicators|];
    cbn [result_bind]; [|discriminate].
  destruct (get_object_if_truthy indicators "bollingerBands") as [bb|];
    cbn [result_bind]; [|discriminate].
  destruct (get_object data "marketConditions") as [conditions|];
    cbn [result_bind]; [|discriminate].
  intros [= <-].
  exists price, index_name, indicators, bb, conditions.
  repeat split.
  destruct (decide (bb = ∅)); reflexivity.
Qed.

(** X21. Whenever the flat dict of a request is built, the body had
    [currentPrice] and [indexName]; the dict has one of two lists of
    keys, with or without the four band keys, and no key twice; and the
    opening and the closing flag are never both set. *)
Theorem market_data_has_one_of_two_shapes :
  forall (data : gmap string json) (now : Clock) (market_data : Dict),
    prepare_market_data_for_prediction data now = Ok market_data ->
    is_Some (data !! "currentPrice"%string)
    /\ is_Some (data !! "indexName"%string)
    /\ (map fst market_data = request_keys ++ condition_keys
        \/ map fst market_data = request_keys ++ band_keys ++ condition_keys)
    /\ NoDup (map fst market_data)
    /\ exists opening closing : bool,
         In ("is_opening_hour"%string, Flag opening) market_data
         /\ In ("is_closing_hour"%string, Flag closing) market_data
         /\ opening && closing = false.
Proof.
  intros data now md H.
  apply prepare_market_data_for_prediction_inv in H.
  destruct H as (price & index_name & ind & bb & cond & Hp & Hi & _ & ->).
  split; [rewrite Hp; eauto|]. split; [rewrite Hi; eauto|].
  split; [|split].
  - destruct (decide (bb = ∅)); [left|right]; reflexivity.
  - destruct (decide (bb = ∅)); cbn [map fst app];
      apply (bool_decide_unpack _); vm_compute; reflexivity.
  - eexists _, _. split; [|split].
    + cbn. do 5 right. left. reflexivity.
    + cbn. do 6 right. left. reflexivity.
    + destruct (9 <=? hour now)%Z eqn:E1, (hour now <? 11)%Z eqn:E2,
        (14 <=? hour now)%Z eqn:E3, (hour now <? 16)%Z eqn:E4;
        try reflexivity; lia.
Qed.

Lemma market_data_has_one_of_two_shapes_witness :
  exists market_data : Dict,
    prepare_market_data_for_prediction test_data
      {| hour := 10; minute := 30; weekday := 1 |} = Ok market_data
    /\ NoDup (map fst market_data).
Proof.
  eexists. split; [vm_compute; reflexivity|].
  apply (market_data_has_one_of_two_shapes test_data
           {| hour := 10; minute := 30; weekday := 1 |}).
  vm_compute. reflexivity.
Defined.

(** *** The guards of the endpoint *)

Lemma predict_price_movement_state (loaded : bool) (data : gmap string json)
  (sentiment_score : option Sentiment) (now : Clock) (st : Ensemble) :
  let after := snd (predict_price_movement loaded data sentiment_score now st)
  in
  models after = models st
  /\ scalers after = scalers st
  /\ label_encoders after = label_encoders st.
Proof.
  cbv zeta. unfold predict_price_movement.
  destruct (negb loaded); [auto|].
  destruct (negb _); [auto|].
  destruct (prepare_market_data_for_prediction data now) as [md|];
    [|auto].
  pose proof (StrategyFacts.predict_keeps_fitted_state md st) as Hk.
  destruct (predict md st) as [[p|e] st']; cbn [snd] in Hk; [|exact Hk].
  destruct (generate_trading_recommendation _ _ _ _); exact Hk.
Qed.

(** X22. The guards of [/predict]: status 500 while the models are not
    loaded, whatever the body; status 400 when the models are loaded and
    one of the three required fields is missing; a successful response
    only with loaded models and the three fields; and in every case the
    models, the scalers and the label encoders are those of before. *)
Theorem predict_endpoint_guards :
  forall (loaded : bool) (data : gmap string json)
         (sentiment_score : option Sentiment) (now : Clock) (st : Ensemble),
    let out := predict_price_movement loaded data sentiment_score now st in
    (loaded = false -> out = (Failure 500, st))
    /\ (loaded = true ->
        (exists field : string,
           In field required_fields /\ data !! field = None) ->
        out = (Failure 400, st))
    /\ (forall (p : Prediction) (r : Recommendation) (c : Q),
          fst out = Success p r c ->
          loaded = true
          /\ forall field : string,
               In field required_fields -> is_Some (data !! field))
    /\ models (snd out) = models st
    /\ scalers (snd out) = scalers st
    /\ label_encoders (snd out) = label_encoders st.
Proof.
  intros loaded data sent now st. cbv zeta.
  split; [|split; [|split]].
  - intros ->. reflexivity.
  - intros -> (field & Hin & Hnone).
    unfold predict_price_movement. cbn [negb].
    destruct (forallb _ required_fields) eqn:E; [|reflexivity].
    rewrite forallb_forall in E. specialize (E field Hin).
    rewrite Hnone in E. apply bool_decide_eq_true in E.
    destruct E as [x Hx]. discriminate.
  - intros p r c. unfold predict_price_movement.
    destruct loaded; cbn [negb]; [|discriminate].
    destruct (forallb _ required_fields) eqn:E; cbn [negb];
      [|discriminate].
    intros _. split; [reflexivity|].
    intros field Hin. rewrite forallb_forall in E.
    specialize (E field Hin). apply bool_decide_eq_true in E. exact E.
  - apply predict_price_movement_state.
Qed.

Lemma predict_endpoint_guards_witness :
  predict_price_movement false test_data None
    {| hour := 10; minute := 30; weekday := 1 |} init = (Failure 500, init)
  /\ predict_price_movement true (delete "indicators"%string test_data) None
       {| hour := 10; minute := 30; weekday := 1 |} init
     = (Failure 400, init).
Proof.
  split.
  - apply (predict_endpoint_guards false test_data None
             {| hour := 10; minute := 30; weekday := 1 |} init).
    reflexivity.
  - apply (predict_endpoint_guards true
             (delete "indicators"%string test_data) None
             {| hour := 10; minute := 30; weekday := 1 |} init).
    + reflexivity.
    + exists "indicators"%string. split.
      * right. right. left. reflexivity.
      * vm_compute. reflexivity.
Defined.

(** *** Text in the feature matrix *)

Lemma scale_row_text (sc : StandardScaler) (row : list cell) (s : string) :
  In (Str s) row -> forall i : nat, scale_row i sc row = Raise ValueError.
Proof.
  induction row as [|c t IH]; intros Hin i; [destruct Hin|].
  cbn [scale_row].
  destruct c as [[q| | |]|b|s'|]; cbn [cell_number]; try reflexivity.
  - destruct Hin as [Hin|Hin]; [discriminate|].
    rewrite (IH Hin). reflexivity.
  - destruct Hin as [Hin|Hin]; [discriminate|].
    rewrite (IH Hin). reflexivity.
Qed.

Lemma transform_text (scaler : option StandardScaler) (X : DataFrame)
  (c : string) (s : string) :
  In (c, [Str s]) X ->
  exists e : PyError, transform scaler X = Raise e.
Proof.
  intros Hin. unfold transform.
  destruct scaler as [sc|]; [|eauto].
  destruct (Nat.eqb _ _); [|eauto].
  rewrite (scale_row_text sc (first_row X) s); [eauto|].
  unfold first_row.
  apply (in_map (fun '(_, v) => hd (Num NaN) v) X (c, [Str s]) Hin).
Qed.

(** A dict with a textual [volatilityRegime] is never predicted on. *)
Lemma predict_text_regime (market_data : Dict) (st : Ensemble)
  (s : string) :
  get_column (DataFrame_of_dict market_data) "volatilityRegime"
  = Some [Str s] ->
  exists e : PyError, fst (predict market_data st) = Raise e.
Proof.
  intros Hcol.
  pose proof (MatrixFacts.technical_column_in_matrix
                (DataFrame_of_dict market_data) "volatilityRegime" [Str s]
                eq_refl ltac:(simpl; intuition discriminate) Hcol) as Hin.
  pose proof (ModelFacts.predict_unfold market_data st) as Hp.
  destruct (prepare_features (DataFrame_of_dict market_data))
    as [[X cols] df'].
  rewrite Hp. cbn [fst snd] in *.
  destruct (subscript (scalers st) "main") as [scaler|e];
    cbn [result_bind]; [|eauto].
  destruct (transform_text scaler X "volatilityRegime" s Hin) as [e ->].
  cbn [result_bind]. eauto.
Qed.

Lemma regime_cell_is_text (data conditions : gmap string json) :
  regime_is_label data ->
  get_object data "marketConditions" = Ok conditions ->
  exists s : string,
    get_cell conditions "volatilityRegime" (Str "MEDIUM") = Str s.
Proof.
  intros Hlabel. unfold get_object, get_cell.
  destruct (data !! "marketConditions"%string) as [[| | | |o]|] eqn:E;
    try discriminate.
  - intros [= <-].
    destruct (Hlabel o E) as [->|(s & _ & ->)]; cbn; eauto.
  - intros [= <-]. rewrite lookup_empty. eauto.
Qed.

(** X23. A request that leaves the volatility regime out, or gives one
    of the labels LOW, MEDIUM and HIGH, is never answered with a
    prediction, whatever the ensemble, the sentiment and the clock: the
    flat dict carries the label under [volatilityRegime], the name
    contains "volatility", and the scaler meets text. *)
Theorem predict_endpoint_fails_on_a_regime_label :
  forall (loaded : bool) (data : gmap string json)
         (sentiment_score : option Sentiment) (now : Clock) (st : Ensemble),
    regime_is_label data ->
    is_failure
      (fst (predict_price_movement loaded data sentiment_score now st)).
Proof.
  intros loaded data sent now st Hlabel. unfold predict_price_movement.
  destruct (negb loaded); [exact I|].
  destruct (negb _); [exact I|].
  destruct (prepare_market_data_for_prediction data now) as [md|] eqn:E;
    [|exact I].
  apply prepare_market_data_for_prediction_inv in E.
  destruct E as (price & index_name & ind & bb & cond & _ & _ & Hc & ->).
  destruct (regime_cell_is_text data cond Hlabel Hc) as [s Hs].
  match goal with
  | |- context [predict ?md st] =>
      destruct (predict_text_regime md st s) as [e He]
  end.
  - rewrite Hs. destruct (decide (bb = ∅)); reflexivity.
  - match goal with
    | |- context [predict ?md st] =>
        destruct (predict md st) as [[p|e'] st']
    end; [discriminate|exact I].
Qed.

Lemma predict_endpoint_fails_on_a_regime_label_witness :
  is_failure
    (fst (predict_price_movement true test_data None
            {| hour := 10; minute := 30; weekday := 1 |}
            (snd (train_models sample_sklearn training_frame init)))).
Proof.
  apply (predict_endpoint_fails_on_a_regime_label true test_data None
           {| hour := 10; minute := 30; weekday := 1 |}
           (snd (train_models sample_sklearn training_frame init))).
  intros o Ho. vm_compute in Ho. injection Ho as <-.
  right. exists "MEDIUM"%string. split.
  - right. left. reflexivity.
  - vm_compute. reflexivity.
Defined.

End EndpointFacts.

(** ** Loading the models and serving *)

Module LifecycleFacts.

Import PricePredictionModel AiPredictionService BacktestingSystem.
Import BacktestingStrategies ServiceLifecycle.
Import ServiceTerms ModelTerms LifecycleTerms.

Lemma load_models_keyed (disk : Disk) (st : Ensemble) :
  models st <> ∅ -> load_models disk st = (false, st).
Proof.
  intros Hne. unfold load_models.
  destruct (map_to_list (models st)) as [|[name m] rest] eqn:E.
  - apply map_to_list_empty_iff in E. contradiction.
  - reflexivity.
Qed.

Lemma train_models_keeps_keys (sk : Sklearn) (df : DataFrame)
  (st : Ensemble) (key : string) :
  is_Some (models st !! key) ->
  is_Some (models (snd (train_models sk df st)) !! key).
Proof.
  intros Hk.
  unfold train_models, prepare_features_method.
  destruct (prepare_features df) as [[X cols] df'].
  unfold py_bind, py_modify, py_lift, py_ret. cbn [fst snd].
  destruct (fit_scaler sk X) as [sc|e]; [|exact Hk].
  unfold train_direction_model, train_success_probability_model,
    train_profit_regression_model.
  unfold py_bind, py_modify, py_lift, py_ret.
  destruct (get_column df' "price_direction") as [labels|];
    destruct (has_column df' "trade_success"),
             (has_column df' "profit_loss_percent");
    cbn; rewrite ?lookup_insert_is_Some; tauto.
Qed.

Lemma constructed_has_models (st : Ensemble) :
  constructed st -> is_Some (models st !! "price_direction"%string).
Proof.
  induction 1 as [|sk df st _ IH|md st _ IH|disk st _ IH].
  - vm_compute. eauto.
  - apply train_models_keeps_keys, IH.
  - destruct (StrategyFacts.predict_keeps_fitted_state md st) as (-> & _).
    exact IH.
  - rewrite load_models_keyed; [exact IH|].
    intros Hempty. rewrite Hempty, lookup_empty in IH.
    destruct IH as [x Hx]. discriminate.
Qed.

(** X24. [load_models] never loads: on a fresh object, and on whatever
    training, predicting and loading leave of one, it returns [False]
    and assigns nothing, whatever the directory holds; its loop reads
    the name [os], which the module binds only inside [save_models].  So
    [initialize_models] leaves the service as it was imported, and the
    script of the backtester runs no backtest. *)
Theorem load_models_never_loads :
  forall disk : Disk,
    (forall st : Ensemble,
       constructed st -> load_models disk st = (false, st))
    /\ initialize_models disk startup = startup
    /\ forall (historical_data : list HistoricalRow)
              (rng1 rng2 rng3 : RandomSupply),
         backtest_script disk historical_data rng1 rng2 rng3 = None.
Proof.
  intros disk.
  assert (Hload : forall st : Ensemble,
            constructed st -> load_models disk st = (false, st)).
  { intros st Hst. apply load_models_keyed.
    intros Hempty. apply constructed_has_models in Hst.
    rewrite Hempty, lookup_empty in Hst.
    destruct Hst as [x Hx]. discriminate. }
  split; [exact Hload|]. split.
  - unfold initialize_models. cbn [ai_model startup].
    rewrite (Hload init constructed_init). reflexivity.
  - intros data rng1 rng2 rng3. unfold backtest_script.
    destruct data; [reflexivity|].
    rewrite (Hload init constructed_init). reflexivity.
Qed.

Lemma load_models_never_loads_witness :
  load_models trained_disk
    (snd (train_models sample_sklearn training_frame init))
  = (false, snd (train_models sample_sklearn training_frame init)).
Proof.
  destruct (load_models_never_loads trained_disk) as (Hload & _).
  apply Hload. apply constructed_train. apply constructed_init.
Defined.

Lemma handle_keeps_flag (req : Request) (s : Service * Disk) :
  model_loaded (fst s) = false ->
  reports_no_models (fst (handle req s))
  /\ model_loaded (fst (snd (handle req s))) = false.
Proof.
  destruct s as [svc disk]. cbn [fst]. intros Hflag.
  destruct req as [|data sent now|sk training stamp|]; cbn [handle].
  - cbn. auto.
  - rewrite Hflag. cbn. auto.
  - unfold retrain_models.
    destruct training as [[df|e]|]; [|cbn; auto..].
    destruct (train_models sk df (ai_model svc)) as [[[]|e] m]; cbn; auto.
  - cbn. auto.
Qed.

Lemma serve_keeps_flag (reqs : list Request) :
  forall s : Service * Disk,
    model_loaded (fst s) = false ->
    Forall reports_no_models (fst (serve reqs s))
    /\ model_loaded (fst (snd (serve reqs s))) = false.
Proof.
  induction reqs as [|req rest IH]; intros s Hflag; cbn [serve].
  - cbn. split; [constructor|exact Hflag].
  - destruct (handle_keeps_flag req s Hflag) as [Hreply Hnext].
    destruct (handle req s) as [reply s1]. cbn [fst snd] in *.
    destruct (IH s1 Hnext) as [Hrest Hlast].
    destruct (serve rest s1) as [replies s2]. cbn [fst snd] in *.
    split; [constructor; assumption|exact Hlast].
Qed.

(** X25. The service never predicts.  Started on any directory and
    given any requests, retraining among them, it answers every
    [/predict] with status 500 and reports [model_loaded] false on
    [/health] and [/model-stats]: the flag is set by
    [initialize_models] alone, whose load fails, and [/retrain] declares
    only [model_last_trained] global. *)
Theorem service_never_predicts :
  forall (disk : Disk) (reqs : list Request),
    Forall reports_no_models (fst (run_service disk reqs))
    /\ model_loaded (fst (snd (run_service disk reqs))) = false.
Proof.
  intros disk reqs. unfold run_service.
  apply serve_keeps_flag.
  unfold initialize_models. cbn [ai_model startup fst].
  rewrite load_models_keyed; [reflexivity|].
  intros H. apply (f_equal (fun m => m !! "price_direction"%string)) in H.
  vm_compute in H. discriminate.
Qed.

(** A retraining run that succeeds, then the request of the test
    script. *)
Lemma service_never_predicts_witness :
  let reqs :=
    [PostRetrain sample_sklearn (Some (Ok training_frame)) "today";
     PostPredict test_data None {| hour := 10; minute := 30; weekday := 1 |};
     GetHealth] in
  fst (run_service trained_disk reqs)
  = [RetrainReply 200; PredictReply (Failure 500);
     HealthReply false (Some "today"%string)]
  /\ Forall reports_no_models (fst (run_service trained_disk reqs)).
Proof.
  cbv zeta. split.
  - vm_compute. reflexivity.
  - apply (service_never_predicts trained_disk).
Defined.

End LifecycleFacts.

(** ** The choice of the direction model *)

Module TrainingFacts.

Import PricePredictionModel ModelTerms TrainingTerms.

Local Open Scope Q_scope.

(** The selection loop with its accumulator: the result is the earlier
    best, no candidate scoring above it, or a candidate of the list that
    scores above the earlier best and at least as high as every other,
    and strictly higher than those before it. *)
Lemma select_best_spec (sk : Sklearn) (candidates : list EstimatorClass) :
  forall (best_score : Q) (best_model : option Estimator),
    (select_best sk candidates best_score best_model = best_model
     /\ forall c, In c candidates -> sk_cv_score sk c <= best_score)
    \/ exists (before after : list EstimatorClass) (c : EstimatorClass),
         candidates = before ++ c :: after
         /\ select_best sk candidates best_score best_model
            = Some (fitted sk c "price_direction")
         /\ best_score < sk_cv_score sk c
         /\ (forall d, In d before -> sk_cv_score sk d < sk_cv_score sk c)
         /\ (forall d, In d after -> sk_cv_score sk d <= sk_cv_score sk c).
Proof.
  induction candidates as [|c rest IH]; intros bs bm.
  - left. split; [reflexivity|]. intros c [].
  - cbn [select_best].
    destruct (Qlt_bool bs (sk_cv_score sk c)) eqn:E.
    + apply Qlt_bool_iff in E.
      destruct (IH (sk_cv_score sk c)
                  (Some (fitted sk c "price_direction")))
        as [[Heq Hall]|(before & after & d & -> & Heq & Hlt & Hb & Ha)].
      * right. exists [], rest, c. cbn [app].
        repeat split; try assumption. intros d [].
      * right. exists (c :: before), after, d. cbn [app].
        split; [reflexivity|]. split; [exact Heq|].
        split; [lra|]. split; [|exact Ha].
        intros x [<-|Hx]; [exact Hlt|apply Hb, Hx].
    + apply Qlt_bool_false_iff in E.
      destruct (IH bs bm)
        as [[Heq Hall]|(before & after & d & -> & Heq & Hlt & Hb & Ha)].
      * left. split; [exact Heq|].
        intros x [<-|Hx]; [exact E|apply Hall, Hx].
      * right. exists (c :: before), after, d. cbn [app].
        split; [reflexivity|]. split; [exact Heq|].
        split; [exact Hlt|]. split; [|exact Ha].
        intros x [<-|Hx]; [lra|apply Hb, Hx].
Qed.

(** X26. On a frame of at least four rows whose direction labels are
    text, a call of [train_direction_model] that returns has stored the
    label encoder and assigned [models['price_direction']] whatever was
    there: [None] when no candidate has a mean score above 0, and
    otherwise a candidate with a positive mean score that no other
    candidate exceeds, the random forest when the two scores are
    equal.  On fewer than four rows the time-series split raises before
    the assignment. *)
Theorem direction_model_is_the_best_scoring_candidate :
  forall (sk : Sklearn) (df : DataFrame) (st : Ensemble)
         (labels : list cell),
    get_column df "price_direction" = Some labels ->
    (4 <= length labels)%nat ->
    textual labels ->
    fst (train_direction_model sk df st) = Ok tt ->
    let after := snd (train_direction_model sk df st) in
    label_encoders after !! "direction"%string
    = Some {| classes_ := sk_classes sk labels |}
    /\ exists kept : option Estimator,
         models after !! "price_direction"%string = Some kept
         /\ match kept with
            | None =>
                forall c, In c models_to_test -> sk_cv_score sk c <= 0
            | Some m =>
                In (est_class m) models_to_test
                /\ m = fitted sk (est_class m) "price_direction"
                /\ 0 < sk_cv_score sk (est_class m)
                /\ (forall c, In c models_to_test ->
                      sk_cv_score sk c <= sk_cv_score sk (est_class m))
                /\ (sk_cv_score sk RandomForestRegressor
                    == sk_cv_score sk GradientBoostingRegressor ->
                    est_class m = RandomForestRegressor)
            end.
Proof.
  intros sk df st labels Hlabels _ _ _. cbv zeta.
  unfold train_direction_model. rewrite Hlabels.
  unfold py_bind, py_modify. cbn [fst snd].
  split; [cbn; apply lookup_insert_eq|].
  exists (select_best sk models_to_test 0 None).
  split; [cbn; apply lookup_insert_eq|].
  destruct (select_best_spec sk models_to_test 0 None)
    as [[-> Hall]|(before & after & c & Hsplit & -> & Hpos & Hb & Ha)].
  - exact Hall.
  - cbn [est_class fitted].
    assert (Hin : In c models_to_test).
    { rewrite Hsplit. apply in_or_app. right. left. reflexivity. }
    split; [exact Hin|]. split; [reflexivity|]. split; [exact Hpos|].
    split.
    + intros d Hd. rewrite Hsplit in Hd.
      apply in_app_or in Hd. destruct Hd as [Hd|[<-|Hd]].
      * apply Qlt_le_weak, Hb, Hd.
      * lra.
      * apply Ha, Hd.
    + intros Htie. unfold models_to_test in Hsplit.
      destruct before as [|b before].
      * injection Hsplit as <- _. reflexivity.
      * injection Hsplit as <- Hrest.
        destruct before as [|b' before].
        -- injection Hrest as <- _.
           specialize (Hb RandomForestRegressor (or_introl eq_refl)).
           lra.
        -- injection Hrest as _ Hnil. destruct before; discriminate.
Qed.

Lemma direction_model_is_the_best_scoring_candidate_witness :
  models (snd (train_direction_model sample_sklearn four_row_frame init))
    !! "price_direction"%string
  = Some (Some (fitted sample_sklearn RandomForestRegressor
                  "price_direction")).
Proof.
  destruct (direction_model_is_the_best_scoring_candidate sample_sklearn
              four_row_frame init
              [Str "UP"; Str "DOWN"; Str "SIDEWAYS"; Str "DOWN"] eq_refl)
    as (_ & kept & Hkept & Hspec).
  - simpl. lia.
  - repeat constructor; eexists; reflexivity.
  - reflexivity.
  - rewrite Hkept. f_equal.
    destruct kept as [m|].
    + destruct Hspec as (Hin & Hm & _ & Hmax & _).
      rewrite Hm. f_equal.
      specialize (Hmax RandomForestRegressor (or_introl eq_refl)).
      destruct Hin as [E|[E|[]]]; rewrite <- E in *; [reflexivity|].
      exfalso. revert Hmax. apply Qlt_not_le. reflexivity.
    + specialize (Hspec RandomForestRegressor (or_introl eq_refl)).
      exfalso. revert Hspec. apply Qlt_not_le. reflexivity.
Defined.

End TrainingFacts.

(** ** The training examples *)

Module TargetFacts.

Import PricePredictionModel TrainingExamples TargetTerms.

Local Open Scope Q_scope.

(** [idxmin] returns a row of its input at the least distance. *)
Lemma idxmin_spec (entryTime : Z) (rest : list Snapshot) :
  forall best : Snapshot,
    let found := idxmin entryTime best rest in
    In found (best :: rest)
    /\ forall s : Snapshot,
         In s (best :: rest) ->
         (Z.abs (snap_timestamp found - entryTime)
          <= Z.abs (snap_timestamp s - entryTime))%Z.
Proof.
  induction rest as [|s rest IH]; intros best; cbv zeta; cbn [idxmin].
  - split; [left; reflexivity|]. intros s [<-|[]]. lia.
  - destruct (Z.ltb_spec (Z.abs (snap_timestamp s - entryTime))
                (Z.abs (snap_timestamp best - entryTime))) as [Hlt|Hge].
    + destruct (IH s) as [Hin Hmin]. split.
      * right. exact Hin.
      * intros x [<-|Hx]; [|apply Hmin, Hx].
        specialize (Hmin s (or_introl eq_refl)). lia.
    + destruct (IH best) as [Hin Hmin]. split.
      * destruct Hin as [<-|Hin]; [left; reflexivity|right; right; exact Hin].
      * intros x [<-|[<-|Hx]].
        -- apply Hmin. left. reflexivity.
        -- specialize (Hmin best (or_introl eq_refl)). lia.
        -- apply Hmin. right. exact Hx.
Qed.

Lemma filter_instrument (snapshots_df : list Snapshot) (name : string)
  (s : Snapshot) :
  In s (List.filter (fun s => String.eqb (snap_indexName s) name)
          snapshots_df)
  <-> In s snapshots_df /\ snap_indexName s = name.
Proof. rewrite filter_In, String.eqb_eq. reflexivity. Qed.

Lemma merge_outcomes_spec (column : bool) (snapshots_df : list Snapshot)
  (outcomes : list OutcomeRow) :
  match merge_outcomes column snapshots_df outcomes with
  | Ok examples =>
      Forall2 (fun outcome ex =>
                 exists name : string,
                   outcome_indexName column outcome = Some name
                   /\ In (ex_snapshot ex) snapshots_df
                   /\ snap_indexName (ex_snapshot ex) = name
                   /\ (forall s : Snapshot,
                         In s snapshots_df -> snap_indexName s = name ->
                         (distance (ex_snapshot ex) outcome
                          <= distance s outcome)%Z)
                   /\ ex = target_variables (ex_snapshot ex) outcome)
        outcomes examples
  | Raise e =>
      e = ValueError
      /\ exists outcome : OutcomeRow,
           In outcome outcomes
           /\ forall s : Snapshot,
                In s snapshots_df ->
                outcome_indexName column outcome
                <> Some (snap_indexName s)
  end.
Proof.
  induction outcomes as [|outcome rest IH];
    cbn [merge_outcomes]; [constructor|].
  destruct (index_snapshots snapshots_df (outcome_indexName column outcome))
    as [|s others] eqn:E.
  - split; [reflexivity|]. exists outcome. split; [left; reflexivity|].
    intros x Hx Hname. rewrite Hname in E. cbn [index_snapshots] in E.
    assert (Hin : In x (List.filter
                          (fun s => String.eqb (snap_indexName s)
                                      (snap_indexName x)) snapshots_df))
      by (apply filter_instrument; auto).
    rewrite E in Hin. destruct Hin.
  - destruct (outcome_indexName column outcome) as [name|] eqn:Ename;
      cbn [index_snapshots] in E; [|discriminate].
    destruct (merge_outcomes column snapshots_df rest) as [merged|e];
      cbn [result_bind].
    + constructor; [|exact IH].
      destruct (idxmin_spec (o_entryTime outcome) others s) as [Hin Hmin].
      rewrite <- E in Hin, Hmin.
      apply filter_instrument in Hin. destruct Hin as [Hin Hname].
      exists name. cbn [ex_snapshot target_variables].
      split; [exact Ename|]. split; [exact Hin|]. split; [exact Hname|].
      split; [|reflexivity].
      intros x Hx Hxname. apply Hmin. apply filter_instrument. auto.
    + destruct IH as (-> & o & Ho & Hno).
      split; [reflexivity|]. exists o. split; [right; exact Ho|exact Hno].
Qed.

(** X27. [create_target_variables] either builds one example per
    outcome, in order, each on a snapshot of the outcome's instrument
    that is as near to the entry time as any snapshot of that instrument;
    or it raises ValueError, and then some outcome has no snapshot of its
    instrument.  The instrument is NIFTY for every outcome of a frame in
    which no record names one; in a frame with names an outcome without
    one has no instrument, and the call raises. *)
Theorem examples_take_the_nearest_snapshot :
  forall (snapshots_df : list Snapshot) (outcomes_df : list OutcomeRow),
    match create_target_variables snapshots_df outcomes_df with
    | Ok examples =>
        Forall2 (nearest snapshots_df outcomes_df) outcomes_df examples
    | Raise e =>
        e = ValueError
        /\ exists outcome : OutcomeRow,
             In outcome outcomes_df
             /\ no_snapshot snapshots_df outcomes_df outcome
    end.
Proof.
  intros snaps outcomes. unfold create_target_variables.
  pose proof (merge_outcomes_spec (has_indexName outcomes) snaps outcomes)
    as H.
  destruct (merge_outcomes (has_indexName outcomes) snaps outcomes)
    as [examples|e].
  - unfold nearest, instrument. exact H.
  - unfold no_snapshot, instrument. exact H.
Qed.

Lemma examples_take_the_nearest_snapshot_witness :
  (exists examples : list Example,
     create_target_variables sample_snapshots sample_outcomes = Ok examples
     /\ map (fun ex => snap_timestamp (ex_snapshot ex)) examples
        = [2000; 2000]%Z
     /\ Forall2 (nearest sample_snapshots sample_outcomes) sample_outcomes
          examples)
  /\ create_target_variables sample_snapshots mixed_outcomes
     = Raise ValueError
  /\ exists outcome : OutcomeRow,
       In outcome mixed_outcomes
       /\ no_snapshot sample_snapshots mixed_outcomes outcome.
Proof.
  split.
  - pose proof (examples_take_the_nearest_snapshot sample_snapshots
                  sample_outcomes) as H.
    destruct (create_target_variables sample_snapshots sample_outcomes)
      as [examples|e] eqn:E.
    + exists examples. split; [reflexivity|]. split; [|exact H].
      vm_compute in E. injection E as <-. reflexivity.
    + vm_compute in E. discriminate.
  - pose proof (examples_take_the_nearest_snapshot sample_snapshots
                  mixed_outcomes) as H.
    destruct (create_target_variables sample_snapshots mixed_outcomes)
      as [examples|e] eqn:E.
    + vm_compute in E. discriminate.
    + destruct H as [-> H]. split; [reflexivity|exact H].
Defined.

(** *** The targets *)

Lemma create_target_variables_rows (snapshots_df : list Snapshot)
  (outcomes_df : list OutcomeRow) :
  forall examples : list Example,
    create_target_variables snapshots_df outcomes_df = Ok examples ->
    Forall2 (fun outcome ex =>
               exists s : Snapshot, ex = target_variables s outcome)
      outcomes_df examples.
Proof.
  unfold create_target_variables.
  generalize (has_indexName outcomes_df) as column. intros column.
  induction outcomes_df as [|outcome rest IH]; intros examples;
    cbn [merge_outcomes].
  - intros [= <-]. constructor.
  - destruct (index_snapshots snapshots_df _) as [|s others];
      [discriminate|].
    destruct (merge_outcomes column snapshots_df rest) as [merged|e];
      cbn [result_bind]; [|discriminate].
    intros [= <-]. constructor; [eauto|]. apply IH. reflexivity.
Qed.

Lemma target_variables_agree (s : Snapshot) (outcome : OutcomeRow) :
  targets_agree outcome (target_variables s outcome).
Proof.
  unfold targets_agree, target_variables.
  cbn [profit_loss_percent price_direction trade_success target_hit
         stop_loss_hit holding_duration_minutes].
  set (p := o_profitLossPercent outcome).
  split; [reflexivity|].
  assert (Hpair :
    In (if String.eqb (o_outcome outcome) "TARGET_HIT" then 1%Z else 0%Z,
        if String.eqb (o_outcome outcome) "STOP_LOSS_HIT"
        then 1%Z else 0%Z)
       [(0, 0); (1, 0); (0, 1)]%Z).
  { destruct (String.eqb_spec (o_outcome outcome) "TARGET_HIT") as [->|_].
    - right. left. reflexivity.
    - destruct (String.eqb (o_outcome outcome) "STOP_LOSS_HIT").
      + right. right. left. reflexivity.
      + left. reflexivity. }
  assert (Hmin : o_holdingDuration outcome / (1000 * 60) * 60000
                 == o_holdingDuration outcome) by field.
  destruct (Qlt_bool 2 p) eqn:E2; [apply Qlt_bool_iff in E2
                                  |apply Qlt_bool_false_iff in E2];
    (destruct (Qlt_bool p (-2)) eqn:Em; [apply Qlt_bool_iff in Em
                                        |apply Qlt_bool_false_iff in Em]);
    (destruct (Qlt_bool 0 p) eqn:E0; [apply Qlt_bool_iff in E0
                                     |apply Qlt_bool_false_iff in E0]);
    try (exfalso; lra);
    (split; [simpl; tauto|]);
    repeat split; try exact Hpair; try exact Hmin;
    try discriminate; try lra; try reflexivity;
    intros; try lra; try discriminate.
Qed.

(** X28. The targets of every training example hang together: the
    direction is UP exactly above 2 percent and DOWN exactly below -2,
    [trade_success] is 1 exactly for a positive return, so that UP goes
    with success and DOWN with failure while SIDEWAYS goes with either;
    [target_hit] and [stop_loss_hit] are never both 1; and the holding
    duration is the outcome's, in minutes. *)
Theorem targets_of_every_example_agree :
  forall (snapshots_df : list Snapshot) (outcomes_df : list OutcomeRow)
         (examples : list Example),
    create_target_variables snapshots_df outcomes_df = Ok examples ->
    Forall2 targets_agree outcomes_df examples.
Proof.
  intros snaps outcomes examples H.
  apply create_target_variables_rows in H.
  induction H as [|outcome ex rest examples (s & ->) _ IH]; constructor.
  - apply target_variables_agree.
  - exact IH.
Qed.

Lemma targets_of_every_example_agree_witness :
  exists examples : list Example,
    create_target_variables sample_snapshots sample_outcomes = Ok examples
    /\ map price_direction examples = ["UP"; "SIDEWAYS"]%string
    /\ Forall2 targets_agree sample_outcomes examples.
Proof.
  eexists. split; [vm_compute; reflexivity|].
  split; [reflexivity|].
  apply (targets_of_every_example_agree sample_snapshots).
  vm_compute. reflexivity.
Defined.

End TargetFacts.

(** ** The simple service *)

Module SimpleFacts.

Import PricePredictionModel AiPredictionService SimpleAiService.
Import SimpleTerms.

Local Open Scope Q_scope.

Lemma vote_range (up down : PyResult bool) (v : Z) :
  vote up down = Ok v -> v = 1%Z \/ v = 0%Z \/ v = (-1)%Z.
Proof.
  unfold vote. destruct up as [[|]|e]; cbn [result_bind].
  - intros [= <-]. auto.
  - destruct down as [[|]|e]; cbn [result_bind]; intros [= <-]; auto.
  - discriminate.
Qed.

Ltac listed_pair k :=
  first [k 0.4 | k 0.32 | k 0.65 | k 0.52 | k 0.8 | k 0.64 | k 0.85
        | k 0.68].

(** The direction and the confidence of a prediction are one of the
    listed pairs. *)
Lemma predict_direction_listed (market_data : gmap string json) :
  exists (d : string) (c : Q),
    In (d, c) listed_predictions
    /\ direction (predict_direction market_data) = d
    /\ direction_confidence (predict_direction market_data) == c
    /\ success_probability (predict_direction market_data)
       <= direction_confidence (predict_direction market_data).
Proof.
  unfold predict_direction, predict_direction_body.
  destruct (get_object market_data "indicators") as [indicators|e];
    cbn [result_bind].
  2:{ exists "SIDEWAYS"%string, 0.3. cbn. repeat split; auto; lra. }
  destruct (vote (py_gt _ _) (py_lt _ _)) as [v1|e] eqn:E1;
    cbn [result_bind].
  2:{ exists "SIDEWAYS"%string, 0.3. cbn. repeat split; auto; lra. }
  destruct (vote (py_lt _ (JNum 30)) _) as [v2|e] eqn:E2;
    cbn [result_bind].
  2:{ exists "SIDEWAYS"%string, 0.3. cbn. repeat split; auto; lra. }
  destruct (vote (py_gt _ (JNum 0.01)) _) as [v3|e] eqn:E3;
    cbn [result_bind].
  2:{ exists "SIDEWAYS"%string, 0.3. cbn. repeat split; auto; lra. }
  apply vote_range in E1, E2, E3.
  destruct (py_gt _ (JNum 0.25)) as [hv|e]; cbn [result_bind].
  2:{ destruct (if (0 <? _)%Z then _ else _) as [d c]; cbn.
      exists "SIDEWAYS"%string, 0.3. cbn. repeat split; auto; lra. }
  destruct E1 as [-> | [-> | ->]], E2 as [-> | [-> | ->]],
    E3 as [-> | [-> | ->]], hv;
    match goal with
    | |- context [if (0 <? ?s)%Z then ?a else ?b] =>
        let r := eval vm_compute in (if (0 <? s)%Z then a else b) in
        change (if (0 <? s)%Z then a else b) with r
    end;
    cbn [result_bind];
    match goal with
    | |- context [{| direction := ?d |}] =>
        listed_pair ltac:(fun c =>
          exists d, c;
          cbn [direction direction_confidence success_probability];
          solve [split; [simpl; tauto|];
                 split; [reflexivity|];
                 split; [vm_compute; reflexivity|];
                 vm_compute; discriminate])
    end.
Qed.

(** X29. Whatever the request, [predict_direction] returns one of
    fifteen pairs of a direction and a confidence: the confidence lies
    between 0.3 and 0.85, it is at most 0.4 exactly for SIDEWAYS, and
    the success probability never exceeds it. *)
Theorem simple_prediction_is_listed :
  forall market_data : gmap string json,
    let p := predict_direction market_data in
    (exists c : Q,
       In (direction p, c) listed_predictions
       /\ direction_confidence p == c)
    /\ 0.3 <= direction_confidence p <= 0.85
    /\ (direction p = "SIDEWAYS"%string <-> direction_confidence p <= 0.4)
    /\ success_probability p <= direction_confidence p.
Proof.
  intros md. cbv zeta.
  destruct (predict_direction_listed md) as (d & c & Hin & Hd & Hc & Hs).
  rewrite Hd. split; [exists c; auto|].
  split; [|split; [|exact Hs]];
    unfold listed_predictions in Hin; cbn [In] in Hin;
    repeat (destruct Hin as [[= <- <-]|Hin]);
    try (destruct Hin);
    rewrite Hc;
    try (split; [vm_compute; discriminate|vm_compute; discriminate]);
    (split; intros H; [try reflexivity; try discriminate H;
                       try (vm_compute; discriminate)
                      |try reflexivity; exfalso; revert H;
                       vm_compute; intros H; apply H; reflexivity]).
Qed.

Lemma simple_prediction_is_listed_witness :
  direction (predict_direction three_votes_up) = "UP"%string
  /\ direction_confidence (predict_direction three_votes_up) == 0.85
  /\ 0.3 <= direction_confidence (predict_direction three_votes_up) <= 0.85.
Proof.
  split; [vm_compute; reflexivity|].
  split; [vm_compute; reflexivity|].
  apply (simple_prediction_is_listed three_votes_up).
Defined.

Ltac decide_comparisons :=
  repeat match goal with
         | |- context [Qlt_bool ?a ?b] =>
             let E := fresh "E" in
             destruct (Qlt_bool a b) eqn:E;
             [apply Qlt_bool_iff in E | apply Qlt_bool_false_iff in E]
         end.

Lemma recommendation_confidence (p : SimplePrediction)
  (market_data : gmap string json) :
  confidence (generate_trading_recommendation p market_data)
  = direction_confidence p.
Proof.
  unfold generate_trading_recommendation.
  destruct (String.eqb (direction p) "UP" && _);
    [reflexivity|].
  destruct (String.eqb (direction p) "DOWN" && _); reflexivity.
Qed.

(** What the recommendation makes of a listed pair. *)
Lemma recommendation_of_listed (p : SimplePrediction)
  (market_data : gmap string json) (c : Q) :
  In (direction p, c) listed_predictions ->
  direction_confidence p == c ->
  let r := generate_trading_recommendation p market_data in
  (action r = BUY -> direction p = "UP"%string /\ 0.64 <= confidence r)
  /\ (action r = SELL ->
      direction p = "DOWN"%string /\ 0.64 <= confidence r)
  /\ (action r <> HOLD -> risk_level r <> HIGH /\ 0.8 <= position_size r)
  /\ (action r = HOLD -> position_size r <= 0.5)
  /\ (direction p = "SIDEWAYS"%string ->
      action r = HOLD /\ position_size r == 0.3)
  /\ (risk_level r = LOW <-> confidence r == 0.85)
  /\ (risk_level r = HIGH <-> confidence r < 0.4).
Proof.
  intros Hin Hc. cbv zeta. unfold generate_trading_recommendation.
  destruct p as [d conf sp ep]. cbn [direction direction_confidence] in *.
  unfold listed_predictions in Hin. cbn [In] in Hin.
  repeat (destruct Hin as [[= <- <-]|Hin]); try (destruct Hin);
    cbn [String.eqb Ascii.eqb Bool.eqb andb negb];
    decide_comparisons; try (exfalso; lra);
    cbn [action confidence risk_level position_size];
    repeat split; intros; try discriminate; try reflexivity;
    try congruence; try lra.
Qed.

(** X30. The simple [/predict] endpoint refuses an empty object with
    status 400 and answers any other; the overall confidence and the
    confidence of the recommendation are the direction confidence.  BUY
    is only said on UP and SELL only on DOWN, each at a confidence of
    0.64 and more, with a position size of 0.8 and more and never at
    HIGH risk; SIDEWAYS is always held at a position size of 0.3; the
    risk is LOW exactly at confidence 0.85 and HIGH exactly below
    0.4. *)
Theorem simple_endpoint_recommends_along_the_prediction :
  forall data : gmap string json,
    data <> ∅ ->
    exists (index_name current_price : json) (r : SimpleRecommendation),
      let p := predict_direction data in
      predict data
      = Answer index_name current_price p r (direction_confidence p)
      /\ confidence r = direction_confidence p
      /\ (action r = BUY -> direction p = "UP"%string /\ 0.64 <= confidence r)
      /\ (action r = SELL ->
          direction p = "DOWN"%string /\ 0.64 <= confidence r)
      /\ (action r <> HOLD ->
          risk_level r <> HIGH /\ 0.8 <= position_size r)
      /\ (action r = HOLD -> position_size r <= 0.5)
      /\ (direction p = "SIDEWAYS"%string ->
          action r = HOLD /\ position_size r == 0.3)
      /\ (risk_level r = LOW <-> confidence r == 0.85)
      /\ (risk_level r = HIGH <-> confidence r < 0.4).
Proof.
  intros data Hne. unfold predict.
  destruct (decide (data = ∅)) as [Hempty|_]; [contradiction|].
  eexists _, _, _. cbv zeta. split; [reflexivity|].
  split; [apply recommendation_confidence|].
  destruct (predict_direction_listed data) as (d & c & Hin & Hd & Hc & _).
  rewrite <- Hd in Hin.
  apply (recommendation_of_listed (predict_direction data) data c Hin Hc).
Qed.

Lemma simple_endpoint_recommends_along_the_prediction_witness :
  exists (index_name current_price : json) (r : SimpleRecommendation),
    predict three_votes_up
    = Answer index_name current_price (predict_direction three_votes_up) r
        (direction_confidence (predict_direction three_votes_up))
    /\ action r = BUY /\ risk_level r = LOW.
Proof.
  destruct (simple_endpoint_recommends_along_the_prediction three_votes_up)
    as (index_name & current_price & r & Hanswer & Hconf & _ & _ & _ & _
        & _ & Hlow & _).
  - intros H.
    apply (f_equal (fun m => m !! "indexName"%string)) in H.
    vm_compute in H. discriminate.
  - exists index_name, current_price, r. cbv zeta in Hanswer.
    split; [exact Hanswer|].
    assert (Hr : r = generate_trading_recommendation
                       (predict_direction three_votes_up) three_votes_up).
    { unfold predict in Hanswer.
      destruct (decide (three_votes_up = ∅)); [discriminate|].
      injection Hanswer as _ _ Hr. symmetry. exact Hr. }
    split.
    + rewrite Hr. vm_compute. reflexivity.
    + apply Hlow. rewrite Hconf. vm_compute. reflexivity.
Defined.

End SimpleFacts.

(** ** The Sharpe ratio on doubles *)

Module Float64Facts.

Import PrimFloat BacktestingFloat64 Float64Terms.

(** The length of the array is enough fuel for the pairwise sum: more
    fuel gives the same sum. *)
Lemma pairwise_sum_fuel (fuel1 : nat) :
  forall (fuel2 : nat) (a : list float),
    (length a <= fuel1)%nat -> (length a <= fuel2)%nat ->
    pairwise_sum fuel1 a = pairwise_sum fuel2 a.
Proof.
  induction fuel1 as [|fuel1 IH]; intros fuel2 a H1 H2.
  - destruct fuel2; cbn [pairwise_sum];
      destruct (length a <=? PW_BLOCKSIZE)%nat eqn:E; try reflexivity.
    apply Nat.leb_gt in E. unfold PW_BLOCKSIZE in E. lia.
  - destruct fuel2; cbn [pairwise_sum];
      destruct (length a <=? PW_BLOCKSIZE)%nat eqn:E; try reflexivity.
    + apply Nat.leb_gt in E. unfold PW_BLOCKSIZE in E. lia.
    + apply Nat.leb_gt in E. unfold PW_BLOCKSIZE in E.
      assert (Hcut : (1 <= length a / 2 - (length a / 2) mod 8
                      < length a)%nat).
      { pose proof (Nat.div_mod_eq (length a) 2) as Hd.
        pose proof (Nat.mod_upper_bound (length a) 2 ltac:(lia)) as Hm.
        pose proof (Nat.mod_upper_bound (length a / 2) 8 ltac:(lia)) as Hr.
        lia. }
      f_equal; apply IH;
        rewrite ?length_firstn, ?length_skipn; lia.
Qed.

Local Open Scope float_scope.

(** C9, on the code.  The guard of [calculate_sharpe_ratio] tests the
    rounded standard deviation of the returns and the division is by the
    rounded standard deviation of the excess returns; on doubles the two
    differ.  For three returns of 0.7 the first is 1.1e-16, so the guard
    does not fire, and the second is 0: the function divides by zero and
    returns infinity.  For three returns of 0.1 both are 1.4e-17 and the
    function returns 1.1e17.  Both series have no variance.  An empty
    series gives 0. *)
Theorem sharpe_guard_misses_a_constant_series :
  constant three_times_07 /\ constant three_times_01
  /\ eqb (np_std three_times_07) 0 = false
  /\ np_std (map (fun r => r - risk_free_rate / 252) three_times_07) = 0
  /\ calculate_sharpe_ratio three_times_07 risk_free_rate = infinity
  /\ eqb (np_std three_times_01) 0 = false
  /\ calculate_sharpe_ratio three_times_01 risk_free_rate
     = 0x1.9594c17933785p+56
  /\ calculate_sharpe_ratio [] risk_free_rate = 0.
Proof.
  split; [|split].
  - eexists. repeat constructor.
  - eexists. repeat constructor.
  - repeat split; vm_compute; reflexivity.
Qed.

End Float64Facts.
